(** * Location enrichment and spatial dataset queries of the field validator

    A shallow embedding of the TypeScript services behind [enrichLocation]:
    the dataset manager ([getValuesAtPoint]), the CoreStack client, the
    weather client, the Dynamic World client and the location data service
    that fans out to them and merges what settles.

    Conventions of the embedding.
    - A promise (or a call that may throw) is an [Outcome]: [Fulfilled v] or
      [Rejected reason], where [reason] is the text that a template literal
      prints for the thrown value.
    - Coordinates are rationals ([Q]); the exact value of the JavaScript
      number, NaN and the infinities left out.  Other JSON numbers (years,
      counts, attribute values) are integers ([Z]).
    - A JavaScript object used as a dictionary is a [gmap string _].
    - Code outside the repository is an interface: [Turf] for
      [turf.booleanPointInPolygon]; [CoreStackService.Api],
      [WeatherService.Api] and [DynamicWorldService.Files] for what [fetch]
      answers.
    - The files that the services load are typed as the source types
      them: a GeoJSON file is a collection of features, a table is its
      rows.  What [fetch] and the database answer is an interface as well
      ([DatasetManager.Sources], [LocationDataService.BoundaryFiles],
      [LocationDataService.BlockFile]).
    - Numbers are exact: where the source computes in doubles (the shares
      of the land-cover classes), the statements use the results only
      through what does not depend on rounding.
    - Every clock reading ([Date.now()], [new Date().toISOString()]) is an
      argument. *)

From Stdlib Require Import ZArith QArith Qround Qabs String Ascii List Lqa.
From stdpp Require Import base gmap strings list option pretty.

#[local] Set Warnings "-register-all".

(** ** JavaScript values *)

Inductive JsVal : Type :=
  | JUndefined
  | JNull
  | JBool (b : bool)
  | JNum (n : Z)
  | JStr (s : string)
  | JArr (items : list JsVal)
  | JObj (members : gmap string JsVal)
  | JFunction (name : string).   (* a method that every object inherits *)

(** ToBoolean. *)
Definition truthy (v : JsVal) : bool :=
  match v with
  | JUndefined | JNull => false
  | JBool b => b
  | JNum n => negb (n =? 0)%Z
  | JStr s => negb (s =? "")%string
  | JArr _ | JObj _ | JFunction _ => true
  end.

(** [a || b]. *)
Definition js_or (a b : JsVal) : JsVal := if truthy a then a else b.

(** A JavaScript object is embedded as the map of its own properties.
    [o.k] for one of the keys that the source spells out ([year],
    [DISTRICT], ...): [undefined] when the key is missing. *)
Definition prop (o : gmap string JsVal) (k : string) : JsVal :=
  default JUndefined (o !! k).

(** The methods that a plain object inherits from [Object.prototype]. *)
Definition inheritedMethods : list string :=
  [ "constructor"; "__defineGetter__"; "__defineSetter__"; "hasOwnProperty";
    "__lookupGetter__"; "__lookupSetter__"; "isPrototypeOf"; "propertyIsEnumerable";
    "toString"; "valueOf"; "toLocaleString" ].

(** [o[k]] for a key that is data: an own property, else what the
    prototype chain of a plain object gives ([Object.prototype] itself for
    ["__proto__"], a method for the names above), else [undefined]. *)
Definition member (o : gmap string JsVal) (k : string) : JsVal :=
  match o !! k with
  | Some v => v
  | None =>
      if (k =? "__proto__")%string then JObj ∅
      else if bool_decide (k ∈ inheritedMethods) then JFunction k
      else JUndefined
  end.

(** [o[k] = v] for a key that is data.  ["__proto__"] is an accessor of
    [Object.prototype]: assigning to it sets the prototype (or does
    nothing) and adds no own property. *)
Definition setMember {A} (k : string) (v : A) (o : gmap string A) : gmap string A :=
  if (k =? "__proto__")%string then o else <[k := v]> o.

(** [a === b] on primitives (also SameValueZero, NaN being left out).  Two
    arrays or objects are equal only as references, which the cells of a
    parsed CSV never are: the embedding answers [false] for them. *)
Definition strictEq (a b : JsVal) : bool :=
  match a, b with
  | JUndefined, JUndefined => true
  | JNull, JNull => true
  | JBool x, JBool y => Bool.eqb x y
  | JNum x, JNum y => (x =? y)%Z
  | JStr x, JStr y => (x =? y)%string
  | JFunction x, JFunction y => (x =? y)%string
  | _, _ => false
  end.

(** ToNumber on the values that a year of a parsed table takes, [None]
    standing for NaN.  Dynamic typing has turned the numeric cells into
    numbers; the conversion of the strings that it left (digits beyond the
    safe integers, other notations) is not embedded, and they count as
    NaN: the statements on the order of years are about numbers. *)
Definition toNumber (v : JsVal) : option Z :=
  match v with
  | JNum n => Some n
  | JNull => Some 0%Z
  | JBool b => Some (if b then 1 else 0)%Z
  | JStr s => if (s =? "")%string then Some 0%Z else None
  | _ => None
  end.

(** ** Promises and exceptions *)

Inductive Outcome (A : Type) : Type :=
  | Fulfilled (value : A)
  | Rejected (reason : string).
Arguments Fulfilled {A} value.
Arguments Rejected {A} reason.

#[global] Instance Outcome_ret : MRet Outcome := @Fulfilled.
#[global] Instance Outcome_bind : MBind Outcome := fun A B f m =>
  match m with
  | Fulfilled v => f v
  | Rejected r => Rejected r
  end.

(** The value a settled promise contributes to the report: the branches of
    [enrichLocation] test [status === 'fulfilled' && value]. *)
Definition settledValue {A} (m : Outcome (option A)) : option A :=
  match m with Fulfilled v => v | Rejected _ => None end.

(** ** GeoJSON *)

(** A position is [[lon, lat]]. *)
Definition Position : Type := Q * Q.

Inductive Geometry : Type :=
  | Point (coordinates : Position)
  | LineString (coordinates : list Position)
  | Polygon (rings : list (list Position))
  | MultiPolygon (polygons : list (list (list Position)))
  | GeometryCollection.

(** [geometry.type === 'Polygon' || geometry.type === 'MultiPolygon']. *)
Definition isPolygonal (g : Geometry) : bool :=
  match g with
  | Polygon _ | MultiPolygon _ => true
  | _ => false
  end.

Record Feature : Type := {
  geometry : Geometry;
  properties : option (gmap string JsVal)   (* a GeoJSON feature may carry null *)
}.

Record FeatureCollection : Type := { features : list Feature }.

(** [turf.booleanPointInPolygon]: outside the repository, hence an
    interface.  It may throw, which [isPointInBoundary] expects. *)
Class Turf : Type := {
  booleanPointInPolygon : Position → Geometry → Outcome bool
}.

(** [turf.point([lon, lat])]. *)
Definition turfPoint (lon lat : Q) : Position := (lon, lat).

(** *** A reference instance: even-odd ray casting

    Used for the concrete scenarios only; the general theorems quantify over
    every instance of [Turf]. *)

Definition Qltb (a b : Q) : bool := negb (Qle_bool b a).

Definition edgeCrosses (pt a b : Position) : bool :=
  let '(x, y) := pt in
  let '(xi, yi) := a in
  let '(xj, yj) := b in
  xorb (Qltb y yi) (Qltb y yj)
  && Qltb x ((xj - xi) * (y - yi) / (yj - yi) + xi).

Fixpoint inRingFrom (pt prev : Position) (ring : list Position) (inside : bool) : bool :=
  match ring with
  | [] => inside
  | cur :: rest =>
      inRingFrom pt cur rest (if edgeCrosses pt cur prev then negb inside else inside)
  end.

Definition inRing (pt : Position) (ring : list Position) : bool :=
  match last ring with
  | None => false
  | Some l => inRingFrom pt l ring false
  end.

Definition inPolygon (pt : Position) (rings : list (list Position)) : bool :=
  match rings with
  | [] => false
  | outer :: holes => inRing pt outer && forallb (fun h => negb (inRing pt h)) holes
  end.

Definition rayCast (pt : Position) (g : Geometry) : bool :=
  match g with
  | Polygon rings => inPolygon pt rings
  | MultiPolygon polys => existsb (inPolygon pt) polys
  | _ => false
  end.

Definition rayCastTurf : Turf :=
  {| booleanPointInPolygon := fun pt g => Fulfilled (rayCast pt g) |}.

(** *** A second instance: a test that insists on closed rings

    The routine that turf 7 hands each polygon to compares the first and
    the last position of a ring before it looks at the point and throws
    when they differ in both coordinates (on an empty ring it fails
    earlier, at the coordinate of a position that is not there).  This
    instance does so for every ring, in order, and then answers like
    [rayCast]; it serves the scenarios in which the test throws, for
    points that lie on no edge. *)

Definition ringError (ring : list Position) : option string :=
  match ring, last ring with
  | first :: _, Some final =>
      if negb (Qeq_bool (fst first) (fst final)) && negb (Qeq_bool (snd first) (snd final))
      then Some "Error: First and last coordinates in a ring must be the same"
      else None
  | _, _ => Some "TypeError: Cannot read properties of undefined (reading '0')"
  end.

Definition firstRingError (rings : list (list Position)) : option string :=
  foldr (fun ring later => match ringError ring with Some e => Some e | None => later end)
        None rings.

Definition ringsOf (g : Geometry) : list (list Position) :=
  match g with
  | Polygon rings => rings
  | MultiPolygon polys => concat polys
  | _ => []
  end.

Definition closedRingTurf : Turf :=
  {| booleanPointInPolygon := fun pt g =>
       match firstRingError (ringsOf g) with
       | Some e => Rejected e
       | None => Fulfilled (rayCast pt g)
       end |}.

(** ** What the network answers *)

(** The body of a response that is not ok, as far as [request] of the
    CoreStack client reads it: no JSON at all, the JSON [null], or a JSON
    value with its [message] and [detail] (strings when present). *)
Inductive ErrorBody : Type :=
  | NoJson (statusText : string)
  | JsonNull
  | JsonBody (message detail : option string).

(** The result of [fetch] followed by [response.json()]. *)
Inductive FetchResult (T : Type) : Type :=
  | FetchFailed (reason : string)                    (* [fetch] itself rejects *)
  | HttpError (status : Z) (body : ErrorBody)        (* [!response.ok] *)
  | HttpOk (body : Outcome T).                       (* [response.json()] may reject *)
Arguments FetchFailed {T} reason.
Arguments HttpError {T} status body.
Arguments HttpOk {T} body.

(** ** DatasetManager *)

Module DatasetManager.

Inductive LayerType := vector | raster | csv | image_overlay.

Inductive SourceFormat := fmt_geojson | fmt_csv | fmt_pmtiles | fmt_mbtiles | fmt_tiff | fmt_png.

Inductive QueryMode := feature_at_point | summary | buffer.

Record LayerSource : Type := { format : SourceFormat; path : string }.

(** [fields] is mandatory whenever a layer has a [query]. *)
Record LayerQuery : Type := { mode : QueryMode; fields : list string }.

Record DatasetLayer : Type := {
  id : string;
  title : string;
  type : LayerType;
  source : LayerSource;
  query : option LayerQuery;
  enabled : bool
}.

(** A row of a CSV parsed with [header: true]. *)
Abbreviation Row := (gmap string JsVal) (only parsing).

(** What [loadLayer] stores in [loadedData]: the collection of a GeoJSON
    file, the rows of a CSV file, the JSON of a file of another format. *)
Inductive LayerData : Type :=
  | GeoJsonData (fc : FeatureCollection)
  | RowsData (records : list Row)
  | JsonData (json : JsVal).

Record State : Type := {
  manifest_layers : list DatasetLayer;
  loadedData : gmap string LayerData;
  geojsonLayers : gmap string FeatureCollection
}.

(** [DatasetValues]: layer id to field to value. *)
Abbreviation LayerValues := (gmap string JsVal) (only parsing).

Definition getLayers (st : State) : list DatasetLayer := manifest_layers st.

(** [manifest.layers.find(l => l.id === id)]. *)
Definition getLayerById (st : State) (layerId : string) : option DatasetLayer :=
  List.find (fun l => (id l =? layerId)%string) (manifest_layers st).

Definition isFormat (a b : SourceFormat) : bool :=
  match a, b with
  | fmt_geojson, fmt_geojson | fmt_csv, fmt_csv | fmt_pmtiles, fmt_pmtiles
  | fmt_mbtiles, fmt_mbtiles | fmt_tiff, fmt_tiff | fmt_png, fmt_png => true
  | _, _ => false
  end.

(** [feature.properties?.[field]]. *)
Definition featureField (f : Feature) (field : string) : JsVal :=
  match properties f with
  | Some ps => member ps field
  | None => JUndefined
  end.

(** The body of [if (booleanPointInPolygon(...)) { ... break; }].  An array
    is truthy even when empty, so [layer.query?.fields] is falsy exactly
    when the layer has no [query]. *)
Definition extractFields (q : option LayerQuery) (f : Feature) : LayerValues :=
  match q with
  | Some lq =>
      foldl (fun acc field => setMember field (featureField f field) acc) ∅ (fields lq)
  | None => default ∅ (properties f)
  end.

(** The loop over [geojson.features]: the first polygon or multipolygon
    that contains the point decides, [{}] when none does. *)
Fixpoint firstContaining `{Turf} (pt : Position) (q : option LayerQuery)
    (fs : list Feature) : Outcome LayerValues :=
  match fs with
  | [] => Fulfilled ∅
  | f :: rest =>
      if isPolygonal (geometry f) then
        inside ← booleanPointInPolygon pt (geometry f);
        if (inside : bool) then Fulfilled (extractFields q f)
        else firstContaining pt q rest
      else firstContaining pt q rest
  end.

(** [r.year]. *)
Definition yearOf (r : Row) : JsVal := prop r "year".

Definition isDefined (v : JsVal) : bool :=
  match v with JUndefined => false | _ => true end.

(** [Array.from(new Set(l))]: first occurrences, in insertion order. *)
Definition uniqueValues (l : list JsVal) : list JsVal :=
  foldl (fun seen v => if existsb (strictEq v) seen then seen else seen ++ [v]) [] l.

(** The comparator [(a, b) => (b as number) - (a as number)]; a NaN
    result counts as [0], as [Array.prototype.sort] reads it. *)
Definition compareYearsDesc (a b : JsVal) : Z :=
  match toNumber b, toNumber a with
  | Some nb, Some na => (nb - na)%Z
  | _, _ => 0%Z
  end.

(** [Array.prototype.sort], as a stable insertion sort.  For a comparator
    that is not consistent (years that are not numbers) the order that an
    engine produces is implementation-defined. *)
Fixpoint insertSorted (cmp : JsVal → JsVal → Z) (x : JsVal) (l : list JsVal) : list JsVal :=
  match l with
  | [] => [x]
  | y :: rest =>
      if (0 <? cmp y x)%Z then x :: y :: rest else y :: insertSorted cmp x rest
  end.

Definition sortWith (cmp : JsVal → JsVal → Z) (l : list JsVal) : list JsVal :=
  foldl (fun acc x => insertSorted cmp x acc) [] l.

Definition sortedYears (records : list Row) : list JsVal :=
  sortWith compareYearsDesc
    (uniqueValues (List.filter isDefined (List.map yearOf records))).

Definition sampleOf (records : list Row) : JsVal :=
  JArr (List.map JObj (take 3 records)).

(** The summary of a CSV layer with at least one record. *)
Definition csvSummary (records : list Row) : LayerValues :=
  match sortedYears records with
  | latestYear :: _ =>
      let latestRecords := List.filter (fun r => strictEq (yearOf r) latestYear) records in
      <["_sample" := sampleOf latestRecords]>
        (<["_recordCount" := JNum (Z.of_nat (length latestRecords))]>
          (<["_year" := latestYear]>
            (<["_source" := JStr "csv_summary"]> ∅)))
  | [] =>
      <["_sample" := sampleOf records]>
        (<["_recordCount" := JNum (Z.of_nat (length records))]>
          (<["_source" := JStr "csv_summary"]> ∅))
  end.

(** One turn of the loop over [activeLayerIds]: [None] is [continue]
    (nothing is written for the layer), [Some v] is what the turn leaves
    behind [values[layerId]]. *)
Definition queryLayer `{Turf} (st : State) (pt : Position) (layerId : string)
    : Outcome (option LayerValues) :=
  match getLayerById st layerId with
  | None => Fulfilled None
  | Some layer =>
      match loadedData st !! layerId with
      | None => Fulfilled None
      | Some data =>
          v ← (if isFormat (format (source layer)) fmt_geojson then
                 match geojsonLayers st !! layerId with
                 | Some geojson => firstContaining pt (query layer) (features geojson)
                 | None => Fulfilled ∅
                 end
               else Fulfilled ∅);
          if isFormat (format (source layer)) fmt_csv then
            match data with
            | RowsData (r :: records) => Fulfilled (Some (csvSummary (r :: records)))
            | _ => Fulfilled (Some v)
            end
          else Fulfilled (Some v)
      end
  end.

Fixpoint queryLayers `{Turf} (st : State) (pt : Position) (ids : list string)
    (values : gmap string LayerValues) : Outcome (gmap string LayerValues) :=
  match ids with
  | [] => Fulfilled values
  | layerId :: rest =>
      r ← queryLayer st pt layerId;
      queryLayers st pt rest
        (match r with Some v => setMember layerId v values | None => values end)
  end.

Definition getValuesAtPoint `{Turf} (st : State) (lat lon : Q)
    (activeLayerIds : list string) : Outcome (gmap string LayerValues) :=
  queryLayers st (turfPoint lon lat) activeLayerIds ∅.

(** *** [initialize] *)

(** The parsed content of the file of a layer, by the format of the
    layer. *)
Definition DataOf (fmt : SourceFormat) : Type :=
  match fmt with
  | fmt_geojson => FeatureCollection
  | fmt_csv => list Row
  | _ => JsVal
  end.

Definition asLayerData (fmt : SourceFormat) : DataOf fmt → LayerData :=
  match fmt with
  | fmt_geojson => GeoJsonData
  | fmt_csv => RowsData
  | _ => JsonData
  end.

(** [if (data)]: a collection and an array are truthy. *)
Definition truthyData (fmt : SourceFormat) : DataOf fmt → bool :=
  match fmt with
  | fmt_geojson => fun _ => true
  | fmt_csv => fun _ => true
  | _ => truthy
  end.

(** What [initialize] reads.  The JSON of the custom manifest is assigned
    to [this.manifest] as it is: [None] stands for a JSON object without
    [layers].  [cached_dataset] is [getCachedDataset(layer.id)]
    ([undefined] without a record or a database), [layer_file] the file of
    the layer parsed as [loadLayer] does, [cache_dataset] whether
    [cacheDataset(layer.id, data)] succeeds. *)
Class Sources : Type := {
  manifest_file : FetchResult (option (list DatasetLayer));
  cached_dataset : ∀ layer : DatasetLayer, Outcome (option (DataOf (format (source layer))));
  layer_file : ∀ layer : DatasetLayer, FetchResult (DataOf (format (source layer)));
  cache_dataset : DatasetLayer → Outcome unit
}.

Definition loadLayer `{Sources} (layer : DatasetLayer)
    : Outcome (DataOf (format (source layer))) :=
  match layer_file layer with
  | FetchFailed reason => Rejected reason
  | HttpError _ _ => Rejected ("Error: Failed to fetch " +:+ path (source layer))
  | HttpOk body => body
  end.

(** [this.loadedData.set(layer.id, data)]. *)
Definition setLoaded (layerId : string) (fmt : SourceFormat) (data : DataOf fmt) (st : State)
    : State :=
  {| manifest_layers := manifest_layers st;
     loadedData := <[layerId := asLayerData fmt data]> (loadedData st);
     geojsonLayers := geojsonLayers st |}.

(** [if (layer.source.format === 'geojson') this.geojsonLayers.set(layer.id, data)]. *)
Definition setGeojson (layerId : string) (fmt : SourceFormat) : DataOf fmt → State → State :=
  match fmt with
  | fmt_geojson => fun fc st =>
      {| manifest_layers := manifest_layers st;
         loadedData := loadedData st;
         geojsonLayers := <[layerId := fc]> (geojsonLayers st) |}
  | _ => fun _ st => st
  end.

(** The body that [preloadLayers] runs for an enabled layer, all of it
    inside [try]/[catch]: the cache first, then the file.  When
    [cacheDataset] rejects, [loadedData] has the layer already and
    [geojsonLayers] does not get it. *)
Definition loadFromSource `{Sources} (st : State) (layer : DatasetLayer) : State :=
  match loadLayer layer with
  | Fulfilled data =>
      if truthyData _ data then
        let st1 := setLoaded (id layer) _ data st in
        match cache_dataset layer with
        | Fulfilled _ => setGeojson (id layer) _ data st1
        | Rejected _ => st1
        end
      else st
  | Rejected _ => st
  end.

Definition preloadLayer `{Sources} (st : State) (layer : DatasetLayer) : State :=
  match cached_dataset layer with
  | Fulfilled (Some cached) =>
      if truthyData _ cached
      then setGeojson (id layer) _ cached (setLoaded (id layer) _ cached st)
      else loadFromSource st layer
  | Fulfilled None => loadFromSource st layer
  | Rejected _ => st
  end.

(** [preloadLayers] once [this.manifest.layers] is there.  The bodies that
    [Promise.all] runs write under the ids of their layers; the embedding
    runs them in the order of the manifest. *)
Definition preloadLayers `{Sources} (st : State) : State :=
  foldl preloadLayer st (List.filter enabled (manifest_layers st)).

(** [initialize]: the custom manifest replaces the default one when it is
    fetched and parsed, whatever it holds; a failure is caught.
    [preloadLayers] follows outside the [try] and starts with
    [this.manifest.layers.filter(...)]. *)
Definition initialize `{Sources} (st : State) : Outcome State :=
  match manifest_file with
  | HttpOk (Fulfilled (Some layers)) =>
      Fulfilled (preloadLayers {| manifest_layers := layers;
                                  loadedData := loadedData st;
                                  geojsonLayers := geojsonLayers st |})
  | HttpOk (Fulfilled None) =>
      Rejected "TypeError: Cannot read properties of undefined (reading 'filter')"
  | _ => Fulfilled (preloadLayers st)
  end.

End DatasetManager.

(** ** CoreStackService *)

Module CoreStackService.

Record AdminDetails : Type := {
  state_name : option string;
  state_code : option string;
  district_name : option string;
  district_code : option string;
  tehsil_name : option string;
  tehsil_code : option string
}.

Record MwsId : Type := { mws_id : string }.

Record KYLIndicator : Type := {
  indicator_name : string;
  value : JsVal
}.

(** The endpoints of the CoreStack API that the enrichment uses.  The JSON
    of the first two may be [null]. *)
Class Api : Type := {
  get_admin_details_by_latlon : Q → Q → FetchResult (option AdminDetails);
  get_mwsid_by_latlon : Q → Q → FetchResult (option MwsId);
  get_mws_kyl_indicators : string → FetchResult (list KYLIndicator)
}.

Record State : Type := {
  apiKey : option string;
  isOnline : bool
}.

(** [private static readonly DEFAULT_API_KEY = '...']: the source carries
    a literal key here.  Its characters are replaced; only that the string
    is not empty matters. *)
Definition DEFAULT_API_KEY : string := "<redacted CoreStack key>".

(** A string is truthy unless empty; [null] is falsy. *)
Definition nonEmpty (s : option string) : bool :=
  match s with
  | Some v => negb (v =? "")%string
  | None => false
  end.

(** The constructor: [localStorage.getItem('corestack_api_key') ||
    DEFAULT_API_KEY], and [navigator.onLine]. *)
Definition create (localStorage : gmap string string) (navigatorOnLine : bool) : State :=
  {| apiKey :=
       (let stored := localStorage !! "corestack_api_key" in
        if nonEmpty stored then stored else Some DEFAULT_API_KEY);
     isOnline := navigatorOnLine |}.

Definition setApiKey (key : string) (st : State) (localStorage : gmap string string)
    : State * gmap string string :=
  ({| apiKey := Some key; isOnline := isOnline st |},
   <["corestack_api_key" := key]> localStorage).

(** [!!this.apiKey]. *)
Definition hasApiKey (st : State) : bool := nonEmpty (apiKey st).

Definition isAvailable (st : State) : bool := isOnline st && hasApiKey st.

(** [error.message || error.detail || `API error: ${response.status}`],
    where [error] is the body of the response, or
    [{ message: response.statusText }] when the body is no JSON.  On the
    body [null] the access [error.message] throws. *)
Definition errorText (status : Z) (body : ErrorBody) : string :=
  match body with
  | NoJson statusText =>
      "Error: " +:+ (if nonEmpty (Some statusText) then statusText
                     else "API error: " +:+ pretty status)
  | JsonNull => "TypeError: Cannot read properties of null (reading 'message')"
  | JsonBody message detail =>
      "Error: " +:+ (if nonEmpty message then default "" message
                     else if nonEmpty detail then default "" detail
                     else "API error: " +:+ pretty status)
  end.

(** [request]: the two guards, then the answer of the network. *)
Definition request {T} (st : State) (answer : FetchResult T) : Outcome T :=
  if negb (isOnline st) then Rejected "Error: Offline - cannot access CoreStack API"
  else if negb (nonEmpty (apiKey st)) then Rejected "Error: API key not configured"
  else match answer with
       | FetchFailed r => Rejected r
       | HttpError status body => Rejected (errorText status body)
       | HttpOk body => body
       end.

Definition getAdminDetailsByLatLon `{Api} (st : State) (lat lon : Q)
    : Outcome (option AdminDetails) :=
  request st (get_admin_details_by_latlon lat lon).

Definition getMWSIdByLatLon `{Api} (st : State) (lat lon : Q) : Outcome (option MwsId) :=
  request st (get_mwsid_by_latlon lat lon).

Definition getMWSKYLIndicators `{Api} (st : State) (mwsId : string)
    : Outcome (list KYLIndicator) :=
  request st (get_mws_kyl_indicators mwsId).

End CoreStackService.

(** ** WeatherService *)

Module WeatherService.

Record CurrentWeather : Type := {
  temperature : Q;
  humidity : Q;
  precipitation : Q;
  windSpeed : Q;
  windDirection : Q;
  weatherCode : Z;
  weatherDescription : string;
  isDay : bool
}.

(** The daily arrays of the API are read by index, so an entry of a
    forecast may be [undefined] ([None]). *)
Record WeatherForecast : Type := {
  date : string;
  tempMax : option Q;
  tempMin : option Q;
  precipitationSum : option Q;
  precipitationProbability : option Q;
  dailyWeatherCode : option Z;
  dailyWeatherDescription : string
}.

Record WeatherData : Type := {
  current : CurrentWeather;
  forecast : list WeatherForecast;
  fetchedAt : string
}.

(** The JSON of the forecast API, as far as [getWeather] reads it. *)
Record ApiCurrent : Type := {
  temperature_2m : Q;
  relative_humidity_2m : Q;
  current_precipitation : Q;
  weather_code : Z;
  wind_speed_10m : Q;
  wind_direction_10m : Q;
  is_day : Z
}.

Record ApiDaily : Type := {
  time : list string;
  daily_weather_code : list Z;
  temperature_2m_max : list Q;
  temperature_2m_min : list Q;
  precipitation_sum : list Q;
  precipitation_probability_max : list Q
}.

Record ApiForecast : Type := { api_current : ApiCurrent; api_daily : ApiDaily }.

Class Api : Type := { forecast_at : Q → Q → FetchResult ApiForecast }.

Definition WEATHER_CODES : list (Z * string) :=
  [ (0, "Clear sky"); (1, "Mainly clear"); (2, "Partly cloudy"); (3, "Overcast");
    (45, "Fog"); (48, "Depositing rime fog");
    (51, "Light drizzle"); (53, "Moderate drizzle"); (55, "Dense drizzle");
    (61, "Slight rain"); (63, "Moderate rain"); (65, "Heavy rain");
    (66, "Light freezing rain"); (67, "Heavy freezing rain");
    (71, "Slight snow"); (73, "Moderate snow"); (75, "Heavy snow");
    (80, "Slight rain showers"); (81, "Moderate rain showers"); (82, "Violent rain showers");
    (85, "Slight snow showers"); (86, "Heavy snow showers");
    (95, "Thunderstorm"); (96, "Thunderstorm with slight hail");
    (99, "Thunderstorm with heavy hail") ]%Z.

(** [WEATHER_CODES[code] || 'Unknown']. *)
Definition describe (code : option Z) : string :=
  match code with
  | Some c =>
      match List.find (fun e => (fst e =? c)%Z) WEATHER_CODES with
      | Some e => snd e
      | None => "Unknown"
      end
  | None => "Unknown"
  end.

(** The digits of [x.toFixed(3)]: the sign that is printed and the
    thousandths, halves rounded away from zero. *)
Definition toFixed3 (x : Q) : bool * Z :=
  (Qltb x 0, Qfloor (Qabs x * 1000 + (1 # 2))).

(** [`${lat.toFixed(3)},${lon.toFixed(3)}`], kept structured. *)
Definition CacheKey : Type := (bool * Z) * (bool * Z).

Definition cacheKey (lat lon : Q) : CacheKey := (toFixed3 lat, toFixed3 lon).

Record CacheEntry : Type := { data : WeatherData; expiry : Z }.

Record State : Type := {
  isOnline : bool;
  cache : gmap CacheKey CacheEntry
}.

(** [30 * 60 * 1000] milliseconds. *)
Definition cacheDuration : Z := (30 * 60 * 1000)%Z.

Definition isAvailable (st : State) : bool := isOnline st.

Definition toCurrent (c : ApiCurrent) : CurrentWeather :=
  {| temperature := temperature_2m c;
     humidity := relative_humidity_2m c;
     precipitation := current_precipitation c;
     windSpeed := wind_speed_10m c;
     windDirection := wind_direction_10m c;
     weatherCode := weather_code c;
     weatherDescription := describe (Some (weather_code c));
     isDay := (is_day c =? 1)%Z |}.

Definition toForecast (d : ApiDaily) : list WeatherForecast :=
  imap (fun i day =>
          {| date := day;
             tempMax := temperature_2m_max d !! i;
             tempMin := temperature_2m_min d !! i;
             precipitationSum := precipitation_sum d !! i;
             precipitationProbability := precipitation_probability_max d !! i;
             dailyWeatherCode := daily_weather_code d !! i;
             dailyWeatherDescription := describe (daily_weather_code d !! i) |})
       (time d).

(** The clock readings of one call: [Date.now()] at the cache test,
    [new Date().toISOString()] and [Date.now()] when the answer is stored. *)
Record Clock : Type := {
  nowAtCheck : Z;
  isoAtStore : string;
  nowAtStore : Z
}.

(** What a call did, next to what it returned. *)
Record Run : Type := {
  result : option WeatherData;
  requests : nat;         (* calls of [fetch] *)
  after : State
}.

(** [cached && cached.expiry > Date.now()]. *)
Definition freshEntry (st : State) (now : Z) (key : CacheKey) : option WeatherData :=
  match cache st !! key with
  | Some cached => if (now <? expiry cached)%Z then Some (data cached) else None
  | None => None
  end.

Definition getWeather `{Api} (st : State) (clock : Clock) (lat lon : Q) : Run :=
  if negb (isOnline st) then {| result := None; requests := 0; after := st |}
  else
    let key := cacheKey lat lon in
    match freshEntry st (nowAtCheck clock) key with
    | Some payload => {| result := Some payload; requests := 0; after := st |}
    | None =>
        (* everything from here on is inside [try { ... } catch { return null }] *)
        match forecast_at lat lon with
        | HttpOk (Fulfilled json) =>
            let weatherData :=
              {| current := toCurrent (api_current json);
                 forecast := toForecast (api_daily json);
                 fetchedAt := isoAtStore clock |} in
            {| result := Some weatherData; requests := 1;
               after := {| isOnline := isOnline st;
                           cache := <[key := {| data := weatherData;
                                                expiry := (nowAtStore clock + cacheDuration)%Z |}]>
                                      (cache st) |} |}
        | _ => {| result := None; requests := 1; after := st |}
        end
    end.

End WeatherService.

(** ** DynamicWorldService *)

Module DynamicWorldService.

(** One line of the regional CSV: areas per class for the whole region. *)
Record DynamicWorldData : Type := {
  year : Z;
  month : string;
  water : Q;
  trees : Q;
  grass : Q;
  floodedVegetation : Q;
  crops : Q;
  shrubAndScrub : Q;
  built : Q;
  bare : Q;
  snowAndIce : Q
}.

Record DynamicWorldPointData : Type := {
  lat : Q;
  lon : Q;
  timestamp : string;
  landCoverClass : string;
  confidence : Q;
  probabilities : list (string * Q)
}.

(** The regional CSV, fetched and split into lines. *)
Class Files : Type := { regional_csv : FetchResult (list DynamicWorldData) }.

Record State : Type := {
  cachedData : list DynamicWorldData;
  dataLoaded : bool
}.

Definition loadCachedData `{Files} (st : State) : State :=
  if dataLoaded st then st
  else match regional_csv with
       | HttpOk (Fulfilled rows) => {| cachedData := rows; dataLoaded := true |}
       | _ => st
       end.

(** [getRegionalStats(year?)]: [if (year)] is false for [undefined] and
    for [0]. *)
Definition getRegionalStats (st : State) (wanted : option Z) : option DynamicWorldData :=
  if negb (dataLoaded st) || (length (cachedData st) =? 0)%nat then None
  else match wanted with
       | Some y =>
           if (y =? 0)%Z then last (cachedData st)
           else List.find (fun d => (year d =? y)%Z) (cachedData st)
       | None => last (cachedData st)
       end.

(** [fetchPointData(_lat, _lon, _date?)]: warns and returns [null]. *)
Definition fetchPointData (st : State) (_lat _lon : Q) (_date : option string)
    : Outcome (option DynamicWorldPointData) :=
  Fulfilled None.

Definition isPointDataAvailable (st : State) : bool := false.

End DynamicWorldService.

(** ** String helpers of [getLocalBlockData] *)

Definition isSpace (c : ascii) : bool :=
  let n := nat_of_ascii c in
  (n =? 32)%nat || ((9 <=? n)%nat && (n <=? 13)%nat).

Definition lowerChar (c : ascii) : ascii :=
  let n := nat_of_ascii c in
  if (65 <=? n)%nat && (n <=? 90)%nat then ascii_of_nat (n + 32) else c.

(** [replace(/\s+/g, ' ')] on the characters. *)
Fixpoint collapseSpaces (inRun : bool) (l : list ascii) : list ascii :=
  match l with
  | [] => []
  | c :: rest =>
      if isSpace c then
        if inRun then collapseSpaces true rest else " "%char :: collapseSpaces true rest
      else c :: collapseSpaces false rest
  end.

Fixpoint dropSpaces (l : list ascii) : list ascii :=
  match l with
  | c :: rest => if isSpace c then dropSpaces rest else l
  | [] => []
  end.

Definition trimChars (l : list ascii) : list ascii :=
  rev (dropSpaces (rev (dropSpaces l))).

(** [s.toLowerCase().replace(/\s+/g, ' ').trim()], on ASCII. *)
Definition normalizeName (s : string) : string :=
  string_of_list_ascii
    (trimChars (collapseSpaces false (List.map lowerChar (list_ascii_of_string s)))).

(** ** LocationDataService *)

Module LocationDataService.

Record BoundaryData : Type := {
  boundary_id : string;
  geojson : option FeatureCollection;
  loaded : bool
}.

(** A line of the CoreStack CSV, typed as the source types it: each block
    has its district. *)
Record Block : Type := {
  block_state : string;
  block_district : string;
  block_name : string;
  block_id : option string
}.

Record LocalCoreStackData : Type := {
  blocks : list Block;
  blocks_loaded : bool
}.

Inductive AdminSource := boundary_geojson | corestack_api | corestack_local.
Inductive Confidence := verified | approximate.

Record Admin : Type := {
  state : JsVal;
  district : JsVal;
  tehsil : JsVal;
  village : JsVal;
  block : JsVal;
  source : AdminSource;
  confidence : Confidence
}.

Record RegionalSummary : Type := {
  dominantClass : string;
  trees : Q;
  crops : Q;
  built : Q;
  water : Q;
  shrubAndScrub : Q;
  grass : Q;
  bare : Q;
  year : Z
}.

Inductive LandCoverSource := dynamicworld_regional | dynamicworld_point | unavailable.

Record LandCover : Type := {
  regionalSummary : option RegionalSummary;
  pointDataAvailable : bool;
  landCoverSource : LandCoverSource;
  note : option string
}.

Inductive WatershedSource := ws_corestack_local | ws_corestack_api.

Record Watershed : Type := {
  mwsId : string;
  indicators : gmap string JsVal;
  watershedSource : WatershedSource
}.

Record LocationEnrichment : Type := {
  coordinates : Q * Q;                 (* lat, lon *)
  timestamp : string;
  admin : option Admin;
  landCover : option LandCover;
  watershed : option Watershed;
  weather : option WeatherService.WeatherData;
  localData : option (gmap string DatasetManager.LayerValues);
  isOnline : bool;
  errors : list string;
  warnings : list string
}.

(** The service, with the module-level clients it talks to. *)
Record State : Type := {
  initialized : bool;
  datasetManager : DatasetManager.State;
  boundaries : gmap string BoundaryData;
  localCoreStackData : LocalCoreStackData;
  coreStackService : CoreStackService.State;
  dynamicWorldService : DynamicWorldService.State;
  weatherService : WeatherService.State
}.

(** *** What [initialize] loads *)

(** The boundary files, as [fetch] and [response.json()] give them. *)
Class BoundaryFiles : Type := { boundary_file : string → FetchResult FeatureCollection }.

(** The map that the service is constructed with. *)
Definition initialBoundaries : gmap string BoundaryData :=
  <["dakshina_kannada" :=
      {| boundary_id := "dakshina_kannada"; geojson := None; loaded := false |}]>
    (<["western_ghats" :=
         {| boundary_id := "western_ghats"; geojson := None; loaded := false |}]> ∅).

Definition boundaryPaths : list (string * string) :=
  [ ("dakshina_kannada", "/data/boundaries/dakshina_kannada_boundary.geojson");
    ("western_ghats", "/data/boundaries/western_ghats_boundary.geojson") ].

(** One turn of the loop: a response that is not ok changes nothing, a
    rejection is caught and logged. *)
Definition loadBoundary `{BoundaryFiles} (bs : gmap string BoundaryData)
    (entry : string * string) : gmap string BoundaryData :=
  match boundary_file (snd entry) with
  | HttpOk (Fulfilled fc) =>
      <[fst entry := {| boundary_id := fst entry; geojson := Some fc; loaded := true |}]> bs
  | _ => bs
  end.

Definition loadBoundaries `{BoundaryFiles} (bs : gmap string BoundaryData)
    : gmap string BoundaryData :=
  foldl loadBoundary bs boundaryPaths.

(** The CSV of the CoreStack blocks, fetched and split into records as
    [loadLocalCoreStackData] does. *)
Class BlockFile : Type := { blocks_csv : FetchResult (list Block) }.

(** [loadLocalCoreStackData]: all of it inside [try]/[catch]; a response
    that is not ok changes nothing. *)
Definition loadLocalCoreStackData `{BlockFile} (local : LocalCoreStackData)
    : LocalCoreStackData :=
  match blocks_csv with
  | HttpOk (Fulfilled records) => {| blocks := records; blocks_loaded := true |}
  | _ => local
  end.

(** The loop of [isPointInBoundary]; a throwing test is logged and the
    loop goes on. *)
Fixpoint firstBoundaryFeature `{Turf} (pt : Position) (fs : list Feature)
    : option (gmap string JsVal) :=
  match fs with
  | [] => None
  | f :: rest =>
      if isPolygonal (geometry f) then
        match booleanPointInPolygon pt (geometry f) with
        | Fulfilled true => Some (default ∅ (properties f))
        | _ => firstBoundaryFeature pt rest
        end
      else firstBoundaryFeature pt rest
  end.

(** [Some properties] is [{ inside: true, properties }], [None] is
    [{ inside: false }]. *)
Definition isPointInBoundary `{Turf} (st : State) (lat lon : Q) (boundaryId : string)
    : option (gmap string JsVal) :=
  match boundaries st !! boundaryId with
  | Some boundary =>
      match geojson boundary with
      | Some fc =>
          if loaded boundary then firstBoundaryFeature (turfPoint lon lat) (features fc)
          else None
      | None => None
      end
  | None => None
  end.

(** [district.toLowerCase()] throws a TypeError unless [district] is a
    string (the text is the one V8 prints). *)
Definition getLocalBlockData (st : State) (district : JsVal) : Outcome (option Block) :=
  if negb (blocks_loaded (localCoreStackData st)) then Fulfilled None
  else match district with
       | JStr d =>
           Fulfilled
             (List.find (fun b => (normalizeName (block_district b) =? normalizeName d)%string)
                        (blocks (localCoreStackData st)))
       | JUndefined =>
           Rejected "TypeError: Cannot read properties of undefined (reading 'toLowerCase')"
       | JNull =>
           Rejected "TypeError: Cannot read properties of null (reading 'toLowerCase')"
       | _ => Rejected "TypeError: district.toLowerCase is not a function"
       end.

Definition optStr (s : option string) : JsVal :=
  match s with Some v => JStr v | None => JUndefined end.

(** The first step of [getAdminData]: the CoreStack API, inside its
    [try]/[catch]. *)
Definition remoteAdmin `{CoreStackService.Api} (st : State) (lat lon : Q) (online : bool)
    : option Admin :=
  if online && CoreStackService.hasApiKey (coreStackService st) then
    match CoreStackService.getAdminDetailsByLatLon (coreStackService st) lat lon with
    | Fulfilled (Some a) =>
        if CoreStackService.nonEmpty (CoreStackService.state_name a)
           || CoreStackService.nonEmpty (CoreStackService.district_name a)
        then Some {| state := optStr (CoreStackService.state_name a);
                     district := optStr (CoreStackService.district_name a);
                     tehsil := optStr (CoreStackService.tehsil_name a);
                     village := JUndefined;
                     block := JUndefined;
                     source := corestack_api;
                     confidence := verified |}
        else None
    | _ => None
    end
  else None.

(** The fallback of [getAdminData]: the district boundary, then the
    regional one, then nothing. *)
Definition boundaryAdmin `{Turf} (st : State) (lat lon : Q) : Outcome (option Admin) :=
  match isPointInBoundary st lat lon "dakshina_kannada" with
  | Some ps =>
      let state_ := js_or (prop ps "ST_NM") (prop ps "state") in
      let district_ := js_or (prop ps "DISTRICT") (prop ps "district") in
      localBlock ← getLocalBlockData st district_;
      Fulfilled (Some {| state := js_or state_ (JStr "Karnataka");
                         district := js_or district_ (JStr "Dakshina Kannada");
                         tehsil := JUndefined;
                         village := JUndefined;
                         block := match localBlock with
                                  | Some b => JStr (block_name b)
                                  | None => JUndefined
                                  end;
                         source := boundary_geojson;
                         confidence := verified |})
  | None =>
      match isPointInBoundary st lat lon "western_ghats" with
      | Some _ =>
          Fulfilled (Some {| state := JStr "Within Western Ghats";
                             district := JUndefined;
                             tehsil := JUndefined;
                             village := JUndefined;
                             block := JUndefined;
                             source := boundary_geojson;
                             confidence := verified |})
      | None => Fulfilled None
      end
  end.

Definition getAdminData `{Turf} `{CoreStackService.Api} (st : State) (lat lon : Q)
    (online : bool) : Outcome (option Admin) :=
  match remoteAdmin st lat lon online with
  | Some a => Fulfilled (Some a)
  | None => boundaryAdmin st lat lon
  end.

Definition getLocalData `{Turf} (st : State) (lat lon : Q)
    : Outcome (option (gmap string DatasetManager.LayerValues)) :=
  let allLayerIds := List.map DatasetManager.id (DatasetManager.getLayers (datasetManager st)) in
  values ← DatasetManager.getValuesAtPoint (datasetManager st) lat lon allLayerIds;
  Fulfilled (Some values).

(** The loop that finds the dominant class: strict [>], in the order of
    the keys of [classes]. *)
Definition dominantOf (classes : list (string * Q)) : string :=
  fst (foldl (fun acc c => if Qltb (snd acc) (snd c) then c else acc)
             ("Trees", 0%Q) classes).

Definition regionalLandCover (d : DynamicWorldService.DynamicWorldData) : option LandCover :=
  let total := (DynamicWorldService.water d + DynamicWorldService.trees d
                + DynamicWorldService.grass d + DynamicWorldService.floodedVegetation d
                + DynamicWorldService.crops d + DynamicWorldService.shrubAndScrub d
                + DynamicWorldService.built d + DynamicWorldService.bare d
                + DynamicWorldService.snowAndIce d)%Q in
  if Qltb 0 total then
    let pct (area : Q) : Q := (area / total * 100)%Q in
    let classes :=
      [ ("Water", pct (DynamicWorldService.water d));
        ("Trees", pct (DynamicWorldService.trees d));
        ("Grass", pct (DynamicWorldService.grass d));
        ("Flooded Vegetation", pct (DynamicWorldService.floodedVegetation d));
        ("Crops", pct (DynamicWorldService.crops d));
        ("Shrub and Scrub", pct (DynamicWorldService.shrubAndScrub d));
        ("Built", pct (DynamicWorldService.built d));
        ("Bare", pct (DynamicWorldService.bare d)) ] in
    Some {| regionalSummary :=
              Some {| dominantClass := dominantOf classes;
                      trees := pct (DynamicWorldService.trees d);
                      crops := pct (DynamicWorldService.crops d);
                      built := pct (DynamicWorldService.built d);
                      water := pct (DynamicWorldService.water d);
                      shrubAndScrub := pct (DynamicWorldService.shrubAndScrub d);
                      grass := pct (DynamicWorldService.grass d);
                      bare := pct (DynamicWorldService.bare d);
                      year := DynamicWorldService.year d |};
            pointDataAvailable := false;
            landCoverSource := dynamicworld_regional;
            note := Some "Regional average for Western Ghats. Point-specific LULC requires Google Earth Engine API integration." |}
  else None.

Definition noLandCover : LandCover :=
  {| regionalSummary := None;
     pointDataAvailable := false;
     landCoverSource := unavailable;
     note := Some "No LULC data available for this location" |}.

(** [getLandCoverData]: the coordinates and the online flag are unused. *)
Definition getLandCoverData `{DynamicWorldService.Files} (st : State) (_lat _lon : Q)
    (_online : bool) : Outcome (option LandCover) * DynamicWorldService.State :=
  let dw := DynamicWorldService.loadCachedData (dynamicWorldService st) in
  (Fulfilled
     (Some (match DynamicWorldService.getRegionalStats dw None with
            | Some latestStats => default noLandCover (regionalLandCover latestStats)
            | None => noLandCover
            end)),
   dw).

Definition indicatorMap (l : list CoreStackService.KYLIndicator) : gmap string JsVal :=
  foldl (fun m ind =>
           setMember (CoreStackService.indicator_name ind) (CoreStackService.value ind) m)
        ∅ l.

Definition getWatershedData `{CoreStackService.Api} (st : State) (lat lon : Q)
    (online : bool) : Outcome (option Watershed) :=
  if negb online || negb (CoreStackService.hasApiKey (coreStackService st))
  then Fulfilled None
  else
    match CoreStackService.getMWSIdByLatLon (coreStackService st) lat lon with
    | Fulfilled (Some mwsResult) =>
        if negb (CoreStackService.mws_id mwsResult =? "")%string then
          let inds :=
            match CoreStackService.getMWSKYLIndicators (coreStackService st)
                    (CoreStackService.mws_id mwsResult) with
            | Fulfilled l => l
            | Rejected _ => []          (* [.catch(() => [])] *)
            end in
          Fulfilled (Some {| mwsId := CoreStackService.mws_id mwsResult;
                             indicators := indicatorMap inds;
                             watershedSource := ws_corestack_api |})
        else Fulfilled None
    | _ => Fulfilled None                (* [null], or caught and logged *)
    end.

(** [else if (x.status === 'rejected') result.errors.push(`label${x.reason}`)]. *)
Definition failureNote {A} (label : string) (m : Outcome (option A)) : list string :=
  match m with
  | Rejected reason => [label +:+ reason]
  | Fulfilled _ => []
  end.

(** What [enrichLocation] does with the five settled promises.  The
    weather promise has no [else if] for a rejection. *)
Definition assemble (lat lon : Q) (now : string) (online : bool)
    (localData_ : Outcome (option (gmap string DatasetManager.LayerValues)))
    (adminData : Outcome (option Admin))
    (landCoverData : Outcome (option LandCover))
    (watershedData : Outcome (option Watershed))
    (weatherData : Outcome (option WeatherService.WeatherData)) : LocationEnrichment :=
  {| coordinates := (lat, lon);
     timestamp := now;
     admin := settledValue adminData;
     landCover := settledValue landCoverData;
     watershed := settledValue watershedData;
     weather := settledValue weatherData;
     localData := settledValue localData_;
     isOnline := online;
     errors := failureNote "Local data: " localData_ ++ failureNote "Admin data: " adminData
               ++ failureNote "Land cover: " landCoverData
               ++ failureNote "Watershed: " watershedData;
     warnings := [] |}.

(** The weather promise handed to [Promise.allSettled]. *)
Definition weatherBranch `{WeatherService.Api} (st : State) (clock : WeatherService.Clock)
    (lat lon : Q) (online : bool) : WeatherService.Run :=
  if online then WeatherService.getWeather (weatherService st) clock lat lon
  else {| WeatherService.result := None; WeatherService.requests := 0;
          WeatherService.after := weatherService st |}.

(** [initialize]: at once when it has completed before; else the four
    loaders in turn.  Only the first can reject, and then [initialized]
    stays unset. *)
Definition initialize `{DatasetManager.Sources} `{BoundaryFiles} `{BlockFile}
    `{DynamicWorldService.Files} (st : State) : Outcome State :=
  if initialized st then Fulfilled st
  else
    manager ← DatasetManager.initialize (datasetManager st);
    Fulfilled {| initialized := true;
                 datasetManager := manager;
                 boundaries := loadBoundaries (boundaries st);
                 localCoreStackData := loadLocalCoreStackData (localCoreStackData st);
                 coreStackService := coreStackService st;
                 dynamicWorldService :=
                   DynamicWorldService.loadCachedData (dynamicWorldService st);
                 weatherService := weatherService st |}.

(** The part of [enrichLocation] that follows [await this.initialize()]:
    the five promises, settled and assembled. *)
Definition gather `{Turf} `{CoreStackService.Api} `{WeatherService.Api}
    `{DynamicWorldService.Files} (st : State) (now : string) (clock : WeatherService.Clock)
    (lat lon : Q) (online : bool) : LocationEnrichment * State :=
  let lc := getLandCoverData st lat lon online in
  let wr := weatherBranch st clock lat lon online in
  (assemble lat lon now online
     (getLocalData st lat lon)
     (getAdminData st lat lon online)
     (fst lc)
     (getWatershedData st lat lon online)
     (Fulfilled (WeatherService.result wr)),
   {| initialized := initialized st;
      datasetManager := datasetManager st;
      boundaries := boundaries st;
      localCoreStackData := localCoreStackData st;
      coreStackService := coreStackService st;
      dynamicWorldService := snd lc;
      weatherService := WeatherService.after wr |}).

(** [enrichLocation]: [initialize()] is awaited outside any [try], so its
    rejection is the rejection of the call.  The service is not followed
    beyond such a rejection. *)
Definition enrichLocation `{Turf} `{CoreStackService.Api} `{WeatherService.Api}
    `{DynamicWorldService.Files} `{DatasetManager.Sources} `{BoundaryFiles} `{BlockFile}
    (st : State) (now : string) (clock : WeatherService.Clock)
    (lat lon : Q) (online : bool) : Outcome (LocationEnrichment * State) :=
  ready ← initialize st;
  Fulfilled (gather ready now clock lat lon online).

End LocationDataService.

(** ** The DynamicWorldService of [services/DynamicWorldService.ts]

    The repository holds a second Dynamic World client, under the path that
    the components import.  Its loader and [getRegionalStats] are those of
    the client above; its [fetchPointData] answers online from the regional
    totals. *)

Module LegacyDynamicWorldService.

(** The result of a division of doubles, as far as its sign and
    finiteness go; a finite quotient is kept exact. *)
Inductive Quotient : Type :=
  | Finite (q : Q)
  | PlusInfinity
  | MinusInfinity
  | NotANumber.

Definition divide (a b : Q) : Quotient :=
  if Qeq_bool b 0 then
    if Qeq_bool a 0 then NotANumber
    else if Qltb 0 a then PlusInfinity else MinusInfinity
  else Finite (a / b).

(** [x > y]. *)
Definition greater (x y : Quotient) : bool :=
  match x, y with
  | NotANumber, _ | _, NotANumber => false
  | PlusInfinity, PlusInfinity => false
  | PlusInfinity, _ => true
  | _, PlusInfinity => false
  | MinusInfinity, _ => false
  | Finite _, MinusInfinity => true
  | Finite p, Finite q => Qltb q p
  end.

Record DynamicWorldPointData : Type := {
  lat : Q;
  lon : Q;
  timestamp : string;
  landCoverClass : string;
  confidence : Quotient;
  probabilities : list (string * Quotient)
}.

Record State : Type := {
  cachedData : list DynamicWorldService.DynamicWorldData;
  isOnline : bool;
  dataLoaded : bool
}.

Definition getRegionalStats (st : State) (wanted : option Z)
    : option DynamicWorldService.DynamicWorldData :=
  if negb (dataLoaded st) || (length (cachedData st) =? 0)%nat then None
  else match wanted with
       | Some y =>
           if (y =? 0)%Z then last (cachedData st)
           else List.find (fun d => (DynamicWorldService.year d =? y)%Z) (cachedData st)
       | None => last (cachedData st)
       end.

(** The object [classes], in the order of its keys. *)
Definition classAreas (d : DynamicWorldService.DynamicWorldData) : list (string * Q) :=
  [ ("Water", DynamicWorldService.water d);
    ("Trees", DynamicWorldService.trees d);
    ("Grass", DynamicWorldService.grass d);
    ("Flooded Vegetation", DynamicWorldService.floodedVegetation d);
    ("Crops", DynamicWorldService.crops d);
    ("Shrub and Scrub", DynamicWorldService.shrubAndScrub d);
    ("Built", DynamicWorldService.built d);
    ("Bare", DynamicWorldService.bare d);
    ("Snow and Ice", DynamicWorldService.snowAndIce d) ].

(** The loop over [Object.entries(classes)]: the class and the
    probability that lead so far. *)
Definition leading (total : Q) (acc : string * Quotient) (entry : string * Q)
    : string * Quotient :=
  if greater (divide (snd entry) total) (snd acc)
  then (fst entry, divide (snd entry) total)
  else acc.

(** [fetchPointData(lat, lon, date?)]; [now] is the clock reading that
    stands in for a missing date. *)
Definition fetchPointData (st : State) (lat_ lon_ : Q) (date : option string) (now : string)
    : Outcome (option DynamicWorldPointData) :=
  if negb (isOnline st) then Fulfilled None
  else
    match getRegionalStats st None with
    | None => Fulfilled None
    | Some latestStats =>
        let classes := classAreas latestStats in
        let total := foldl (fun a b => (a + snd b)%Q) 0%Q classes in
        let best := foldl (leading total) ("Trees", Finite 0) classes in
        Fulfilled
          (Some {| lat := lat_;
                   lon := lon_;
                   timestamp := if CoreStackService.nonEmpty date then default "" date else now;
                   landCoverClass := fst best;
                   confidence := snd best;
                   probabilities :=
                     List.map (fun entry => (fst entry, divide (snd entry) total)) classes |})
    end.

End LegacyDynamicWorldService.

(** ** The earlier LocationDataService kept in the repository

    Its [getAdminData] has no boundary files: after the same remote step it
    decides by two coordinate boxes.  Its [getLandCoverData] hands out the
    regional shares as the land cover of the point, tagged ['estimated']. *)

Module LegacyLocationDataService.

Inductive AdminSource := local | corestack.

Record Admin : Type := {
  state : option string;
  district : option string;
  tehsil : option string;
  source : AdminSource
}.

Definition between (lo x hi : Q) : bool := Qle_bool lo x && Qle_bool x hi.

Definition getAdminData `{CoreStackService.Api} (cs : CoreStackService.State) (lat lon : Q)
    (online : bool) : Outcome (option Admin) :=
  let remote :=
    if online && CoreStackService.hasApiKey cs then
      match CoreStackService.getAdminDetailsByLatLon cs lat lon with
      | Fulfilled (Some a) =>
          if CoreStackService.nonEmpty (CoreStackService.state_name a)
             || CoreStackService.nonEmpty (CoreStackService.district_name a)
          then Some {| state := CoreStackService.state_name a;
                       district := CoreStackService.district_name a;
                       tehsil := CoreStackService.tehsil_name a;
                       source := corestack |}
          else None
      | _ => None
      end
    else None in
  match remote with
  | Some a => Fulfilled (Some a)
  | None =>
      let isInWesternGhats := between 8 lat 21 && between 73 lon 78 in
      if isInWesternGhats then
        let isInDK := between (125 # 10) lat (135 # 10) && between (745 # 10) lon (758 # 10) in
        if isInDK then
          Fulfilled (Some {| state := Some "Karnataka";
                             district := Some "Dakshina Kannada (estimated)";
                             tehsil := None;
                             source := local |})
        else
          Fulfilled (Some {| state := Some "Western Ghats Region";
                             district := None;
                             tehsil := None;
                             source := local |})
      else Fulfilled None
  end.

Inductive LandCoverSource := lc_local | lc_dynamicworld | lc_estimated.

Record LandCover : Type := {
  dominantClass : string;
  trees : Q;
  crops : Q;
  built : Q;
  water : Q;
  shrubAndScrub : Q;
  grass : Q;
  bare : Q;
  year : Z;
  landCoverSource : LandCoverSource
}.

(** [getLandCoverData]: inside its [try], the regional line of the latest
    year turned into shares; [null] without data or with a total that is
    not positive. *)
Definition getLandCoverData `{DynamicWorldService.Files} (dw : DynamicWorldService.State)
    (_lat _lon : Q) (_online : bool)
    : Outcome (option LandCover) * DynamicWorldService.State :=
  let dw' := DynamicWorldService.loadCachedData dw in
  (Fulfilled
     (match DynamicWorldService.getRegionalStats dw' None with
      | Some latestStats =>
          let total := (DynamicWorldService.water latestStats
                        + DynamicWorldService.trees latestStats
                        + DynamicWorldService.grass latestStats
                        + DynamicWorldService.floodedVegetation latestStats
                        + DynamicWorldService.crops latestStats
                        + DynamicWorldService.shrubAndScrub latestStats
                        + DynamicWorldService.built latestStats
                        + DynamicWorldService.bare latestStats
                        + DynamicWorldService.snowAndIce latestStats)%Q in
          if Qltb 0 total then
            let pct (area : Q) : Q := (area / total * 100)%Q in
            let classes :=
              [ ("Water", pct (DynamicWorldService.water latestStats));
                ("Trees", pct (DynamicWorldService.trees latestStats));
                ("Grass", pct (DynamicWorldService.grass latestStats));
                ("Flooded Vegetation", pct (DynamicWorldService.floodedVegetation latestStats));
                ("Crops", pct (DynamicWorldService.crops latestStats));
                ("Shrub and Scrub", pct (DynamicWorldService.shrubAndScrub latestStats));
                ("Built", pct (DynamicWorldService.built latestStats));
                ("Bare", pct (DynamicWorldService.bare latestStats)) ] in
            Some {| dominantClass := LocationDataService.dominantOf classes;
                    trees := pct (DynamicWorldService.trees latestStats);
                    crops := pct (DynamicWorldService.crops latestStats);
                    built := pct (DynamicWorldService.built latestStats);
                    water := pct (DynamicWorldService.water latestStats);
                    shrubAndScrub := pct (DynamicWorldService.shrubAndScrub latestStats);
                    grass := pct (DynamicWorldService.grass latestStats);
                    bare := pct (DynamicWorldService.bare latestStats);
                    year := DynamicWorldService.year latestStats;
                    landCoverSource := lc_estimated |}
          else None
      | None => None
      end),
   dw').

End LegacyLocationDataService.

(** ** Vocabulary of the statements *)






(** The summary object of a group. *)
Definition summaryOf (sourceTag : string) (y : Z) (group : list DatasetManager.Row)
    : DatasetManager.LayerValues :=
  <["_sample" := JArr (List.map JObj (take 3 group))]>
    (<["_recordCount" := JNum (Z.of_nat (length group))]>
      (<["_year" := JNum y]> (<["_source" := JStr sourceTag]> ∅))).

(** ** Data of the concrete scenarios *)

Module Scenario.
Import DatasetManager.

(** A square around Mangaluru standing for the district boundary. *)
Definition districtRing : list Position :=
  [ (745 # 10, 125 # 10); (758 # 10, 125 # 10); (758 # 10, 135 # 10);
    (745 # 10, 135 # 10); (745 # 10, 125 # 10) ]%Q.

Definition districtProperties : gmap string JsVal :=
  <["DISTRICT" := JStr "Dakshina Kannada"]> (<["ST_NM" := JStr "Karnataka"]> ∅).

Definition districtFeature : Feature :=
  {| geometry := Polygon [districtRing]; properties := Some districtProperties |}.

(** The same boundary, its feature carrying no attributes. *)
Definition bareDistrictFeature : Feature :=
  {| geometry := Polygon [districtRing]; properties := None |}.

(** The query point of the scenarios: latitude 12.90, longitude 74.85. *)
Definition lat : Q := 1290 # 100.
Definition lon : Q := 7485 # 100.

(** The entry of [DEFAULT_MANIFEST] for the district boundary. *)
Definition dkBoundaryLayer : DatasetLayer :=
  {| id := "dakshina_kannada_boundary";
     title := "Dakshina Kannada District";
     type := vector;
     source := {| format := fmt_geojson;
                  path := "/data/boundaries/dakshina_kannada_boundary.geojson" |};
     query := Some {| mode := feature_at_point; fields := [] |};
     enabled := true |}.

(** The entry of [DEFAULT_MANIFEST] for the land-cover composition. *)
Definition lulcLayer : DatasetLayer :=
  {| id := "lulc_glc_composition";
     title := "LULC Composition (GLC 1987-2010)";
     type := csv;
     source := {| format := fmt_csv;
                  path := "/data/lulc/dakshina_kannada_lulc_glc_composition.csv" |};
     query := Some {| mode := summary;
                      fields := ["year"; "class_code"; "class_name"; "area_km2"; "percent"] |};
     enabled := true |}.

Definition lulcRow (y code : Z) (name : string) : Row :=
  <["year" := JNum y]> (<["class_code" := JNum code]> (<["class_name" := JStr name]> ∅)).

(** Two rows of 2018 and two of 2020. *)
Definition lulcRows : list Row :=
  [ lulcRow 2018 1 "Forest"; lulcRow 2020 1 "Forest";
    lulcRow 2018 2 "Cropland"; lulcRow 2020 2 "Cropland" ].

Definition datasets : DatasetManager.State :=
  {| manifest_layers := [dkBoundaryLayer; lulcLayer];
     loadedData :=
       <["dakshina_kannada_boundary" := GeoJsonData {| features := [districtFeature] |}]>
         (<["lulc_glc_composition" := RowsData lulcRows]> ∅);
     geojsonLayers :=
       <["dakshina_kannada_boundary" := {| features := [districtFeature] |}]> ∅ |}.

(** The entry of [DEFAULT_MANIFEST] for the regional boundary. *)
Definition wgBoundaryLayer : DatasetLayer :=
  {| id := "western_ghats_boundary";
     title := "Western Ghats Boundary";
     type := vector;
     source := {| format := fmt_geojson;
                  path := "/data/boundaries/western_ghats_boundary.geojson" |};
     query := Some {| mode := feature_at_point; fields := ["REC_NUM"; "DATA_VALUE"] |};
     enabled := true |}.

(** A regional feature whose ring is not closed: the last position differs
    from the first in both coordinates. *)
Definition openRingFeature : Feature :=
  {| geometry := Polygon [[ (73, 8); (78, 8); (78, 21); (74, 21) ]%Q];
     properties := Some (<["REC_NUM" := JNum 1]> ∅) |}.

(** Both boundary layers loaded, the regional one from a file with the
    open ring. *)
Definition openRingDatasets : DatasetManager.State :=
  {| manifest_layers := [wgBoundaryLayer; dkBoundaryLayer];
     loadedData :=
       <["western_ghats_boundary" := GeoJsonData {| features := [openRingFeature] |}]>
         (<["dakshina_kannada_boundary" :=
              GeoJsonData {| features := [districtFeature] |}]> ∅);
     geojsonLayers :=
       <["western_ghats_boundary" := {| features := [openRingFeature] |}]>
         (<["dakshina_kannada_boundary" := {| features := [districtFeature] |}]> ∅) |}.

(** A point of the region outside the district: latitude 15, longitude 74. *)
Definition northLat : Q := 15.
Definition northLon : Q := 74.

(** A custom manifest that calls a layer ["__proto__"]. *)
Definition protoLayer : DatasetLayer :=
  {| id := "__proto__";
     title := "District";
     type := vector;
     source := {| format := fmt_geojson; path := "/data/custom/district.geojson" |};
     query := None;
     enabled := true |}.

Definition protoDatasets : DatasetManager.State :=
  {| manifest_layers := [protoLayer];
     loadedData := <["__proto__" := GeoJsonData {| features := [districtFeature] |}]> ∅;
     geojsonLayers := <["__proto__" := {| features := [districtFeature] |}]> ∅ |}.

End Scenario.

(** ** Sequences of weather calls *)

(** A later call of [getWeather]: its clock, its coordinates and what the
    [online]/[offline] events have made of the flag by then. *)
Record WeatherCall : Type := {
  callClock : WeatherService.Clock;
  callLat : Q;
  callLon : Q;
  callOnline : bool
}.

Definition runWeatherCall `{WeatherService.Api} (st : WeatherService.State) (c : WeatherCall)
    : WeatherService.Run :=
  WeatherService.getWeather
    {| WeatherService.isOnline := callOnline c; WeatherService.cache := WeatherService.cache st |}
    (callClock c) (callLat c) (callLon c).

Definition afterWeatherCalls `{WeatherService.Api} (st : WeatherService.State)
    (calls : list WeatherCall) : WeatherService.State :=
  foldl (fun s c => WeatherService.after (runWeatherCall s c)) st calls.

(** [fetch] did not yield a forecast: it rejected, the status was not ok, or
    the body could not be read. *)
Definition fetchFails {T} (answer : FetchResult T) : Prop :=
  ∀ json, answer ≠ HttpOk (Fulfilled json).

Module WeatherScenario.
Import WeatherService.

Definition sampleForecast : ApiForecast :=
  {| api_current :=
       {| temperature_2m := 29; relative_humidity_2m := 78; current_precipitation := 0;
          weather_code := 2; wind_speed_10m := 11; wind_direction_10m := 250; is_day := 1 |};
     api_daily :=
       {| time := ["2026-01-10"; "2026-01-11"];
          daily_weather_code := [2; 61]%Z;
          temperature_2m_max := [31; 30]%Q;
          temperature_2m_min := [23; 24]%Q;
          precipitation_sum := [0; 4]%Q;
          precipitation_probability_max := [5; 60]%Q |} |}.

(** A network on which the forecast API answers. *)
Definition goodApi : Api := {| forecast_at := fun _ _ => HttpOk (Fulfilled sampleForecast) |}.

(** A network on which it answers with a server error. *)
Definition failingApi : Api := {| forecast_at := fun _ _ => HttpError 500 (JsonBody None None) |}.

Definition onlineEmpty : State := {| isOnline := true; cache := ∅ |}.
Definition offlineEmpty : State := {| isOnline := false; cache := ∅ |}.

Definition firstClock : Clock :=
  {| nowAtCheck := 1000000; isoAtStore := "2026-01-10T06:00:00.000Z"; nowAtStore := 1000200 |}.

(** Ten minutes later. *)
Definition secondClock : Clock :=
  {| nowAtCheck := 1600000; isoAtStore := "2026-01-10T06:10:00.000Z"; nowAtStore := 1600200 |}.

(** A call somewhere else in between. *)
Definition otherCall : WeatherCall :=
  {| callClock := {| nowAtCheck := 1300000; isoAtStore := "2026-01-10T06:05:00.000Z";
                     nowAtStore := 1300150 |};
     callLat := 13; callLon := 75; callOnline := true |}.

End WeatherScenario.

(** ** Scenarios of [enrichLocation] *)

Module EnrichScenario.
Import LocationDataService.

(** A rectangle standing for the regional boundary. *)
Definition ghatsFeature : Feature :=
  {| geometry := Polygon [[ (73, 8); (78, 8); (78, 21); (73, 21); (73, 8) ]%Q];
     properties := None |}.

Definition districtBoundary (f : Feature) : BoundaryData :=
  {| boundary_id := "dakshina_kannada";
     geojson := Some {| features := [f] |};
     loaded := true |}.

Definition ghatsBoundary : BoundaryData :=
  {| boundary_id := "western_ghats";
     geojson := Some {| features := [ghatsFeature] |};
     loaded := true |}.

(** The local table of CoreStack blocks, loaded. *)
Definition blocksTable : LocalCoreStackData :=
  {| blocks := [ {| block_state := "Karnataka"; block_district := "Dakshina Kannada";
                    block_name := "Mangaluru"; block_id := Some "17" |} ];
     blocks_loaded := true |}.

Definition regionalRow : DynamicWorldService.DynamicWorldData :=
  {| DynamicWorldService.year := 2024; DynamicWorldService.month := "January";
     DynamicWorldService.water := 900; DynamicWorldService.trees := 60000;
     DynamicWorldService.grass := 1500; DynamicWorldService.floodedVegetation := 300;
     DynamicWorldService.crops := 18000; DynamicWorldService.shrubAndScrub := 14000;
     DynamicWorldService.built := 4000; DynamicWorldService.bare := 1200;
     DynamicWorldService.snowAndIce := 0 |}.

(** The service after [initialize()], with the district boundary made of
    the feature [f]; [online] is what the browser reports. *)
Definition service (f : Feature) (online : bool) : State :=
  {| initialized := true;
     datasetManager := Scenario.datasets;
     boundaries :=
       <["dakshina_kannada" := districtBoundary f]> (<["western_ghats" := ghatsBoundary]> ∅);
     localCoreStackData := blocksTable;
     coreStackService := CoreStackService.create ∅ online;
     dynamicWorldService :=
       {| DynamicWorldService.cachedData := [regionalRow];
          DynamicWorldService.dataLoaded := true |};
     weatherService := {| WeatherService.isOnline := online; WeatherService.cache := ∅ |} |}.

(** Nothing of what [initialize] reads is there. *)
Definition noSources : DatasetManager.Sources :=
  {| DatasetManager.manifest_file := HttpError 404 (NoJson "Not Found");
     DatasetManager.cached_dataset := fun _ => Fulfilled None;
     DatasetManager.layer_file := fun _ => HttpError 404 (NoJson "Not Found");
     DatasetManager.cache_dataset := fun _ => Fulfilled tt |}.

Definition noBoundaryFiles : BoundaryFiles :=
  {| boundary_file := fun _ => HttpError 404 (NoJson "Not Found") |}.

Definition noBlockFile : BlockFile := {| blocks_csv := HttpError 404 (NoJson "Not Found") |}.

(** A custom manifest is served and has no [layers]: the JSON [{}], say. *)
Definition manifestWithoutLayers : DatasetManager.Sources :=
  {| DatasetManager.manifest_file := HttpOk (Fulfilled None);
     DatasetManager.cached_dataset := fun _ => Fulfilled None;
     DatasetManager.layer_file := fun _ => HttpError 404 (NoJson "Not Found");
     DatasetManager.cache_dataset := fun _ => Fulfilled tt |}.

(** The service as it is constructed, before [initialize()] has completed
    (of [DEFAULT_MANIFEST], the three layers of the scenarios). *)
Definition created (online : bool) : State :=
  {| initialized := false;
     datasetManager :=
       {| DatasetManager.manifest_layers :=
            [Scenario.wgBoundaryLayer; Scenario.dkBoundaryLayer; Scenario.lulcLayer];
          DatasetManager.loadedData := ∅;
          DatasetManager.geojsonLayers := ∅ |};
     boundaries := initialBoundaries;
     localCoreStackData := {| blocks := []; blocks_loaded := false |};
     coreStackService := CoreStackService.create ∅ online;
     dynamicWorldService :=
       {| DynamicWorldService.cachedData := []; DynamicWorldService.dataLoaded := false |};
     weatherService := {| WeatherService.isOnline := online; WeatherService.cache := ∅ |} |}.

(** The client of [services/DynamicWorldService.ts], online, with the
    regional file loaded. *)
Definition legacyClient : LegacyDynamicWorldService.State :=
  {| LegacyDynamicWorldService.cachedData := [regionalRow];
     LegacyDynamicWorldService.isOnline := true;
     LegacyDynamicWorldService.dataLoaded := true |}.

(** The CoreStack API answering every request with HTTP 500. *)
Definition serverErrorApi : CoreStackService.Api :=
  {| CoreStackService.get_admin_details_by_latlon := fun _ _ => HttpError 500 (JsonBody None None);
     CoreStackService.get_mwsid_by_latlon := fun _ _ => HttpError 500 (JsonBody None None);
     CoreStackService.get_mws_kyl_indicators := fun _ => HttpError 500 (JsonBody None None) |}.

Definition regionalFile : DynamicWorldService.Files :=
  {| DynamicWorldService.regional_csv := HttpOk (Fulfilled [regionalRow]) |}.

Definition now : string := "2026-01-10T06:00:00.000Z".

End EnrichScenario.

(** What the report is expected to hold for a settled promise: the value
    of a fulfilled one when it is not [null], and for a rejected one of the
    four that are reported the line of its label and reason. *)
Definition blockOf {A} (settled : Outcome (option A)) : option A :=
  match settled with
  | Fulfilled (Some v) => Some v
  | Fulfilled None => None
  | Rejected _ => None
  end.

Definition lineOf {A} (label : string) (settled : Outcome A) : list string :=
  match settled with
  | Rejected reason => [label +:+ reason]
  | Fulfilled _ => []
  end.

(** A rejected promise among the four whose rejection is reported. *)
Definition rejections {A} (m : Outcome (option A)) : nat :=
  match m with Rejected _ => 1 | Fulfilled _ => 0 end.

(** The point is in no polygon of any loaded boundary. *)
Definition outsideEveryBoundary `{Turf} (st : LocationDataService.State) (lat lon : Q) : Prop :=
  ∀ boundaryId boundary fc,
    LocationDataService.boundaries st !! boundaryId = Some boundary →
    LocationDataService.geojson boundary = Some fc →
    Forall (fun f => isPolygonal (geometry f) = true →
                     booleanPointInPolygon (turfPoint lon lat) (geometry f) ≠ Fulfilled true)
           (features fc).

(** * Further code of the cited files *)

Module ExtraScenario.
Import DatasetManager.

(** A feature whose ring is not closed: [closedRingTurf] throws on it. *)
Definition brokenFeature : Feature :=
  {| geometry := Polygon [[ (74, 12); (76, 12); (76, 14); (75, 14) ]%Q];
     properties := Some (<["name" := JStr "broken"]> ∅) |}.

(** A feature that is no polygon. *)
Definition pointFeature : Feature :=
  {| geometry := Point (Scenario.lon, Scenario.lat);
     properties := Some (<["name" := JStr "marker"]> ∅) |}.

(** The district layer behind a feature that cannot be tested. *)
Definition brokenDatasets : DatasetManager.State :=
  {| manifest_layers := [Scenario.dkBoundaryLayer; Scenario.lulcLayer];
     loadedData :=
       <["dakshina_kannada_boundary" :=
           GeoJsonData {| features := [brokenFeature; Scenario.districtFeature] |}]>
         (<["lulc_glc_composition" := RowsData Scenario.lulcRows]> ∅);
     geojsonLayers :=
       <["dakshina_kannada_boundary" :=
           {| features := [brokenFeature; Scenario.districtFeature] |}]> ∅ |}.

(** The land-cover layer with a table that has a header and no rows. *)
Definition emptyTableDatasets : DatasetManager.State :=
  {| manifest_layers := [Scenario.lulcLayer];
     loadedData := <["lulc_glc_composition" := RowsData []]> ∅;
     geojsonLayers := ∅ |}.

(** A table without a [year] column. *)
Definition forestRow (kind : string) (area : Z) : gmap string JsVal :=
  <["forest_type" := JStr kind]> (<["area_km2" := JNum area]> ∅).

Definition forestRows : list (gmap string JsVal) :=
  [ forestRow "Natural" 5200; forestRow "Plantation" 1800;
    forestRow "Mangrove" 40; forestRow "Scrub" 900 ].

(** The entry of [DEFAULT_MANIFEST] for the forest typology, with that
    table loaded. *)
Definition forestLayer : DatasetLayer :=
  {| id := "forest_typology";
     title := "Forest Typology";
     type := csv;
     source := {| format := fmt_csv;
                  path := "/data/forest/dakshina_kannada_forest_typology.csv" |};
     query := Some {| mode := summary; fields := ["forest_type"; "area_km2"; "percent"] |};
     enabled := true |}.

Definition forestDatasets : DatasetManager.State :=
  {| manifest_layers := [Scenario.dkBoundaryLayer; forestLayer];
     loadedData :=
       <["forest_typology" := RowsData forestRows]>
         (<["dakshina_kannada_boundary" :=
              GeoJsonData {| features := [Scenario.districtFeature] |}]> ∅);
     geojsonLayers :=
       <["dakshina_kannada_boundary" := {| features := [Scenario.districtFeature] |}]> ∅ |}.

End ExtraScenario.

(** What the summary of a table without years is expected to be. *)
Definition wholeTableSummary (records : list (gmap string JsVal)) : gmap string JsVal :=
  match records with
  | [] => ∅
  | _ =>
      <["_sample" := JArr (List.map JObj (take 3 records))]>
        (<["_recordCount" := JNum (Z.of_nat (length records))]>
          (<["_source" := JStr "csv_summary"]> ∅))
  end.

Module WeatherExtraScenario.
Import WeatherService.

(** The state after the first call of [WeatherScenario]: one entry, which
    expires at 2 800 200. *)
Definition cachedOnce : State :=
  after (@getWeather WeatherScenario.goodApi WeatherScenario.onlineEmpty
           WeatherScenario.firstClock Scenario.lat Scenario.lon).

(** A clock that reads the expiry itself. *)
Definition clockAtExpiry : Clock :=
  {| nowAtCheck := 2800200; isoAtStore := "2026-01-10T06:30:00.200Z";
     nowAtStore := 2800450 |}.

Definition storedEntry : CacheEntry :=
  {| data := {| current := toCurrent (api_current WeatherScenario.sampleForecast);
                forecast := toForecast (api_daily WeatherScenario.sampleForecast);
                fetchedAt := "2026-01-10T06:00:00.000Z" |};
     expiry := 2800200 |}.

End WeatherExtraScenario.

Module CoreStackExtraScenario.

(** A CoreStack API that answers. *)
Definition answeringApi : CoreStackService.Api :=
  {| CoreStackService.get_admin_details_by_latlon := fun _ _ =>
       HttpOk (Fulfilled (Some {| CoreStackService.state_name := Some "Karnataka";
                                  CoreStackService.state_code := Some "29";
                                  CoreStackService.district_name := Some "Dakshina Kannada";
                                  CoreStackService.district_code := Some "575";
                                  CoreStackService.tehsil_name := Some "Mangaluru";
                                  CoreStackService.tehsil_code := Some "5751" |}));
     CoreStackService.get_mwsid_by_latlon := fun _ _ =>
       HttpOk (Fulfilled (Some {| CoreStackService.mws_id := "12_345" |}));
     CoreStackService.get_mws_kyl_indicators := fun _ =>
       HttpOk (Fulfilled [ {| CoreStackService.indicator_name := "drought_years";
                              CoreStackService.value := JNum 2 |};
                           {| CoreStackService.indicator_name := "cropping_intensity";
                              CoreStackService.value := JNum 140 |};
                           {| CoreStackService.indicator_name := "drought_years";
                              CoreStackService.value := JNum 3 |} ]) |}.

(** The same API with the indicator endpoint down. *)
Definition noIndicatorsApi : CoreStackService.Api :=
  {| CoreStackService.get_admin_details_by_latlon :=
       @CoreStackService.get_admin_details_by_latlon answeringApi;
     CoreStackService.get_mwsid_by_latlon :=
       @CoreStackService.get_mwsid_by_latlon answeringApi;
     CoreStackService.get_mws_kyl_indicators := fun _ => HttpError 503 (JsonBody None None) |}.

(** A client that is online and whose key was cleared in the settings. *)
Definition keyCleared : CoreStackService.State :=
  fst (CoreStackService.setApiKey "" (CoreStackService.create ∅ true) ∅).

End CoreStackExtraScenario.

Module DynamicWorldExtraScenario.
Import DynamicWorldService.

Definition row (y : Z) (treeArea builtArea : Q) : DynamicWorldData :=
  {| year := y; month := "January"; water := 900; trees := treeArea; grass := 1500;
     floodedVegetation := 300; crops := 18000; shrubAndScrub := 14000;
     built := builtArea; bare := 1200; snowAndIce := 0 |}.

Definition loadedState : State :=
  {| cachedData := [row 2018 62000 3000; row 2021 61000 3500; row 2024 60000 4000];
     dataLoaded := true |}.

Definition notLoaded : State := {| cachedData := []; dataLoaded := false |}.

Definition missingFile : Files := {| regional_csv := HttpError 404 (JsonBody None None) |}.

End DynamicWorldExtraScenario.

(** ** [loadBoundaries] *)

Module BoundaryLoader.
Import LocationDataService.

(** What [loadBoundaries] leaves for a boundary, given the answer for its
    file. *)
Definition boundaryAfter (boundaryId : string) (answer : FetchResult FeatureCollection)
    : BoundaryData :=
  match answer with
  | HttpOk (Fulfilled fc) =>
      {| boundary_id := boundaryId; geojson := Some fc; loaded := true |}
  | _ => {| boundary_id := boundaryId; geojson := None; loaded := false |}
  end.

(** No boundary file can be fetched. *)
Definition noFiles : BoundaryFiles := {| boundary_file := fun _ => FetchFailed "TypeError: Failed to fetch" |}.

(** Only the regional file is there. *)
Definition regionalOnly : BoundaryFiles :=
  {| boundary_file := fun path =>
       if (path =? "/data/boundaries/western_ghats_boundary.geojson")%string
       then HttpOk (Fulfilled {| features := [EnrichScenario.ghatsFeature] |})
       else HttpError 404 (JsonBody None None) |}.

End BoundaryLoader.

(** ** [DatasetManager.getSummaryAtPoint] *)

Module DatasetSummary.
Import DatasetManager.

Record LayerSummary : Type := {
  layerTitle : string;
  layerValues : gmap string JsVal
}.

Record PointSummary : Type := {
  coordinates : Q * Q;                       (* lat, lon *)
  layers : gmap string LayerSummary;
  region : string;                           (* [context.region] *)
  queriedAt : string                         (* [context.queriedAt] *)
}.

(** [getSummaryAtPoint]; [manifestRegion] is [this.manifest.region] and
    [now] the clock reading. *)
Definition getSummaryAtPoint `{Turf} (st : State) (manifestRegion now : string)
    (lat lon : Q) (activeLayerIds : list string) : Outcome PointSummary :=
  values ← getValuesAtPoint st lat lon activeLayerIds;
  Fulfilled
    {| coordinates := (lat, lon);
       layers :=
         map_imap (fun layerId layerValues_ =>
                     match getLayerById st layerId with
                     | Some layer =>
                         Some {| layerTitle := title layer; layerValues := layerValues_ |}
                     | None => None
                     end) values;
       region := manifestRegion;
       queriedAt := now |}.

End DatasetSummary.

(** ** The series of the Dynamic World client *)

Module DynamicWorldSeries.
Import DynamicWorldService.

(** The keys of [DynamicWorldData] other than [year] and [month], in the
    order of the [classes] array of [getChangeStats]. *)
Inductive ClassName :=
  | water_ | trees_ | grass_ | floodedVegetation_ | crops_ | shrubAndScrub_
  | built_ | bare_ | snowAndIce_.

Definition classes : list ClassName :=
  [water_; trees_; grass_; floodedVegetation_; crops_; shrubAndScrub_; built_; bare_;
   snowAndIce_].

(** [d[className]]. *)
Definition areaOf (c : ClassName) (d : DynamicWorldData) : Q :=
  match c with
  | water_ => water d
  | trees_ => trees d
  | grass_ => grass d
  | floodedVegetation_ => floodedVegetation d
  | crops_ => crops d
  | shrubAndScrub_ => shrubAndScrub d
  | built_ => built d
  | bare_ => bare d
  | snowAndIce_ => snowAndIce d
  end.

Definition getAvailableYears (st : State) : list Z := List.map year (cachedData st).

Definition getTimeSeries (st : State) (c : ClassName) : list (Z * Q) :=
  List.map (fun d => (year d, areaOf c d)) (cachedData st).

(** An entry of [getChangeStats].  A division by a start of zero gives NaN
    or an infinity in JavaScript: [percentChange] is [None] then. *)
Record Change : Type := {
  startArea : Q;
  endArea : Q;
  change : Q;
  percentChange : option Q
}.

Definition changeOf (startArea_ endArea_ : Q) : Change :=
  {| startArea := startArea_;
     endArea := endArea_;
     change := (endArea_ - startArea_)%Q;
     percentChange :=
       if Qeq_bool startArea_ 0 then None
       else Some ((endArea_ - startArea_) / startArea_ * 100)%Q |}.

Definition getChangeStats (st : State) (startYear endYear : Z)
    : option (list (ClassName * Change)) :=
  match List.find (fun d => (year d =? startYear)%Z) (cachedData st),
        List.find (fun d => (year d =? endYear)%Z) (cachedData st) with
  | Some startData, Some endData =>
      Some (List.map (fun c => (c, changeOf (areaOf c startData) (areaOf c endData))) classes)
  | _, _ => None
  end.

End DynamicWorldSeries.

(** ** [CoreStackService.enrichLocation] *)

Module CoreStackEnrichment.
Import CoreStackService.

(** The two further endpoints of the enrichment, by the parameters of the
    request; the layers and water bodies are kept as the JSON says. *)
Class AreaApi : Type := {
  get_generated_layer_urls : gmap string string → FetchResult (list JsVal);
  get_waterbodies_data_by_admin : gmap string string → FetchResult (list JsVal)
}.

(** [if (code) params.name = code]. *)
Definition withParam (name : string) (code : option string) (params : gmap string string)
    : gmap string string :=
  if nonEmpty code then <[name := default "" code]> params else params.

Definition areaParams (stateCode districtCode tehsilCode : option string)
    : gmap string string :=
  withParam "tehsil_code" tehsilCode
    (withParam "district_code" districtCode (withParam "state_code" stateCode ∅)).

Definition getLayerUrls `{AreaApi} (st : State) (stateCode districtCode tehsilCode : option string)
    : Outcome (list JsVal) :=
  request st (get_generated_layer_urls (areaParams stateCode districtCode tehsilCode)).

Definition getWaterbodiesByAdmin `{AreaApi} (st : State)
    (stateCode districtCode tehsilCode : option string) : Outcome (list JsVal) :=
  request st (get_waterbodies_data_by_admin (areaParams stateCode districtCode tehsilCode)).

Record Enrichment : Type := {
  admin : option AdminDetails;
  mwsId : option string;
  indicators : option (list KYLIndicator);
  layerUrls : option (list JsVal);
  waterbodies : option (list JsVal);
  error : option string
}.

Definition onlyError (message : string) : Enrichment :=
  {| admin := None; mwsId := None; indicators := None; layerUrls := None;
     waterbodies := None; error := Some message |}.

(** [error.message].  Whatever is thrown inside the [try] of
    [enrichLocation] is an [Error] object, and a reason of the embedding is
    its printed form: the name, a colon and the message (the name alone when
    the message is empty). *)
Fixpoint messageOf (reason : string) : string :=
  match reason with
  | String ":" (String " " message) => message
  | String _ rest => messageOf rest
  | EmptyString => ""
  end.

(** What a [try { x = await p } catch {}] leaves in [x]. *)
Definition caught {A} (p : Outcome A) : option A :=
  match p with
  | Fulfilled v => Some v
  | Rejected _ => None
  end.

(** The inner [try] on the watershed: a [null] answer throws at
    [mwsResult.mws_id] and is caught like a failed request. *)
Definition mwsPart `{Api} (st : State) (lat lon : Q)
    : option string * option (list KYLIndicator) :=
  match getMWSIdByLatLon st lat lon with
  | Fulfilled (Some mwsResult) =>
      (Some (mws_id mwsResult),
       if nonEmpty (Some (mws_id mwsResult))
       then caught (getMWSKYLIndicators st (mws_id mwsResult))
       else None)
  | _ => (None, None)
  end.

(** [enrichLocation].  A [null] answer for the admin details passes the
    watershed part and throws at [admin.state_code]; the outer [catch] then
    reports the message of that TypeError. *)
Definition enrichLocation `{Api} `{AreaApi} (st : State) (lat lon : Q) : Enrichment :=
  if negb (isAvailable st) then onlyError "CoreStack API not available"
  else
    match getAdminDetailsByLatLon st lat lon with
    | Rejected reason => onlyError (messageOf reason)
    | Fulfilled None => onlyError "Cannot read properties of null (reading 'state_code')"
    | Fulfilled (Some admin_) =>
        let '(mwsId_, indicators_) := mwsPart st lat lon in
        {| admin := Some admin_;
           mwsId := mwsId_;
           indicators := indicators_;
           layerUrls :=
             if nonEmpty (state_code admin_) && nonEmpty (district_code admin_)
             then caught (getLayerUrls st (state_code admin_) (district_code admin_) None)
             else None;
           waterbodies :=
             if nonEmpty (district_code admin_)
             then caught (getWaterbodiesByAdmin st (state_code admin_) (district_code admin_)
                            (tehsil_code admin_))
             else None;
           error := None |}
    end.

End CoreStackEnrichment.

(** ** SyncService *)

Module SyncService.
Import CoreStackService CoreStackEnrichment.

(** An entry of [datasetValues]: the values of a layer, or what
    [enrichObservation] stores under ["corestack"]. *)
Inductive DatasetEntry : Type :=
  | LayerEntry (values : gmap string JsVal)
  | CoreStackEntry (admin_ : option AdminDetails) (mwsId_ : option string)
      (indicators_ : option (list KYLIndicator)) (enrichedAt : string).

(** An observation of the table.  [synced] is optional; [others] holds the
    fields that the service never reads (timestamp, context, image,
    validation, notes). *)
Record Observation : Type := {
  id : string;
  lat : Q;
  lon : Q;
  datasetValues : gmap string DatasetEntry;
  synced : option bool;
  others : gmap string JsVal
}.

(** [!obs.synced]. *)
Definition notSynced (o : Observation) : bool := negb (default false (synced o)).

(** The table [db.observations], as the list of its rows; the database is
    taken to answer every call. *)
Definition Table : Type := list Observation.

(** [db.observations.get(id)]. *)
Definition get (table : Table) (observationId : string) : option Observation :=
  List.find (fun o => (id o =? observationId)%string) table.

(** [db.observations.update(id, {datasetValues, synced: true})]. *)
Definition update (table : Table) (observationId : string)
    (values : gmap string DatasetEntry) : Table :=
  List.map (fun o =>
              if (id o =? observationId)%string
              then {| id := id o; lat := lat o; lon := lon o; datasetValues := values;
                      synced := Some true; others := others o |}
              else o) table.

Record EnrichmentResult : Type := {
  observationId : string;
  success : bool;
  data : option (gmap string DatasetEntry);
  resultError : option string                (* [error] *)
}.

Definition failed (observationId_ message : string) : EnrichmentResult :=
  {| observationId := observationId_; success := false; data := None;
     resultError := Some message |}.

(** [enrichObservation]; [now] is the clock reading stored as [enrichedAt]. *)
Definition enrichObservation `{Api} `{AreaApi} (cs : State) (table : Table) (now : string)
    (observationId_ : string) : EnrichmentResult * Table :=
  match get table observationId_ with
  | None => (failed observationId_ "Observation not found", table)
  | Some observation =>
      if negb (isAvailable cs) then (failed observationId_ "CoreStack API not available", table)
      else
        let enrichment := enrichLocation cs (lat observation) (lon observation) in
        if nonEmpty (error enrichment)
        then (failed observationId_ (default "" (error enrichment)), table)
        else
          let updatedDatasetValues :=
            <["corestack" := CoreStackEntry (admin enrichment) (mwsId enrichment)
                               (indicators enrichment) now]>
              (datasetValues observation) in
          ({| observationId := observationId_; success := true;
              data := Some updatedDatasetValues; resultError := None |},
           update table observationId_ updatedDatasetValues)
  end.

Record SyncStatus : Type := {
  pendingObservations : nat;
  pendingImages : nat;
  lastSync : option string;
  isSyncing : bool;
  errors : list string
}.

(** [db.observations.filter(obs => !obs.synced)]. *)
Definition pending (table : Table) : Table := List.filter notSynced table.

(** The loop of [enrichPendingObservations] over the rows read before it;
    [stamps] gives the clock reading taken while an observation is
    enriched. *)
Fixpoint enrichEach `{Api} `{AreaApi} (cs : State) (stamps : string → string)
    (observations : list Observation) (table : Table)
    (results : list EnrichmentResult) (errors_ : list string)
    : list EnrichmentResult * list string * Table :=
  match observations with
  | [] => (results, errors_, table)
  | observation :: rest =>
      let '(result, table') :=
        enrichObservation cs table (stamps (id observation)) (id observation) in
      enrichEach cs stamps rest table' (results ++ [result])
        (if negb (success result) && nonEmpty (resultError result)
         then errors_ ++ ["Observation " +:+ id observation +:+ ": "
                            +:+ default "" (resultError result)]
         else errors_)
  end.

(** [enrichPendingObservations], with [updatePendingCounts] in its
    [finally]; [imageCount] is [db.images.count()] and [finishedAt] the
    clock reading stored as [lastSync]. *)
Definition enrichPendingObservations `{Api} `{AreaApi} (cs : State)
    (stamps : string → string) (finishedAt : string) (imageCount : nat)
    (st : SyncStatus) (table : Table) : list EnrichmentResult * SyncStatus * Table :=
  if isSyncing st then ([], st, table)
  else
    let '(results, errors_, table') := enrichEach cs stamps (pending table) table [] [] in
    (results,
     {| pendingObservations := length (pending table');
        pendingImages := imageCount;
        lastSync := Some finishedAt;
        isSyncing := false;
        errors := errors_ |},
     table').

End SyncService.

(** ** Vocabulary of the further statements *)

(** The indicators called [k]. *)
Definition namedLike (k : string) (ind : CoreStackService.KYLIndicator) : bool :=
  (CoreStackService.indicator_name ind =? k)%string.

(** One turn of the loop that looks for the dominant class. *)
Definition better (acc c : string * Q) : string * Q :=
  if Qltb (snd acc) (snd c) then c else acc.

Module EnrichExtraScenario.
Import LocationDataService.

(** The district boundary behind a feature that [closedRingTurf] cannot test. *)
Definition guardedService : State :=
  {| initialized := true;
     datasetManager := Scenario.datasets;
     boundaries :=
       <["dakshina_kannada" :=
           {| boundary_id := "dakshina_kannada";
              geojson := Some {| features := [ExtraScenario.brokenFeature;
                                              ExtraScenario.pointFeature;
                                              Scenario.districtFeature] |};
              loaded := true |}]> ∅;
     localCoreStackData := EnrichScenario.blocksTable;
     coreStackService := CoreStackService.create ∅ true;
     dynamicWorldService := DynamicWorldExtraScenario.notLoaded;
     weatherService := WeatherScenario.onlineEmpty |}.

(** The service when no boundary file could be fetched. *)
Definition withoutBoundaries : State :=
  {| initialized := true;
     datasetManager := Scenario.datasets;
     boundaries :=
       @LocationDataService.loadBoundaries BoundaryLoader.noFiles
         LocationDataService.initialBoundaries;
     localCoreStackData := EnrichScenario.blocksTable;
     coreStackService := CoreStackService.create ∅ false;
     dynamicWorldService := DynamicWorldExtraScenario.notLoaded;
     weatherService := WeatherScenario.offlineEmpty |}.

End EnrichExtraScenario.

(** The result of [enrichObservation] for a row that is alone in its
    table, the line that the pass logs for it, and the row afterwards. *)
Definition resultFor `{CoreStackService.Api} `{CoreStackEnrichment.AreaApi}
    (cs : CoreStackService.State) (stamps : string → string) (o : SyncService.Observation)
    : SyncService.EnrichmentResult :=
  fst (SyncService.enrichObservation cs [o] (stamps (SyncService.id o)) (SyncService.id o)).

Definition lineFor `{CoreStackService.Api} `{CoreStackEnrichment.AreaApi}
    (cs : CoreStackService.State) (stamps : string → string) (o : SyncService.Observation)
    : list string :=
  if negb (SyncService.success (resultFor cs stamps o))
     && CoreStackService.nonEmpty (SyncService.resultError (resultFor cs stamps o))
  then ["Observation " +:+ SyncService.id o +:+ ": "
          +:+ default "" (SyncService.resultError (resultFor cs stamps o))]
  else [].

Definition rowAfter `{CoreStackService.Api} `{CoreStackEnrichment.AreaApi}
    (cs : CoreStackService.State) (stamps : string → string) (o : SyncService.Observation)
    : SyncService.Observation :=
  if SyncService.notSynced o then
    match SyncService.data (resultFor cs stamps o) with
    | Some values =>
        {| SyncService.id := SyncService.id o;
           SyncService.lat := SyncService.lat o;
           SyncService.lon := SyncService.lon o;
           SyncService.datasetValues := values;
           SyncService.synced := Some true;
           SyncService.others := SyncService.others o |}
    | None => o
    end
  else o.

(** The parts of what a pass returns. *)
Definition passResults (p : list SyncService.EnrichmentResult * SyncService.SyncStatus
                            * SyncService.Table) : list SyncService.EnrichmentResult :=
  fst (fst p).

Definition passStatus (p : list SyncService.EnrichmentResult * SyncService.SyncStatus
                           * SyncService.Table) : SyncService.SyncStatus :=
  snd (fst p).

Definition passTable (p : list SyncService.EnrichmentResult * SyncService.SyncStatus
                          * SyncService.Table) : SyncService.Table :=
  snd p.

(** A list of characters that does not start with white space. *)
Definition headNonSpace (l : list ascii) : Prop :=
  match l with
  | c :: _ => isSpace c = false
  | [] => True
  end.

Module SyncScenario.
Import SyncService.

(** CoreStack answers south of 13 N and fails with HTTP 500 north of it. *)
Definition southOnlyApi : CoreStackService.Api :=
  {| CoreStackService.get_admin_details_by_latlon := fun lat lon =>
       if Qltb lat 13
       then @CoreStackService.get_admin_details_by_latlon
              CoreStackExtraScenario.answeringApi lat lon
       else HttpError 500 (JsonBody None None);
     CoreStackService.get_mwsid_by_latlon :=
       @CoreStackService.get_mwsid_by_latlon CoreStackExtraScenario.answeringApi;
     CoreStackService.get_mws_kyl_indicators :=
       @CoreStackService.get_mws_kyl_indicators CoreStackExtraScenario.answeringApi |}.

Definition noAreaData : CoreStackEnrichment.AreaApi :=
  {| CoreStackEnrichment.get_generated_layer_urls := fun _ => HttpError 404 (JsonBody None None);
     CoreStackEnrichment.get_waterbodies_data_by_admin := fun _ => HttpOk (Fulfilled []) |}.

Definition observation (id_ : string) (lat_ : Q) (synced_ : option bool) : Observation :=
  {| id := id_; lat := lat_; lon := 7485 # 100;
     datasetValues := {[ "lulc" := LayerEntry {[ "class" := JStr "Trees" ]} ]};
     synced := synced_;
     others := {[ "notes" := JStr "ridge plot" ]} |}.

Definition table : Table :=
  [ observation "obs-1" (1290 # 100) (Some true);
    observation "obs-2" (1291 # 100) None;
    observation "obs-3" (1310 # 100) (Some false) ].

Definition idle : SyncStatus :=
  {| pendingObservations := 2; pendingImages := 0; lastSync := None; isSyncing := false;
     errors := ["Observation obs-0: Unknown error"] |}.

Definition stamps (observationId_ : string) : string :=
  "2025-01-15T10:00:00.000Z".

Definition client : CoreStackService.State := CoreStackService.create ∅ true.

End SyncScenario.

(** * Theorems *)

(** ** The years of a table *)

Section Years.
Import DatasetManager.
















End Years.

(** ** The loop over the active layers *)

Section DatasetManagerFacts.
Import DatasetManager.
Context `{Turf}.

Lemma lookup_setMember {A} (k i : string) (v : A) (o : gmap string A) :
  setMember k v o !! i = if decide (i = k ∧ k ≠ "__proto__") then Some v else o !! i.
Proof.
  unfold setMember. destruct (k =? "__proto__")%string eqn:E.
  - apply String.eqb_eq in E. case_decide as Hd; [by destruct Hd|done].
  - apply String.eqb_neq in E. case_decide as Hd.
    + destruct Hd as [-> _]. by rewrite lookup_insert_eq.
    + rewrite lookup_insert_ne; [done|]. intros <-. by apply Hd.
Qed.

(** A layer whose turn writes nothing keeps what the mapping held. *)
Lemma queryLayers_skipped st pt ids values out i :
  queryLayers st pt ids values = Fulfilled out →
  queryLayer st pt i = Fulfilled None →
  out !! i = values !! i.
Proof.
  revert values. induction ids as [|j ids IH]; intros values; simpl.
  - by intros [= ->].
  - destruct (queryLayer st pt j) as [r|] eqn:Hj; simpl; [|done].
    intros Hout Hi. rewrite (IH _ Hout Hi).
    destruct r as [v|]; [|done].
    rewrite lookup_setMember. case_decide as Hd; [|done].
    destruct Hd as [-> _]. congruence.
Qed.

(** No turn writes an own property ["__proto__"]. *)
Lemma queryLayers_proto st pt ids values out :
  queryLayers st pt ids values = Fulfilled out →
  out !! "__proto__" = values !! "__proto__".
Proof.
  revert values. induction ids as [|j ids IH]; intros values; simpl.
  - by intros [= ->].
  - destruct (queryLayer st pt j) as [r|] eqn:Hj; simpl; [|done].
    intros Hout. rewrite (IH _ Hout).
    destruct r as [v|]; [|done].
    rewrite lookup_setMember. case_decide as Hd; [|done]. by destruct Hd.
Qed.

(** An active layer whose turn writes [v] ends up mapped to [v]. *)
Lemma queryLayers_written st pt ids values out i v :
  i ≠ "__proto__" →
  queryLayers st pt ids values = Fulfilled out →
  queryLayer st pt i = Fulfilled (Some v) →
  i ∈ ids ∨ values !! i = Some v →
  out !! i = Some v.
Proof.
  intros Hproto. revert values. induction ids as [|j ids IH]; intros values; simpl.
  - intros [= ->] _ [Hin|Hv]; [by apply elem_of_nil in Hin|done].
  - destruct (queryLayer st pt j) as [r|] eqn:Hj; simpl; [|done].
    intros Hout Hi Hor. apply (IH _ Hout Hi).
    destruct (decide (j = i)) as [->|Hne].
    + right. rewrite Hi in Hj. injection Hj as <-.
      rewrite lookup_setMember. by rewrite decide_True.
    + destruct Hor as [Hin|Hv].
      * apply elem_of_cons in Hin as [->|Hin]; [done|by left].
      * right. destruct r; [|done].
        rewrite lookup_setMember. rewrite decide_False; [done|]. by intros [-> _].
Qed.



(** The first polygon that contains the point decides, whatever follows. *)
Lemma firstContaining_first_match pt q before f after :
  Forall (fun g => isPolygonal (geometry g) = true →
                   booleanPointInPolygon pt (geometry g) = Fulfilled false) before →
  isPolygonal (geometry f) = true →
  booleanPointInPolygon pt (geometry f) = Fulfilled true →
  firstContaining pt q (before ++ f :: after) = Fulfilled (extractFields q f).
Proof.
  intros Hb Hp Hin. induction Hb as [|g before Hg _ IH]; simpl.
  - by rewrite Hp, Hin.
  - destruct (isPolygonal (geometry g)); [|done]. by rewrite Hg.
Qed.

Lemma firstContaining_no_match pt q fs :
  Forall (fun g => isPolygonal (geometry g) = true →
                   booleanPointInPolygon pt (geometry g) = Fulfilled false) fs →
  firstContaining pt q fs = Fulfilled ∅.
Proof.
  intros Hfs. induction Hfs as [|g fs Hg _ IH]; simpl; [done|].
  destruct (isPolygonal (geometry g)); [|done]. by rewrite Hg.
Qed.

Lemma extractFields_acc f (l : list string) (acc : LayerValues) k :
  foldl (fun a field => setMember field (featureField f field) a) acc l !! k
  = if decide (k ∈ l ∧ k ≠ "__proto__") then Some (featureField f k) else acc !! k.
Proof.
  revert acc. induction l as [|x l IH]; intros acc; cbn [foldl].
  - rewrite decide_False; [done|]. by intros [Hin%elem_of_nil _].
  - rewrite IH, lookup_setMember.
    destruct (decide (k ∈ l ∧ k ≠ "__proto__")) as [[Hin Hp]|Hnin].
    + rewrite decide_True; [done|]. split; [|done]. apply elem_of_cons. by right.
    + destruct (decide (k = x ∧ x ≠ "__proto__")) as [[-> Hp]|Hne].
      * rewrite decide_True; [done|]. split; [|done]. apply elem_of_cons. by left.
      * rewrite decide_False; [done|]. intros [Hin Hp].
        apply elem_of_cons in Hin as [->|Hin]; [by apply Hne|by apply Hnin].
Qed.

(** With a query, exactly the declared fields are extracted (a field
    ["__proto__"] leaves no property behind). *)
Lemma extractFields_declared lq f k :
  extractFields (Some lq) f !! k
  = if decide (k ∈ fields lq ∧ k ≠ "__proto__") then Some (featureField f k) else None.
Proof. unfold extractFields. by rewrite extractFields_acc, lookup_empty. Qed.

(** Without a query, the properties are copied. *)
Lemma extractFields_no_query f : extractFields None f = default ∅ (properties f).
Proof. reflexivity. Qed.

(** The turns of the loop succeed or fail together, whatever the order. *)
Lemma queryLayers_fulfils_iff st pt ids values :
  (∃ out, queryLayers st pt ids values = Fulfilled out)
  ↔ ∀ i, i ∈ ids → ∃ r, queryLayer st pt i = Fulfilled r.
Proof.
  revert values. induction ids as [|j ids IH]; intros values; simpl.
  - split; [intros _ i Hi; by apply elem_of_nil in Hi|eauto].
  - destruct (queryLayer st pt j) as [r|reason] eqn:Hj; simpl.
    + rewrite IH. split.
      * intros Hall i [->|Hi]%elem_of_cons; [eauto|by apply Hall].
      * intros Hall i Hi. apply Hall, elem_of_cons. by right.
    + split; [by intros [out Hout]|].
      intros Hall. destruct (Hall j) as [r Hr]; [by left|]. congruence.
Qed.

(** A layer that is not active leaves no trace. *)
Lemma queryLayers_inactive st pt ids values out i :
  i ∉ ids →
  queryLayers st pt ids values = Fulfilled out →
  out !! i = values !! i.
Proof.
  revert values. induction ids as [|j ids IH]; intros values Hnin; simpl.
  - by intros [= ->].
  - destruct (queryLayer st pt j) as [r|] eqn:Hj; simpl; [|done].
    apply not_elem_of_cons in Hnin as [Hne Hnin].
    intros Hout. rewrite (IH _ Hnin Hout).
    destruct r as [v|]; [|done]. rewrite lookup_setMember.
    rewrite decide_False; [done|]. by intros [-> _].
Qed.

(** What a returned mapping holds for a layer: what the turn of the layer
    leaves, if the layer is active and is not called ["__proto__"]. *)
Lemma queryLayers_entry st pt ids out i :
  queryLayers st pt ids ∅ = Fulfilled out →
  out !! i
  = if decide (i ∈ ids ∧ i ≠ "__proto__")
    then match queryLayer st pt i with Fulfilled r => r | Rejected _ => None end
    else None.
Proof.
  intros Hout.
  destruct (decide (i ∈ ids ∧ i ≠ "__proto__")) as [[Hin Hp]|Hn].
  - destruct (proj1 (queryLayers_fulfils_iff st pt ids ∅) (ex_intro _ out Hout) i Hin)
      as [r Hr].
    rewrite Hr. destruct r as [v|].
    + by apply (queryLayers_written st pt ids ∅ out i v Hp Hout Hr); left.
    + by rewrite (queryLayers_skipped _ _ _ _ _ i Hout Hr).
  - destruct (decide (i = "__proto__")) as [->|Hp].
    + by rewrite (queryLayers_proto _ _ _ _ _ Hout).
    + rewrite (queryLayers_inactive st pt ids ∅ out i); [done| |done].
      intros Hin. by apply Hn.
Qed.



End DatasetManagerFacts.
(** ** Claims on [getValuesAtPoint] *)

Section DatasetManagerClaims.
Import DatasetManager.
Context {turf : Turf}.


(** What a mapping that [getValuesAtPoint] returns holds: no entry for a
    layer id that is not in the catalog or whose data is not loaded, the
    empty object for an active GeoJSON layer (not called ["__proto__"])
    that is loaded and none of whose polygons contains the point. *)
Lemma returned_values_skip_unloaded_keep_unmatched st lat lon ids values :
  getValuesAtPoint st lat lon ids = Fulfilled values →
  (∀ i, getLayerById st i = None ∨ loadedData st !! i = None → values !! i = None)
  ∧ (∀ i layer data,
       i ∈ ids →
       i ≠ "__proto__" →
       getLayerById st i = Some layer →
       loadedData st !! i = Some data →
       format (source layer) = fmt_geojson →
       (∀ fc, geojsonLayers st !! i = Some fc →
              Forall (fun f => isPolygonal (geometry f) = true →
                               booleanPointInPolygon (turfPoint lon lat) (geometry f)
                               = Fulfilled false) (features fc)) →
       values !! i = Some ∅).
Proof.
  intros Hv. unfold getValuesAtPoint in Hv. split.
  - intros i Hi. rewrite (queryLayers_skipped _ _ _ _ _ i Hv); [apply lookup_empty|].
    unfold queryLayer. destruct Hi as [->|Hi]; [done|].
    destruct (getLayerById st i); [|done]. by rewrite Hi.
  - intros i layer data Hin Hproto Hl Hd Hf Hfs.
    rewrite (queryLayers_entry _ _ _ _ i Hv). rewrite decide_True by done.
    unfold queryLayer. rewrite Hl, Hd, Hf. simpl.
    destruct (geojsonLayers st !! i) as [fc|]; [|done].
    by rewrite (firstContaining_no_match _ _ _ (Hfs fc eq_refl)).
Qed.

End DatasetManagerClaims.


Example csv_layer_2018_2020 :
  @DatasetManager.getValuesAtPoint rayCastTurf Scenario.datasets Scenario.lat Scenario.lon
    ["lulc_glc_composition"]
  = Fulfilled
      (<["lulc_glc_composition" :=
           summaryOf "csv_summary" 2020
             [Scenario.lulcRow 2020 1 "Forest"; Scenario.lulcRow 2020 2 "Cropland"]]> ∅).
Proof. vm_compute. reflexivity. Qed.


Example unmatched_vector_layer_is_empty_object :
  @DatasetManager.getValuesAtPoint rayCastTurf Scenario.datasets 0 0
    ["dakshina_kannada_boundary"; "not_in_catalog"]
  = Fulfilled (<["dakshina_kannada_boundary" := ∅]> ∅).
Proof. vm_compute. reflexivity. Qed.

(** C10 at the failing inputs.  The point (15, 74) is outside the district
    polygon, so the district layer alone is mapped to the empty object.
    With the regional layer active as well, whose file has a ring that is
    not closed, the point-in-polygon test throws, [getValuesAtPoint] has no
    [try] around it and the call rejects: the district layer contributes
    nothing.  And a loaded layer called ["__proto__"] contributes no entry
    whether a feature matches or not. *)
Theorem throwing_layer_takes_the_unmatched_entry_away :
  @DatasetManager.getValuesAtPoint closedRingTurf Scenario.openRingDatasets
    Scenario.northLat Scenario.northLon ["dakshina_kannada_boundary"]
  = Fulfilled (<["dakshina_kannada_boundary" := ∅]> ∅)
  ∧ @DatasetManager.getValuesAtPoint closedRingTurf Scenario.openRingDatasets
      Scenario.northLat Scenario.northLon
      ["dakshina_kannada_boundary"; "western_ghats_boundary"]
    = Rejected "Error: First and last coordinates in a ring must be the same"
  ∧ @DatasetManager.getValuesAtPoint closedRingTurf Scenario.protoDatasets
      Scenario.northLat Scenario.northLon ["__proto__"]
    = Fulfilled ∅.
Proof. repeat split; vm_compute; reflexivity. Qed.

(** C6 at the failing input.  The district layer of [DEFAULT_MANIFEST]
    declares [fields: []]; the point lies in its polygon, whose feature has
    attributes, and the layer is mapped to the empty object all the same. *)
Theorem empty_field_list_drops_all_properties :
  rayCast (turfPoint Scenario.lon Scenario.lat) (geometry Scenario.districtFeature) = true
  ∧ DatasetManager.query Scenario.dkBoundaryLayer
    = Some {| DatasetManager.mode := DatasetManager.feature_at_point;
              DatasetManager.fields := [] |}
  ∧ properties Scenario.districtFeature = Some Scenario.districtProperties
  ∧ Scenario.districtProperties !! "DISTRICT" = Some (JStr "Dakshina Kannada")
  ∧ @DatasetManager.getValuesAtPoint rayCastTurf Scenario.datasets Scenario.lat Scenario.lon
      ["dakshina_kannada_boundary"]
    = Fulfilled (<["dakshina_kannada_boundary" := ∅]> ∅).
Proof. repeat split; vm_compute; reflexivity. Qed.

(** ** Claims on the CoreStack client *)

Lemma isAvailable_iff (st : CoreStackService.State) :
  CoreStackService.isAvailable st = true
  ↔ CoreStackService.isOnline st = true ∧ CoreStackService.hasApiKey st = true.
Proof. unfold CoreStackService.isAvailable. apply andb_true_iff. Qed.

(** Whatever the local storage holds, a new client has a key. *)
Lemma create_always_has_key (localStorage : gmap string string) (online : bool) :
  CoreStackService.hasApiKey (CoreStackService.create localStorage online) = true.
Proof.
  unfold CoreStackService.hasApiKey, CoreStackService.create. simpl.
  destruct (CoreStackService.nonEmpty (localStorage !! "corestack_api_key")) eqn:E; [done|].
  reflexivity.
Qed.

(** C8 at the failing input.  A client created with an empty local storage
    (no key was ever configured) while the browser is online takes the key
    written in the source and reports itself available. *)
Theorem fresh_client_online_is_available :
  CoreStackService.apiKey (CoreStackService.create ∅ true)
  = Some CoreStackService.DEFAULT_API_KEY
  ∧ CoreStackService.isAvailable (CoreStackService.create ∅ true) = true.
Proof. split; reflexivity. Qed.

(** ** Claims on the weather client *)

Section WeatherClaims.
Import WeatherService.
Context {api : Api}.

Lemma getWeather_offline st clock lat lon :
  isOnline st = false →
  getWeather st clock lat lon = {| result := None; requests := 0; after := st |}.
Proof. intros Hoff. unfold getWeather. by rewrite Hoff. Qed.

Lemma getWeather_fresh st clock lat lon payload :
  isOnline st = true →
  freshEntry st (nowAtCheck clock) (cacheKey lat lon) = Some payload →
  getWeather st clock lat lon = {| result := Some payload; requests := 0; after := st |}.
Proof. intros Hon Hf. unfold getWeather. by rewrite Hon, Hf. Qed.

(** The cache of a call that fetched with success. *)
Lemma getWeather_stores st clock lat lon payload :
  requests (getWeather st clock lat lon) = 1 →
  result (getWeather st clock lat lon) = Some payload →
  cache (after (getWeather st clock lat lon)) !! cacheKey lat lon
  = Some {| data := payload; expiry := (nowAtStore clock + cacheDuration)%Z |}.
Proof.
  unfold getWeather. destruct (isOnline st); simpl; [|done].
  destruct (freshEntry st (nowAtCheck clock) (cacheKey lat lon)); simpl; [done|].
  destruct (forecast_at lat lon) as [| |[json|]]; simpl; try done.
  intros _ [= <-]. by rewrite lookup_insert_eq.
Qed.

(** A call made before an entry expires leaves that entry alone. *)
Lemma getWeather_keeps_entry st clock lat lon key entry :
  cache st !! key = Some entry →
  (nowAtCheck clock < expiry entry)%Z →
  cache (after (getWeather st clock lat lon)) !! key = Some entry.
Proof.
  intros Hk Hlt. unfold getWeather. destruct (isOnline st); simpl; [|done].
  destruct (freshEntry st (nowAtCheck clock) (cacheKey lat lon)) eqn:Hf; simpl; [done|].
  destruct (forecast_at lat lon) as [| |[json|]]; simpl; try done.
  rewrite lookup_insert_ne; [done|]. intros <-.
  unfold freshEntry in Hf. rewrite Hk in Hf.
  apply Z.ltb_lt in Hlt. by rewrite Hlt in Hf.
Qed.

Lemma afterWeatherCalls_keeps_entry st calls key entry :
  cache st !! key = Some entry →
  Forall (fun c => (nowAtCheck (callClock c) < expiry entry)%Z) calls →
  cache (afterWeatherCalls st calls) !! key = Some entry.
Proof.
  intros Hk Hcalls. revert st Hk.
  induction Hcalls as [|c calls Hc _ IH]; intros st Hk; simpl; [done|].
  apply IH. unfold runWeatherCall. by apply getWeather_keeps_entry.
Qed.

(** C7.  After a call that fetched a forecast with success, and whatever
    calls were made since before that forecast expired, a call for
    coordinates with the same three decimals, made less than thirty minutes
    after the forecast was stored, sends no request; if the client is online
    it returns the stored payload unchanged.  A call made offline returns
    [null] without a request, and so does a call whose fetch fails. *)
Theorem weather_cache_and_null_answers
    (st : State) (clock1 : Clock) (lat1 lon1 : Q) (payload : WeatherData)
    (between : list WeatherCall) (clock2 : Clock) (lat2 lon2 : Q) (online2 : bool) :
  let first := getWeather st clock1 lat1 lon1 in
  let second :=
    getWeather {| isOnline := online2; cache := cache (afterWeatherCalls (after first) between) |}
               clock2 lat2 lon2 in
  (requests first = 1 →
   result first = Some payload →
   cacheKey lat2 lon2 = cacheKey lat1 lon1 →
   (nowAtCheck clock2 < nowAtStore clock1 + cacheDuration)%Z →
   Forall (fun c => (nowAtCheck (callClock c) < nowAtStore clock1 + cacheDuration)%Z) between →
   requests second = 0
   ∧ (online2 = true → result second = Some payload)
   ∧ cache (after second) = cache (afterWeatherCalls (after first) between))
  ∧ (isOnline st = false → result first = None ∧ requests first = 0 ∧ after first = st)
  ∧ (requests first = 1 → fetchFails (forecast_at lat1 lon1) →
     result first = None ∧ after first = st).
Proof.
  intros first second. split; [|split].
  - intros Hreq Hres Hkey Hlt Hbetween.
    pose proof (getWeather_stores st clock1 lat1 lon1 payload Hreq Hres) as Hstored.
    pose proof (afterWeatherCalls_keeps_entry (after first) between _ _ Hstored Hbetween)
      as Hkept.
    subst second. destruct online2.
    + rewrite (getWeather_fresh _ clock2 lat2 lon2 payload); [by simpl| done |].
      unfold freshEntry. simpl. rewrite Hkey, Hkept. simpl.
      apply Z.ltb_lt in Hlt. by rewrite Hlt.
    + rewrite getWeather_offline by done. by simpl.
  - intros Hoff. subst first. by rewrite getWeather_offline.
  - intros Hreq Hfail. subst first. unfold getWeather in *.
    destruct (isOnline st); simpl in *; [|done].
    destruct (freshEntry st (nowAtCheck clock1) (cacheKey lat1 lon1)); simpl in *; [done|].
    destruct (forecast_at lat1 lon1) as [| |[json|]]; simpl; try done.
    by destruct (Hfail json).
Qed.

(** What is returned is never an entry past its expiry: it is a fresh entry
    of the cache or the payload just fetched. *)
Lemma getWeather_never_stale st clock lat lon payload :
  result (getWeather st clock lat lon) = Some payload →
  freshEntry st (nowAtCheck clock) (cacheKey lat lon) = Some payload
  ∨ (requests (getWeather st clock lat lon) = 1
     ∧ fetchedAt payload = isoAtStore clock).
Proof.
  unfold getWeather. destruct (isOnline st); simpl; [|done].
  destruct (freshEntry st (nowAtCheck clock) (cacheKey lat lon)); simpl.
  - intros [= ->]. by left.
  - destruct (forecast_at lat lon) as [| |[json|]]; simpl; try done.
    intros [= <-]. by right.
Qed.

End WeatherClaims.

Lemma weather_cache_and_null_answers_witness :
  let first :=
    @WeatherService.getWeather WeatherScenario.goodApi WeatherScenario.onlineEmpty
      WeatherScenario.firstClock Scenario.lat Scenario.lon in
  let second :=
    @WeatherService.getWeather WeatherScenario.goodApi
      {| WeatherService.isOnline := true;
         WeatherService.cache :=
           WeatherService.cache
             (@afterWeatherCalls WeatherScenario.goodApi (WeatherService.after first)
                [WeatherScenario.otherCall]) |}
      WeatherScenario.secondClock (129004 # 10000) (748496 # 10000) in
  (WeatherService.requests second = 0
   ∧ (true = true → WeatherService.result second = WeatherService.result first)
   ∧ WeatherService.cache (WeatherService.after second)
     = WeatherService.cache
         (@afterWeatherCalls WeatherScenario.goodApi (WeatherService.after first)
            [WeatherScenario.otherCall]))
  ∧ (let offline :=
       @WeatherService.getWeather WeatherScenario.goodApi WeatherScenario.offlineEmpty
         WeatherScenario.firstClock Scenario.lat Scenario.lon in
     WeatherService.result offline = None ∧ WeatherService.requests offline = 0
     ∧ WeatherService.after offline = WeatherScenario.offlineEmpty)
  ∧ (let failed :=
       @WeatherService.getWeather WeatherScenario.failingApi WeatherScenario.onlineEmpty
         WeatherScenario.firstClock Scenario.lat Scenario.lon in
     WeatherService.result failed = None
     ∧ WeatherService.after failed = WeatherScenario.onlineEmpty).
Proof.
  intros first second.
  destruct (WeatherService.result first) as [payload|] eqn:Hres; [|discriminate Hres].
  split; [|split].
  - apply (proj1 (@weather_cache_and_null_answers WeatherScenario.goodApi
                    WeatherScenario.onlineEmpty WeatherScenario.firstClock
                    Scenario.lat Scenario.lon payload [WeatherScenario.otherCall]
                    WeatherScenario.secondClock (129004 # 10000) (748496 # 10000) true)).
    + reflexivity.
    + exact Hres.
    + reflexivity.
    + reflexivity.
    + repeat constructor.
  - apply (proj1 (proj2 (@weather_cache_and_null_answers WeatherScenario.goodApi
                    WeatherScenario.offlineEmpty WeatherScenario.firstClock
                    Scenario.lat Scenario.lon
                    {| WeatherService.current := WeatherService.toCurrent
                         (WeatherService.api_current WeatherScenario.sampleForecast);
                       WeatherService.forecast := [];
                       WeatherService.fetchedAt := "" |}
                    [] WeatherScenario.secondClock 0 0 false))).
    reflexivity.
  - apply (proj2 (proj2 (@weather_cache_and_null_answers WeatherScenario.failingApi
                    WeatherScenario.onlineEmpty WeatherScenario.firstClock
                    Scenario.lat Scenario.lon
                    {| WeatherService.current := WeatherService.toCurrent
                         (WeatherService.api_current WeatherScenario.sampleForecast);
                       WeatherService.forecast := [];
                       WeatherService.fetchedAt := "" |}
                    [] WeatherScenario.secondClock 0 0 false))).
    + reflexivity.
    + intros json. discriminate.
Defined.
(** ** Claims on the land-cover data *)

Section LandCoverClaims.
Import LocationDataService.
Context {turf : Turf} {coreStackApi : CoreStackService.Api}
        {weatherApi : WeatherService.Api} {files : DynamicWorldService.Files}.

Lemma gather_assembles st now clock lat lon online :
  fst (gather st now clock lat lon online)
  = assemble lat lon now online
      (getLocalData st lat lon)
      (getAdminData st lat lon online)
      (fst (getLandCoverData st lat lon online))
      (getWatershedData st lat lon online)
      (Fulfilled (WeatherService.result (weatherBranch st clock lat lon online))).
Proof. reflexivity. Qed.

Lemma regionalLandCover_flags d lc :
  regionalLandCover d = Some lc →
  pointDataAvailable lc = false ∧ landCoverSource lc = dynamicworld_regional.
Proof.
  unfold regionalLandCover. destruct (Qltb 0 _); [|done]. by intros [= <-].
Qed.

Lemma getLandCoverData_flags st lat lon online :
  ∃ lc, fst (getLandCoverData st lat lon online) = Fulfilled (Some lc)
        ∧ pointDataAvailable lc = false
        ∧ landCoverSource lc ≠ dynamicworld_point
        ∧ (landCoverSource lc = dynamicworld_regional
           ∨ landCoverSource lc = unavailable ∧ regionalSummary lc = None).
Proof.
  unfold getLandCoverData. simpl. eexists. split; [reflexivity|].
  destruct (DynamicWorldService.getRegionalStats _ None) as [d|];
    [|by split; [|split; [|right]]].
  destruct (regionalLandCover d) as [lc|] eqn:E; simpl.
  - destruct (regionalLandCover_flags d lc E) as [-> ->]. split; [done|]. split; [done|by left].
  - by split; [|split; [|right]].
Qed.

(** In the client and the service that the claim cites: [fetchPointData]
    returns [null] for every coordinate and date, [isPointDataAvailable]
    is false, and the land-cover block that the five promises are
    assembled to does not depend on the coordinates, is flagged
    [pointDataAvailable = false] and never carries the point source tag. *)
Lemma cited_land_cover_is_regional
    (st : State) (now : string) (clock : WeatherService.Clock)
    (lat lon lat' lon' : Q) (online online' : bool) (date : option string) :
  DynamicWorldService.fetchPointData (dynamicWorldService st) lat lon date = Fulfilled None
  ∧ DynamicWorldService.isPointDataAvailable (dynamicWorldService st) = false
  ∧ getLandCoverData st lat lon online = getLandCoverData st lat' lon' online'
  ∧ ∃ lc, landCover (fst (gather st now clock lat lon online)) = Some lc
          ∧ pointDataAvailable lc = false
          ∧ landCoverSource lc ≠ dynamicworld_point
          ∧ (landCoverSource lc = dynamicworld_regional
             ∨ landCoverSource lc = unavailable ∧ regionalSummary lc = None).
Proof.
  split; [reflexivity|]. split; [reflexivity|]. split; [reflexivity|].
  destruct (getLandCoverData_flags st lat lon online) as (lc & Hlc & Hflags).
  exists lc. split; [|exact Hflags].
  rewrite gather_assembles. unfold assemble. cbn [landCover]. by rewrite Hlc.
Qed.

End LandCoverClaims.

(** C9 at the failing input.  The Dynamic World client of
    [services/DynamicWorldService.ts], online and with the regional file
    loaded, answers [fetchPointData(12.90, 74.85)] with a record for that
    very point whose class is the largest class of the regional totals, and
    gives the same class for any other point.  The land-cover block of the
    earlier [LocationDataService] is the regional line tagged
    ['estimated'], without any flag on point data. *)
Theorem legacy_point_lookup_answers_from_regional_totals :
  (∃ p, LegacyDynamicWorldService.fetchPointData EnrichScenario.legacyClient
          Scenario.lat Scenario.lon None EnrichScenario.now = Fulfilled (Some p)
        ∧ LegacyDynamicWorldService.lat p = Scenario.lat
        ∧ LegacyDynamicWorldService.lon p = Scenario.lon
        ∧ LegacyDynamicWorldService.landCoverClass p = "Trees")
  ∧ (∃ p, LegacyDynamicWorldService.fetchPointData EnrichScenario.legacyClient
            Scenario.northLat Scenario.northLon None EnrichScenario.now = Fulfilled (Some p)
          ∧ LegacyDynamicWorldService.landCoverClass p = "Trees")
  ∧ (∃ lc, fst (@LegacyLocationDataService.getLandCoverData EnrichScenario.regionalFile
                  {| DynamicWorldService.cachedData := [];
                     DynamicWorldService.dataLoaded := false |}
                  Scenario.lat Scenario.lon true) = Fulfilled (Some lc)
           ∧ LegacyLocationDataService.dominantClass lc = "Trees"
           ∧ LegacyLocationDataService.year lc = 2024%Z
           ∧ LegacyLocationDataService.landCoverSource lc
             = LegacyLocationDataService.lc_estimated).
Proof.
  split; [|split].
  - eexists. split; [reflexivity|]. repeat split.
  - eexists. split; [reflexivity|]. reflexivity.
  - eexists. split; [reflexivity|]. repeat split.
Qed.

(** ** Claims on [enrichLocation] *)

Section EnrichClaims.
Import LocationDataService.
Context {turf : Turf} {coreStackApi : CoreStackService.Api}
        {weatherApi : WeatherService.Api} {files : DynamicWorldService.Files}
        {sources : DatasetManager.Sources} {boundaryFiles : BoundaryFiles}
        {blockFile : BlockFile}.

(** With the files typed as the source types them (a manifest being an
    object whose [layers], when it has any, is an array of layers),
    [initialize] rejects in one case only: the service is not initialised
    yet and the custom manifest that is served has no [layers]. *)
Lemma initialize_rejects_iff st reason :
  initialize st = Rejected reason
  ↔ initialized st = false
    ∧ DatasetManager.manifest_file = HttpOk (Fulfilled None)
    ∧ reason = "TypeError: Cannot read properties of undefined (reading 'filter')".
Proof.
  unfold initialize, DatasetManager.initialize.
  destruct (initialized st); [by split; [|intros (? & _)]|].
  destruct DatasetManager.manifest_file as [r|status body|[[layers|]|r]]; simpl;
    (split; [intros [= <-] || intros [=]|intros (_ & [=] & ->) || intros (_ & _ & ->)]);
    try done.
Qed.

Lemma initialize_done st : initialized st = true → initialize st = Fulfilled st.
Proof. intros Hi. unfold initialize. by rewrite Hi. Qed.

Lemma initialize_marks st ready :
  initialize st = Fulfilled ready →
  initialized ready = true ∧ coreStackService ready = coreStackService st
  ∧ weatherService ready = weatherService st.
Proof.
  unfold initialize. destruct (initialized st) eqn:Hi; [by intros [= <-]|].
  destruct (DatasetManager.initialize (datasetManager st)); simpl; [|done].
  by intros [= <-].
Qed.

(** The call is the rejection of [initialize], or the assembly of the five
    promises of the initialised service. *)
Lemma enrichLocation_cases st now clock lat lon online :
  enrichLocation st now clock lat lon online
  = match initialize st with
    | Fulfilled ready => Fulfilled (gather ready now clock lat lon online)
    | Rejected reason => Rejected reason
    end.
Proof. unfold enrichLocation. by destruct (initialize st). Qed.

(** Once [initialize] has completed, the call returns a report, and each
    block of it is what its own promise yielded: a rejection elsewhere
    never removes it. *)
Lemma initialised_service_is_fail_soft st now clock lat lon online :
  initialized st = true →
  ∃ report after,
    enrichLocation st now clock lat lon online = Fulfilled (report, after)
    ∧ localData report = blockOf (getLocalData st lat lon)
    ∧ admin report = blockOf (getAdminData st lat lon online)
    ∧ landCover report = blockOf (fst (getLandCoverData st lat lon online))
    ∧ watershed report = blockOf (getWatershedData st lat lon online)
    ∧ weather report = WeatherService.result (weatherBranch st clock lat lon online)
    ∧ coordinates report = (lat, lon) ∧ isOnline report = online.
Proof.
  intros Hi. rewrite enrichLocation_cases, (initialize_done st Hi).
  exists (fst (gather st now clock lat lon online)), (snd (gather st now clock lat lon online)).
  split; [by rewrite <- surjective_pairing|].
  rewrite gather_assembles. unfold assemble.
  cbn [localData admin landCover watershed weather coordinates isOnline].
  destruct (getLocalData st lat lon) as [[?|]|], (getAdminData st lat lon online) as [[?|]|],
    (fst (getLandCoverData st lat lon online)) as [[?|]|],
    (getWatershedData st lat lon online) as [[?|]|];
    simpl; repeat split; by destruct (WeatherService.result _).
Qed.

Lemma failureNote_length {A} label (m : Outcome (option A)) :
  length (failureNote label m) = rejections m.
Proof. by destruct m. Qed.

(** A failure of the remote administrative call never leaves
    [getAdminData]: the boundary files decide. *)
Lemma remoteAdmin_failure st lat lon online reason :
  CoreStackService.getAdminDetailsByLatLon (coreStackService st) lat lon = Rejected reason →
  remoteAdmin st lat lon online = None.
Proof.
  intros Hr. unfold remoteAdmin. rewrite Hr. by destruct (_ && _).
Qed.

Lemma request_http_error {T} cs status body :
  CoreStackService.isOnline cs = true →
  CoreStackService.hasApiKey cs = true →
  ∃ reason, @CoreStackService.request T cs (HttpError status body) = Rejected reason.
Proof.
  intros Hon Hkey. unfold CoreStackService.request.
  unfold CoreStackService.hasApiKey in Hkey. rewrite Hon, Hkey. simpl. eauto.
Qed.

Lemma getWatershedData_failure st lat lon online reason :
  CoreStackService.getMWSIdByLatLon (coreStackService st) lat lon = Rejected reason →
  getWatershedData st lat lon online = Fulfilled None.
Proof.
  intros Hr. unfold getWatershedData. rewrite Hr. by destruct (_ || _).
Qed.

Lemma getWatershedData_never_rejects st lat lon online :
  ∃ w, getWatershedData st lat lon online = Fulfilled w.
Proof.
  unfold getWatershedData. destruct (_ || _); [eauto|].
  destruct (CoreStackService.getMWSIdByLatLon _ _ _) as [[m|]|]; eauto.
  destruct (negb _); eauto.
Qed.

(** C4 (as amended).  A call whose [initialize()] rejects rejects with it
    and starts no promise.  Every other call, online or not, returns a
    report in which each of the local-data, administrative, land-cover and
    watershed promises that rejects has one line, its label followed by the
    reason, these being all the lines of [errors] and in that order, while
    the block of every promise that fulfils is assembled all the same.  A
    failure of the remote administrative call, such as an HTTP 500, is
    caught inside [getAdminData]: the administrative block is what the
    boundary files give and no line of [errors] comes from the remote
    failure; the watershed block is absent when the watershed call fails as
    well, and the weather block is what the weather client answers. *)
Theorem rejected_branches_are_reported_remote_admin_failure_is_not
    (st : State) (now : string) (clock : WeatherService.Clock) (lat lon : Q) (online : bool)
    (status : Z) (body body' : ErrorBody) :
  match initialize st with
  | Rejected reason => enrichLocation st now clock lat lon online = Rejected reason
  | Fulfilled ready =>
      ∃ report after,
        enrichLocation st now clock lat lon online = Fulfilled (report, after)
        ∧ errors report
          = lineOf "Local data: " (getLocalData ready lat lon)
            ++ lineOf "Admin data: " (getAdminData ready lat lon online)
            ++ lineOf "Land cover: " (fst (getLandCoverData ready lat lon online))
            ++ lineOf "Watershed: " (getWatershedData ready lat lon online)
        ∧ localData report = blockOf (getLocalData ready lat lon)
        ∧ admin report = blockOf (getAdminData ready lat lon online)
        ∧ landCover report = blockOf (fst (getLandCoverData ready lat lon online))
        ∧ watershed report = blockOf (getWatershedData ready lat lon online)
        ∧ weather report
          = (if online
             then WeatherService.result
                    (WeatherService.getWeather (weatherService ready) clock lat lon)
             else None)
        ∧ (online = true →
           CoreStackService.isAvailable (coreStackService ready) = true →
           CoreStackService.get_admin_details_by_latlon lat lon = HttpError status body →
           getAdminData ready lat lon online = boundaryAdmin ready lat lon
           ∧ admin report = blockOf (boundaryAdmin ready lat lon)
           ∧ errors report
             = lineOf "Local data: " (getLocalData ready lat lon)
               ++ lineOf "Admin data: " (boundaryAdmin ready lat lon)
           ∧ (CoreStackService.get_mwsid_by_latlon lat lon = HttpError status body' →
              watershed report = None))
  end.
Proof.
  rewrite enrichLocation_cases. destruct (initialize st) as [ready|reason]; [|done].
  exists (fst (gather ready now clock lat lon online)),
         (snd (gather ready now clock lat lon online)).
  split; [by rewrite <- surjective_pairing|].
  rewrite gather_assembles. unfold assemble.
  cbn [errors localData admin landCover watershed weather].
  assert (Hlc : ∃ lc, fst (getLandCoverData ready lat lon online) = Fulfilled lc)
    by (unfold getLandCoverData; simpl; eauto).
  destruct Hlc as [lc Hlc].
  destruct (getWatershedData_never_rejects ready lat lon online) as [w Hw].
  split; [|split; [|split; [|split; [|split; [|split]]]]].
  - by destruct (getLocalData ready lat lon), (getAdminData ready lat lon online),
      (fst (getLandCoverData ready lat lon online)), (getWatershedData ready lat lon online).
  - by destruct (getLocalData ready lat lon) as [[?|]|].
  - by destruct (getAdminData ready lat lon online) as [[?|]|].
  - by destruct (fst (getLandCoverData ready lat lon online)) as [[?|]|].
  - by destruct (getWatershedData ready lat lon online) as [[?|]|].
  - unfold weatherBranch. by destruct online.
  - intros -> Hav Hadmin. apply isAvailable_iff in Hav as [Hon Hkey].
    destruct (request_http_error (T := option CoreStackService.AdminDetails)
                (coreStackService ready) status body Hon Hkey) as [ra Hra].
    assert (Hremote : remoteAdmin ready lat lon true = None).
    { apply remoteAdmin_failure with ra.
      unfold CoreStackService.getAdminDetailsByLatLon. by rewrite Hadmin. }
    assert (Hget : getAdminData ready lat lon true = boundaryAdmin ready lat lon).
    { unfold getAdminData. by rewrite Hremote. }
    rewrite Hget, Hlc, Hw. simpl.
    split; [done|]. split; [by destruct (boundaryAdmin ready lat lon) as [[?|]|]|].
    split.
    + rewrite !app_nil_r.
      by destruct (getLocalData ready lat lon), (boundaryAdmin ready lat lon).
    + intros Hmws.
      destruct (request_http_error (T := option CoreStackService.MwsId)
                  (coreStackService ready) status body' Hon Hkey) as [rw Hrw].
      assert (Hws : getWatershedData ready lat lon true = Fulfilled None).
      { apply getWatershedData_failure with rw.
        unfold CoreStackService.getMWSIdByLatLon. by rewrite Hmws. }
      rewrite Hws in Hw. by injection Hw as <-.
Qed.

End EnrichClaims.

(** C3 at the failing input.  On a service whose [initialize()] has not
    completed, with a custom manifest that is served and has no [layers],
    [preloadLayers] throws at [this.manifest.layers.filter]; nothing
    between that and the caller of [enrichLocation] catches it, and the
    call rejects instead of returning a report. *)
Theorem manifest_without_layers_rejects_enrichment :
  @LocationDataService.initialize EnrichScenario.manifestWithoutLayers
    EnrichScenario.noBoundaryFiles EnrichScenario.noBlockFile EnrichScenario.regionalFile
    (EnrichScenario.created false)
  = Rejected "TypeError: Cannot read properties of undefined (reading 'filter')"
  ∧ @LocationDataService.enrichLocation rayCastTurf EnrichScenario.serverErrorApi
      WeatherScenario.goodApi EnrichScenario.regionalFile
      EnrichScenario.manifestWithoutLayers EnrichScenario.noBoundaryFiles
      EnrichScenario.noBlockFile (EnrichScenario.created false)
      EnrichScenario.now WeatherScenario.firstClock Scenario.lat Scenario.lon false
    = Rejected "TypeError: Cannot read properties of undefined (reading 'filter')".
Proof. split; reflexivity. Qed.

(** ** Claims on the administrative block *)

Section AdminClaims.
Import LocationDataService.
Context {turf : Turf} {coreStackApi : CoreStackService.Api}.

Lemma remoteAdmin_tagged st lat lon online a :
  remoteAdmin st lat lon online = Some a →
  source a = corestack_api ∧ confidence a = verified.
Proof.
  unfold remoteAdmin. destruct (_ && _); [|done].
  destruct (CoreStackService.getAdminDetailsByLatLon _ _ _) as [[d|]|]; try done.
  destruct (_ || _); [|done]. by intros [= <-].
Qed.

(** The remote step is skipped offline and without a key. *)
Lemma remoteAdmin_unavailable st lat lon online :
  online = false ∨ CoreStackService.hasApiKey (coreStackService st) = false →
  remoteAdmin st lat lon online = None.
Proof.
  intros [-> | Hk]; unfold remoteAdmin; [done|]. rewrite Hk. by rewrite andb_false_r.
Qed.

(** An answer without a state and without a district counts as empty. *)
Lemma remoteAdmin_empty st lat lon online answer :
  CoreStackService.getAdminDetailsByLatLon (coreStackService st) lat lon = Fulfilled answer →
  (∀ d, answer = Some d →
        CoreStackService.nonEmpty (CoreStackService.state_name d) = false
        ∧ CoreStackService.nonEmpty (CoreStackService.district_name d) = false) →
  remoteAdmin st lat lon online = None.
Proof.
  intros Ha He. unfold remoteAdmin. rewrite Ha. destruct (_ && _); [|done].
  destruct answer as [d|]; [|done]. destruct (He d eq_refl) as [-> ->]. done.
Qed.

(** An available API that names a state or a district is used. *)
Lemma remoteAdmin_used st lat lon d :
  CoreStackService.isAvailable (coreStackService st) = true →
  CoreStackService.get_admin_details_by_latlon lat lon = HttpOk (Fulfilled (Some d)) →
  CoreStackService.nonEmpty (CoreStackService.state_name d)
  || CoreStackService.nonEmpty (CoreStackService.district_name d) = true →
  ∃ a, remoteAdmin st lat lon true = Some a
       ∧ state a = optStr (CoreStackService.state_name d)
       ∧ district a = optStr (CoreStackService.district_name d)
       ∧ source a = corestack_api ∧ confidence a = verified.
Proof.
  intros Hav Hans Hne. apply isAvailable_iff in Hav as [Hon Hkey].
  unfold remoteAdmin, CoreStackService.getAdminDetailsByLatLon, CoreStackService.request.
  rewrite Hkey, Hans, Hon. unfold CoreStackService.hasApiKey in Hkey. rewrite Hkey. simpl.
  rewrite Hne. eexists. split; [reflexivity|]. by repeat split.
Qed.

(** The chain of [getAdminData], step by step. *)
Lemma getAdminData_remote_first st lat lon online a :
  remoteAdmin st lat lon online = Some a →
  getAdminData st lat lon online = Fulfilled (Some a).
Proof. intros Hr. unfold getAdminData. by rewrite Hr. Qed.

Lemma getAdminData_district_before_region st lat lon online ps localBlock :
  remoteAdmin st lat lon online = None →
  isPointInBoundary st lat lon "dakshina_kannada" = Some ps →
  getLocalBlockData st (js_or (prop ps "DISTRICT") (prop ps "district")) = Fulfilled localBlock →
  ∃ a, getAdminData st lat lon online = Fulfilled (Some a)
       ∧ source a = boundary_geojson ∧ confidence a = verified
       ∧ district a = js_or (js_or (prop ps "DISTRICT") (prop ps "district"))
                            (JStr "Dakshina Kannada").
Proof.
  intros Hr Hdk Hb. unfold getAdminData, boundaryAdmin. rewrite Hr, Hdk, Hb. simpl.
  eexists. split; [reflexivity|]. by repeat split.
Qed.

Lemma getAdminData_region st lat lon online ps :
  remoteAdmin st lat lon online = None →
  isPointInBoundary st lat lon "dakshina_kannada" = None →
  isPointInBoundary st lat lon "western_ghats" = Some ps →
  ∃ a, getAdminData st lat lon online = Fulfilled (Some a)
       ∧ source a = boundary_geojson ∧ confidence a = verified
       ∧ state a = JStr "Within Western Ghats".
Proof.
  intros Hr Hdk Hwg. unfold getAdminData, boundaryAdmin. rewrite Hr, Hdk, Hwg.
  eexists. split; [reflexivity|]. by repeat split.
Qed.

(** The block lookup answers when the table is not loaded or the district
    is a string. *)
Lemma getLocalBlockData_settles st district :
  blocks_loaded (localCoreStackData st) = false ∨ (∃ d, district = JStr d) →
  ∃ localBlock, getLocalBlockData st district = Fulfilled localBlock.
Proof.
  intros [Hl | [d ->]]; unfold getLocalBlockData.
  - rewrite Hl. simpl. eauto.
  - destruct (negb _); eauto.
Qed.

Lemma firstBoundaryFeature_outside pt fs :
  Forall (fun f => isPolygonal (geometry f) = true →
                   booleanPointInPolygon pt (geometry f) ≠ Fulfilled true) fs →
  firstBoundaryFeature pt fs = None.
Proof.
  intros Hfs. induction Hfs as [|f fs Hf _ IH]; simpl; [done|].
  destruct (isPolygonal (geometry f)); [|done].
  destruct (booleanPointInPolygon pt (geometry f)) as [[|]|] eqn:E; try done.
  by destruct (Hf eq_refl).
Qed.

Lemma isPointInBoundary_outside st lat lon boundaryId :
  outsideEveryBoundary st lat lon → isPointInBoundary st lat lon boundaryId = None.
Proof.
  intros Hout. unfold isPointInBoundary.
  destruct (boundaries st !! boundaryId) as [b|] eqn:Hb; [|done].
  destruct (geojson b) as [fc|] eqn:Hg; [|done].
  destruct (loaded b); [|done].
  by apply firstBoundaryFeature_outside, (Hout boundaryId b fc).
Qed.

(** In the service with the boundary files: outside every loaded polygon,
    and the remote step giving nothing, there is no administrative block. *)
Lemma getAdminData_outside_every_boundary st lat lon online :
  remoteAdmin st lat lon online = None →
  outsideEveryBoundary st lat lon →
  getAdminData st lat lon online = Fulfilled None.
Proof.
  intros Hr Hout. unfold getAdminData, boundaryAdmin.
  by rewrite Hr, !isPointInBoundary_outside.
Qed.

(** C2 at the failing input.  The earlier [getAdminData] consults no
    boundary file: offline, for the point (12.90, 74.85), it answers with a
    district that it takes from a coordinate box. *)
Theorem legacy_admin_comes_from_a_bounding_box (cs : CoreStackService.State) :
  LegacyLocationDataService.getAdminData cs Scenario.lat Scenario.lon false
  = Fulfilled
      (Some {| LegacyLocationDataService.state := Some "Karnataka";
               LegacyLocationDataService.district := Some "Dakshina Kannada (estimated)";
               LegacyLocationDataService.tehsil := None;
               LegacyLocationDataService.source := LegacyLocationDataService.local |}).
Proof. reflexivity. Qed.

End AdminClaims.

Section OfflineClaims.
Import LocationDataService.
Context {turf : Turf} {coreStackApi : CoreStackService.Api}
        {weatherApi : WeatherService.Api} {files : DynamicWorldService.Files}
        {sources : DatasetManager.Sources} {boundaryFiles : BoundaryFiles}
        {blockFile : BlockFile}.

(** On the initialised service, offline and inside the district polygon,
    with a block lookup that answers: the block is the one of the boundary
    file, verified, and there is neither watershed nor weather. *)
Lemma offline_inside_district st now clock lat lon ps localBlock :
  initialized st = true →
  isPointInBoundary st lat lon "dakshina_kannada" = Some ps →
  getLocalBlockData st (js_or (prop ps "DISTRICT") (prop ps "district")) = Fulfilled localBlock →
  ∃ report after a,
    enrichLocation st now clock lat lon false = Fulfilled (report, after)
    ∧ admin report = Some a
    ∧ source a = boundary_geojson ∧ confidence a = verified
    ∧ watershed report = None
    ∧ weather report = None.
Proof.
  intros Hi Hdk Hb.
  destruct (getAdminData_district_before_region st lat lon false ps localBlock)
    as (a & Ha & Hs & Hc & _); [by apply remoteAdmin_unavailable; left|done|done|].
  unfold enrichLocation, initialize. rewrite Hi. simpl.
  exists (fst (gather st now clock lat lon false)), (snd (gather st now clock lat lon false)), a.
  split; [by rewrite <- surjective_pairing|].
  rewrite gather_assembles. unfold assemble.
  cbn [admin watershed weather]. rewrite Ha. by repeat split.
Qed.

End OfflineClaims.

(** The scenario of C1 with a district feature that names its district:
    offline, the block comes from the boundary file and is verified;
    watershed and weather are absent and nothing is reported. *)
Example district_scenario_offline :
  ∃ report after,
    @LocationDataService.enrichLocation rayCastTurf EnrichScenario.serverErrorApi
      WeatherScenario.goodApi EnrichScenario.regionalFile EnrichScenario.noSources
      EnrichScenario.noBoundaryFiles EnrichScenario.noBlockFile
      (EnrichScenario.service Scenario.districtFeature false)
      EnrichScenario.now WeatherScenario.firstClock Scenario.lat Scenario.lon false
    = Fulfilled (report, after)
    ∧ LocationDataService.admin report
      = Some {| LocationDataService.state := JStr "Karnataka";
                LocationDataService.district := JStr "Dakshina Kannada";
                LocationDataService.tehsil := JUndefined;
                LocationDataService.village := JUndefined;
                LocationDataService.block := JStr "Mangaluru";
                LocationDataService.source := LocationDataService.boundary_geojson;
                LocationDataService.confidence := LocationDataService.verified |}
    ∧ LocationDataService.watershed report = None
    ∧ LocationDataService.weather report = None
    ∧ LocationDataService.errors report = [].
Proof.
  eexists _, _. split; [vm_compute; reflexivity|]. repeat split.
Qed.

(** C1 at the failing input.  The point (12.90, 74.85) lies in the loaded
    district polygon, whose feature carries no attributes, and the table of
    blocks is loaded: offline, [getAdminData] rejects with a TypeError, the
    report has no administrative block and one line in [errors]. *)
Theorem district_feature_without_name_rejects_admin :
  let st := EnrichScenario.service Scenario.bareDistrictFeature false in
  @LocationDataService.isPointInBoundary rayCastTurf st Scenario.lat Scenario.lon
    "dakshina_kannada" = Some ∅
  ∧ @LocationDataService.getAdminData rayCastTurf EnrichScenario.serverErrorApi st
      Scenario.lat Scenario.lon false
    = Rejected "TypeError: Cannot read properties of undefined (reading 'toLowerCase')"
  ∧ ∃ report after,
      @LocationDataService.enrichLocation rayCastTurf EnrichScenario.serverErrorApi
        WeatherScenario.goodApi EnrichScenario.regionalFile EnrichScenario.noSources
        EnrichScenario.noBoundaryFiles EnrichScenario.noBlockFile st
        EnrichScenario.now WeatherScenario.firstClock Scenario.lat Scenario.lon false
      = Fulfilled (report, after)
      ∧ LocationDataService.admin report = None
      ∧ LocationDataService.errors report
        = ["Admin data: TypeError: Cannot read properties of undefined (reading 'toLowerCase')"].
Proof.
  cbn zeta. split; [vm_compute; reflexivity|]. split; [vm_compute; reflexivity|].
  eexists _, _. split; [vm_compute; reflexivity|]. by split.
Qed.

(** C4 as the claim words it fails: the CoreStack API answers every request
    with HTTP 500, the weather API answers, and [errors] stays empty. *)
Lemma remote_admin_http_500_leaves_errors_empty :
  ∃ report after,
    @LocationDataService.enrichLocation rayCastTurf EnrichScenario.serverErrorApi
      WeatherScenario.goodApi EnrichScenario.regionalFile EnrichScenario.noSources
      EnrichScenario.noBoundaryFiles EnrichScenario.noBlockFile
      (EnrichScenario.service Scenario.districtFeature true)
      EnrichScenario.now WeatherScenario.firstClock Scenario.lat Scenario.lon true
    = Fulfilled (report, after)
    ∧ LocationDataService.watershed report = None
    ∧ is_Some (LocationDataService.weather report)
    ∧ LocationDataService.errors report = []
    ∧ ¬ (∃ e, LocationDataService.errors report = [e]).
Proof.
  eexists _, _. split; [vm_compute; reflexivity|].
  split; [reflexivity|]. split; [by eexists|]. split; [reflexivity|].
  by intros [e He].
Qed.

(** The amended C4 at two calls on the initialised service: offline at the
    failing input of C1, where the administrative promise rejects and is
    reported, and online with the CoreStack API answering HTTP 500, where
    nothing is reported. *)
Lemma rejected_branches_are_reported_remote_admin_failure_is_not_witness :
  (∃ report after,
     @LocationDataService.enrichLocation rayCastTurf EnrichScenario.serverErrorApi
       WeatherScenario.goodApi EnrichScenario.regionalFile EnrichScenario.noSources
       EnrichScenario.noBoundaryFiles EnrichScenario.noBlockFile
       (EnrichScenario.service Scenario.bareDistrictFeature false)
       EnrichScenario.now WeatherScenario.firstClock Scenario.lat Scenario.lon false
     = Fulfilled (report, after)
     ∧ LocationDataService.errors report
       = ["Admin data: TypeError: Cannot read properties of undefined (reading 'toLowerCase')"]
     ∧ is_Some (LocationDataService.localData report)
     ∧ is_Some (LocationDataService.landCover report))
  ∧ (∃ report after,
       @LocationDataService.enrichLocation rayCastTurf EnrichScenario.serverErrorApi
         WeatherScenario.goodApi EnrichScenario.regionalFile EnrichScenario.noSources
         EnrichScenario.noBoundaryFiles EnrichScenario.noBlockFile
         (EnrichScenario.service Scenario.districtFeature true)
         EnrichScenario.now WeatherScenario.firstClock Scenario.lat Scenario.lon true
       = Fulfilled (report, after)
       ∧ is_Some (LocationDataService.admin report)
       ∧ LocationDataService.watershed report = None
       ∧ is_Some (LocationDataService.weather report)
       ∧ LocationDataService.errors report = []).
Proof.
  split.
  - pose proof (@rejected_branches_are_reported_remote_admin_failure_is_not
                  rayCastTurf EnrichScenario.serverErrorApi WeatherScenario.goodApi
                  EnrichScenario.regionalFile EnrichScenario.noSources
                  EnrichScenario.noBoundaryFiles EnrichScenario.noBlockFile
                  (EnrichScenario.service Scenario.bareDistrictFeature false)
                  EnrichScenario.now WeatherScenario.firstClock Scenario.lat Scenario.lon
                  false 500 (JsonBody None None) (JsonBody None None)) as H.
    cbn [LocationDataService.initialize EnrichScenario.service
         LocationDataService.initialized] in H.
    destruct H as (report & after & Hcall & Herr & Hlocal & _ & Hlc & _).
    exists report, after. split; [exact Hcall|].
    split; [rewrite Herr; reflexivity|].
    split; [rewrite Hlocal; by eexists|rewrite Hlc; by eexists].
  - pose proof (@rejected_branches_are_reported_remote_admin_failure_is_not
                  rayCastTurf EnrichScenario.serverErrorApi WeatherScenario.goodApi
                  EnrichScenario.regionalFile EnrichScenario.noSources
                  EnrichScenario.noBoundaryFiles EnrichScenario.noBlockFile
                  (EnrichScenario.service Scenario.districtFeature true)
                  EnrichScenario.now WeatherScenario.firstClock Scenario.lat Scenario.lon
                  true 500 (JsonBody None None) (JsonBody None None)) as H.
    cbn [LocationDataService.initialize EnrichScenario.service
         LocationDataService.initialized] in H.
    destruct H as (report & after & Hcall & _ & _ & _ & _ & _ & Hweather & H500).
    destruct (H500 eq_refl eq_refl eq_refl) as (_ & Hadmin & Herr & Hws).
    exists report, after. split; [exact Hcall|].
    split; [rewrite Hadmin; by eexists|].
    split; [exact (Hws eq_refl)|].
    split; [rewrite Hweather; by eexists|rewrite Herr; reflexivity].
Defined.

(** * Further properties *)

(** ** [getValuesAtPoint] *)

Section DatasetManagerExtras.
Import DatasetManager.
Context {turf : Turf}.

Lemma queryLayers_each_settles st pt ids values out i :
  queryLayers st pt ids values = Fulfilled out →
  i ∈ ids →
  ∃ r, queryLayer st pt i = Fulfilled r.
Proof.
  intros Hout. by apply (proj1 (queryLayers_fulfils_iff st pt ids values)); exists out.
Qed.

Lemma queryLayers_rejects st pt ids values i reason :
  i ∈ ids →
  queryLayer st pt i = Rejected reason →
  ∃ reason', queryLayers st pt ids values = Rejected reason'.
Proof.
  intros Hi Hr. destruct (queryLayers st pt ids values) as [out|reason'] eqn:E; [|eauto].
  destruct (queryLayers_each_settles _ _ _ _ _ i E Hi) as [r Hr']. congruence.
Qed.

(** What a turn writes depends on the catalog and the loaded data alone. *)
Lemma queryLayer_writes_iff st pt i r :
  queryLayer st pt i = Fulfilled r →
  (is_Some r ↔ is_Some (getLayerById st i) ∧ is_Some (loadedData st !! i)).
Proof.
  unfold queryLayer.
  destruct (getLayerById st i) as [layer|].
  2:{ intros [= <-]. split; [by intros []|]. by intros [[] _]. }
  destruct (loadedData st !! i) as [data|].
  2:{ intros [= <-]. split; [by intros []|]. by intros [_ []]. }
  intros Hq. split; [by intros _|]. intros _.
  destruct (if isFormat (format (source layer)) fmt_geojson then _ else _) as [v|];
    simpl in Hq; [|done].
  destruct (isFormat (format (source layer)) fmt_csv); [destruct data as [|[|]|]|];
    injection Hq as <-; eauto.
Qed.

(** X1.  The values depend on the set of active layer ids only.  Two lists
    with the same members give the same mapping, whatever their order and
    repetitions, or are both rejected (with the reason of the first active
    layer in whose turn the test throws, which depends on the order). *)
Theorem values_depend_on_the_set_of_active_ids st lat lon ids ids' :
  (∀ i, i ∈ ids ↔ i ∈ ids') →
  match getValuesAtPoint st lat lon ids, getValuesAtPoint st lat lon ids' with
  | Fulfilled values, Fulfilled values' => values = values'
  | Rejected _, Rejected _ => True
  | _, _ => False
  end.
Proof.
  intros Hsame. unfold getValuesAtPoint.
  pose proof (queryLayers_fulfils_iff st (turfPoint lon lat) ids ∅) as Hids.
  pose proof (queryLayers_fulfils_iff st (turfPoint lon lat) ids' ∅) as Hids'.
  destruct (queryLayers st (turfPoint lon lat) ids ∅) as [out|reason] eqn:Hout,
    (queryLayers st (turfPoint lon lat) ids' ∅) as [out'|reason'] eqn:Hout'.
  - apply map_eq. intros i.
    rewrite (queryLayers_entry _ _ _ _ i Hout), (queryLayers_entry _ _ _ _ i Hout').
    destruct (decide (i ∈ ids ∧ i ≠ "__proto__")) as [[Hi Hp]|Hn],
      (decide (i ∈ ids' ∧ i ≠ "__proto__")) as [[Hi' Hp']|Hn']; try done.
    + exfalso. apply Hn'. split; [by apply Hsame|done].
    + exfalso. apply Hn. split; [by apply Hsame|done].
  - destruct (proj2 Hids') as [out' Hout2]; [|done].
    intros i Hi. apply (proj1 Hids); [by exists out|by apply Hsame].
  - destruct (proj2 Hids) as [out Hout2]; [|done].
    intros i Hi. apply (proj1 Hids'); [by exists out'|by apply Hsame].
  - done.
Qed.

(** X2.  A returned mapping has an entry for a layer id exactly when the id
    is active, is in the catalog, has loaded data and is not
    ["__proto__"], a key under which an assignment leaves no property. *)
Theorem values_have_an_entry_per_active_loaded_layer st lat lon ids values i :
  getValuesAtPoint st lat lon ids = Fulfilled values →
  (is_Some (values !! i)
   ↔ i ∈ ids ∧ i ≠ "__proto__"
     ∧ is_Some (getLayerById st i) ∧ is_Some (loadedData st !! i)).
Proof.
  intros Hv. unfold getValuesAtPoint in Hv. rewrite (queryLayers_entry _ _ _ _ i Hv).
  destruct (decide (i ∈ ids ∧ i ≠ "__proto__")) as [[Hi Hp]|Hn].
  - destruct (queryLayers_each_settles _ _ _ _ _ i Hv Hi) as [r Hr]. rewrite Hr.
    rewrite (queryLayer_writes_iff _ _ _ _ Hr). tauto.
  - split; [by intros []|]. intros (? & ? & _). by destruct Hn.
Qed.

(** X3.  [getValuesAtPoint] has no [try]: when the test of a polygon throws
    before a feature of an active layer has matched, the whole call rejects
    and the values of the other layers are lost with it. *)
Theorem a_throwing_test_rejects_all_values st lat lon ids i layer data fc before f after
    reason :
  i ∈ ids →
  getLayerById st i = Some layer →
  loadedData st !! i = Some data →
  format (source layer) = fmt_geojson →
  geojsonLayers st !! i = Some fc →
  features fc = before ++ f :: after →
  Forall (fun g => isPolygonal (geometry g) = true →
                   booleanPointInPolygon (turfPoint lon lat) (geometry g) = Fulfilled false)
         before →
  isPolygonal (geometry f) = true →
  booleanPointInPolygon (turfPoint lon lat) (geometry f) = Rejected reason →
  ∃ reason', getValuesAtPoint st lat lon ids = Rejected reason'.
Proof.
  intros Hi Hl Hd Hf Hg Hfs Hb Hp Hthrow.
  apply queryLayers_rejects with i reason; [done|].
  unfold queryLayer. rewrite Hl, Hd, Hf, Hg, Hfs.
  assert (Hfirst : firstContaining (turfPoint lon lat) (query layer) (before ++ f :: after)
                   = Rejected reason).
  { clear Hfs. induction Hb as [|g before Hgb _ IH]; simpl.
    - by rewrite Hp, Hthrow.
    - destruct (isPolygonal (geometry g)); [|done]. by rewrite Hgb. }
  by rewrite Hfirst.
Qed.

Lemma sortedYears_without_years records :
  (∀ r, r ∈ records → yearOf r = JUndefined) →
  sortedYears records = [].
Proof.
  intros Hno. unfold sortedYears.
  assert (Hf : List.filter isDefined (List.map yearOf records) = []).
  { induction records as [|r records IH]; simpl; [done|].
    rewrite (Hno r) by (by left). simpl. apply IH. intros r' Hr'. apply Hno. by right. }
  by rewrite Hf.
Qed.

(** X4.  For a CSV layer (not called ["__proto__"]) none of whose rows has
    a [year]: a table without rows leaves the layer at the empty object; a
    table with rows is summarised as a whole, the summary having no
    [_year], counting every row and sampling the first three.  Every
    returned mapping holds that for the layer, and the call with the layer
    alone returns it. *)
Theorem table_without_years_is_summarised_whole st lat lon ids layerId layer records :
  layerId ≠ "__proto__" →
  layerId ∈ ids →
  getLayerById st layerId = Some layer →
  format (source layer) = fmt_csv →
  loadedData st !! layerId = Some (RowsData records) →
  (∀ r, r ∈ records → yearOf r = JUndefined) →
  (∀ values,
     getValuesAtPoint st lat lon ids = Fulfilled values →
     values !! layerId = Some (wholeTableSummary records))
  ∧ getValuesAtPoint st lat lon [layerId]
    = Fulfilled (<[layerId := wholeTableSummary records]> ∅).
Proof.
  intros Hproto Hin Hl Hf Hd Hno.
  assert (Hq : queryLayer st (turfPoint lon lat) layerId
               = Fulfilled (Some (wholeTableSummary records))).
  { unfold queryLayer. rewrite Hl, Hd, Hf. simpl.
    destruct records as [|r records]; [done|].
    unfold csvSummary. by rewrite (sortedYears_without_years (r :: records) Hno). }
  split.
  - intros values Hv. unfold getValuesAtPoint in Hv.
    rewrite (queryLayers_entry _ _ _ _ layerId Hv), Hq. by rewrite decide_True.
  - unfold getValuesAtPoint. cbn [queryLayers]. rewrite Hq. simpl.
    unfold setMember. apply String.eqb_neq in Hproto. by rewrite Hproto.
Qed.

End DatasetManagerExtras.

Lemma values_depend_on_the_set_of_active_ids_witness :
  @DatasetManager.getValuesAtPoint closedRingTurf Scenario.datasets Scenario.lat Scenario.lon
    ["lulc_glc_composition"; "dakshina_kannada_boundary"; "lulc_glc_composition"]
  = @DatasetManager.getValuesAtPoint closedRingTurf Scenario.datasets Scenario.lat
      Scenario.lon ["dakshina_kannada_boundary"; "lulc_glc_composition"]
  ∧ (∃ reason reason',
       @DatasetManager.getValuesAtPoint closedRingTurf Scenario.openRingDatasets
         Scenario.northLat Scenario.northLon
         ["western_ghats_boundary"; "dakshina_kannada_boundary"] = Rejected reason
       ∧ @DatasetManager.getValuesAtPoint closedRingTurf Scenario.openRingDatasets
           Scenario.northLat Scenario.northLon
           ["dakshina_kannada_boundary"; "western_ghats_boundary"] = Rejected reason').
Proof.
  split.
  - pose proof (@values_depend_on_the_set_of_active_ids closedRingTurf Scenario.datasets
                  Scenario.lat Scenario.lon
                  ["lulc_glc_composition"; "dakshina_kannada_boundary"; "lulc_glc_composition"]
                  ["dakshina_kannada_boundary"; "lulc_glc_composition"]) as H.
    destruct (@DatasetManager.getValuesAtPoint closedRingTurf Scenario.datasets
                Scenario.lat Scenario.lon
                ["lulc_glc_composition"; "dakshina_kannada_boundary"; "lulc_glc_composition"])
      as [values|reason] eqn:E1;
      destruct (@DatasetManager.getValuesAtPoint closedRingTurf Scenario.datasets
                  Scenario.lat Scenario.lon
                  ["dakshina_kannada_boundary"; "lulc_glc_composition"])
        as [values'|reason'] eqn:E2.
    + f_equal. apply H. intros i. rewrite !elem_of_cons, !elem_of_nil. tauto.
    + vm_compute in E2. discriminate E2.
    + vm_compute in E1. discriminate E1.
    + vm_compute in E1. discriminate E1.
  - eexists _, _. split; reflexivity.
Defined.

Lemma values_have_an_entry_per_active_loaded_layer_witness :
  is_Some ((<["lulc_glc_composition" :=
               summaryOf "csv_summary" 2020
                 [Scenario.lulcRow 2020 1 "Forest"; Scenario.lulcRow 2020 2 "Cropland"]]> ∅
            : gmap string (gmap string JsVal)) !! "lulc_glc_composition")
  ↔ "lulc_glc_composition" ∈ ["lulc_glc_composition"]
    ∧ "lulc_glc_composition" ≠ "__proto__"
    ∧ is_Some (DatasetManager.getLayerById Scenario.datasets "lulc_glc_composition")
    ∧ is_Some (DatasetManager.loadedData Scenario.datasets !! "lulc_glc_composition").
Proof.
  apply (@values_have_an_entry_per_active_loaded_layer rayCastTurf Scenario.datasets
           Scenario.lat Scenario.lon ["lulc_glc_composition"]).
  vm_compute. reflexivity.
Defined.

Lemma a_throwing_test_rejects_all_values_witness :
  ∃ reason',
    @DatasetManager.getValuesAtPoint closedRingTurf ExtraScenario.brokenDatasets
      Scenario.lat Scenario.lon ["lulc_glc_composition"; "dakshina_kannada_boundary"]
    = Rejected reason'.
Proof.
  apply (@a_throwing_test_rejects_all_values closedRingTurf ExtraScenario.brokenDatasets
           Scenario.lat Scenario.lon
           ["lulc_glc_composition"; "dakshina_kannada_boundary"]
           "dakshina_kannada_boundary" Scenario.dkBoundaryLayer
           (DatasetManager.GeoJsonData
              {| features := [ExtraScenario.brokenFeature; Scenario.districtFeature] |})
           {| features := [ExtraScenario.brokenFeature; Scenario.districtFeature] |}
           [] ExtraScenario.brokenFeature [Scenario.districtFeature]
           "Error: First and last coordinates in a ring must be the same").
  - apply elem_of_cons. right. apply elem_of_cons. by left.
  - reflexivity.
  - reflexivity.
  - reflexivity.
  - reflexivity.
  - reflexivity.
  - constructor.
  - reflexivity.
  - reflexivity.
Defined.

Lemma table_without_years_is_summarised_whole_witness :
  (∀ values,
     @DatasetManager.getValuesAtPoint closedRingTurf ExtraScenario.forestDatasets
       Scenario.lat Scenario.lon ["dakshina_kannada_boundary"; "forest_typology"]
     = Fulfilled values →
     values !! "forest_typology"
     = Some (wholeTableSummary ExtraScenario.forestRows))
  ∧ @DatasetManager.getValuesAtPoint closedRingTurf ExtraScenario.forestDatasets
      Scenario.lat Scenario.lon ["forest_typology"]
    = Fulfilled (<["forest_typology" :=
                     wholeTableSummary ExtraScenario.forestRows]> ∅)
  ∧ @DatasetManager.getValuesAtPoint closedRingTurf ExtraScenario.emptyTableDatasets
      Scenario.lat Scenario.lon ["lulc_glc_composition"]
    = Fulfilled (<["lulc_glc_composition" := ∅]> ∅).
Proof.
  destruct (@table_without_years_is_summarised_whole closedRingTurf
              ExtraScenario.forestDatasets Scenario.lat Scenario.lon
              ["dakshina_kannada_boundary"; "forest_typology"] "forest_typology"
              ExtraScenario.forestLayer ExtraScenario.forestRows) as [Hall Hone].
  - discriminate.
  - apply elem_of_cons. right. apply elem_of_cons. by left.
  - reflexivity.
  - reflexivity.
  - reflexivity.
  - intros r Hr. unfold ExtraScenario.forestRows in Hr.
    repeat (apply elem_of_cons in Hr as [->|Hr]; [reflexivity|]).
    by apply elem_of_nil in Hr.
  - split; [exact Hall|]. split; [exact Hone|].
    destruct (@table_without_years_is_summarised_whole closedRingTurf
                ExtraScenario.emptyTableDatasets Scenario.lat Scenario.lon
                ["lulc_glc_composition"] "lulc_glc_composition"
                Scenario.lulcLayer []) as [_ Hempty].
    + discriminate.
    + apply elem_of_cons. by left.
    + reflexivity.
    + reflexivity.
    + reflexivity.
    + intros r Hr. by apply elem_of_nil in Hr.
    + exact Hempty.
Defined.

(** ** The weather client *)

Lemma Qltb_true a b : Qltb a b = true ↔ (a < b)%Q.
Proof.
  unfold Qltb. rewrite negb_true_iff. split.
  - intros E. apply Qnot_le_lt. intros Hle. apply Qle_bool_iff in Hle. congruence.
  - intros Hlt. destruct (Qle_bool b a) eqn:E; [|done].
    apply Qle_bool_iff in E. exfalso. by apply (Qlt_not_le a b).
Qed.

Lemma Qltb_false a b : Qltb a b = false ↔ (b <= a)%Q.
Proof. unfold Qltb. rewrite negb_false_iff. apply Qle_bool_iff. Qed.

Section WeatherExtras.
Import WeatherService.
Context {api : Api}.

(** The thousandths that [toFixed(3)] prints are within a half of the
    magnitude times one thousand. *)
Lemma toFixed3_bounds x :
  (inject_Z (snd (toFixed3 x)) - (1 # 2) <= Qabs x * 1000
   ∧ Qabs x * 1000 < inject_Z (snd (toFixed3 x)) + (1 # 2))%Q.
Proof.
  unfold toFixed3. cbn [snd].
  pose proof (Qfloor_le (Qabs x * 1000 + (1 # 2))) as Hlo.
  pose proof (Qlt_floor (Qabs x * 1000 + (1 # 2))) as Hhi.
  rewrite inject_Z_plus in Hhi. change (inject_Z 1) with 1%Q in Hhi.
  split; lra.
Qed.

Lemma toFixed3_close x y :
  toFixed3 x = toFixed3 y → (Qabs (x - y) < 1 # 1000)%Q.
Proof.
  intros E.
  assert (Hsign : Qltb x 0 = Qltb y 0) by (by injection E).
  assert (Hn : snd (toFixed3 x) = snd (toFixed3 y)) by (by rewrite E).
  destruct (toFixed3_bounds x) as [Hx1 Hx2], (toFixed3_bounds y) as [Hy1 Hy2].
  rewrite Hn in Hx1, Hx2.
  apply Qabs_Qlt_condition.
  destruct (Qltb x 0) eqn:Ex; symmetry in Hsign.
  - apply Qltb_true in Ex, Hsign.
    rewrite (Qabs_neg x) in Hx1, Hx2 by lra. rewrite (Qabs_neg y) in Hy1, Hy2 by lra.
    split; lra.
  - apply Qltb_false in Ex, Hsign.
    rewrite (Qabs_pos x) in Hx1, Hx2 by lra. rewrite (Qabs_pos y) in Hy1, Hy2 by lra.
    split; lra.
Qed.

(** X5.  Two points that share a cache key are less than a thousandth of a
    degree apart in latitude and in longitude: a cached forecast is never
    served for a point farther away than that. *)
Theorem same_cache_key_means_nearby_point lat1 lon1 lat2 lon2 :
  cacheKey lat1 lon1 = cacheKey lat2 lon2 →
  (Qabs (lat1 - lat2) < 1 # 1000)%Q ∧ (Qabs (lon1 - lon2) < 1 # 1000)%Q.
Proof.
  intros E. split; apply toFixed3_close.
  - exact (f_equal fst E).
  - exact (f_equal snd E).
Qed.

(** X6.  An entry is fresh strictly before its expiry.  From the expiry on
    an online call sends one request.  A forecast that arrives is returned,
    stamped with the time of storing, and replaces the entry, which then
    expires thirty minutes after it was stored; the other entries stay.
    When the request fails, the answer is [null] and the service is as
    before, the old entry staying in the cache unserved. *)
Theorem expired_entry_is_fetched_again st clock lat lon entry :
  isOnline st = true →
  cache st !! cacheKey lat lon = Some entry →
  (expiry entry ≤ nowAtCheck clock)%Z →
  requests (getWeather st clock lat lon) = 1
  ∧ (∀ json,
       forecast_at lat lon = HttpOk (Fulfilled json) →
       let payload := {| current := toCurrent (api_current json);
                         forecast := toForecast (api_daily json);
                         fetchedAt := isoAtStore clock |} in
       result (getWeather st clock lat lon) = Some payload
       ∧ cache (after (getWeather st clock lat lon)) !! cacheKey lat lon
         = Some {| data := payload; expiry := (nowAtStore clock + cacheDuration)%Z |}
       ∧ ∀ k, k ≠ cacheKey lat lon →
              cache (after (getWeather st clock lat lon)) !! k = cache st !! k)
  ∧ (fetchFails (forecast_at lat lon) →
     result (getWeather st clock lat lon) = None
     ∧ after (getWeather st clock lat lon) = st).
Proof.
  intros Hon Hk Hexp. unfold getWeather, freshEntry. rewrite Hon, Hk. simpl.
  apply Z.ltb_ge in Hexp. rewrite Hexp.
  split; [by destruct (forecast_at lat lon) as [| |[json|]]|]. split.
  - intros json ->. simpl. split; [done|]. split; [by rewrite lookup_insert_eq|].
    intros k Hne. by rewrite lookup_insert_ne.
  - unfold fetchFails. destruct (forecast_at lat lon) as [| |[json|]]; simpl; try done.
    intros Hf. by destruct (Hf json).
Qed.

(** X7.  A call changes the cache at its own key at most, never removes an
    entry and leaves the online flag alone: nothing is ever evicted. *)
Theorem weather_cache_is_never_evicted st clock lat lon k :
  (k ≠ cacheKey lat lon →
   cache (after (getWeather st clock lat lon)) !! k = cache st !! k)
  ∧ (is_Some (cache st !! k) → is_Some (cache (after (getWeather st clock lat lon)) !! k))
  ∧ isOnline (after (getWeather st clock lat lon)) = isOnline st.
Proof.
  unfold getWeather. destruct (isOnline st) eqn:Hon; simpl; [|by rewrite Hon].
  destruct (freshEntry st (nowAtCheck clock) (cacheKey lat lon)); simpl; [by rewrite Hon|].
  destruct (forecast_at lat lon) as [| |[json|]]; simpl; try by rewrite Hon.
  split; [|split; [|done]].
  - intros Hne. by rewrite lookup_insert_ne.
  - intros Hsome. destruct (decide (cacheKey lat lon = k)) as [<-|Hne].
    + rewrite lookup_insert_eq. eauto.
    + by rewrite lookup_insert_ne.
Qed.

End WeatherExtras.

Lemma same_cache_key_means_nearby_point_witness :
  (Qabs (Scenario.lat - (129004 # 10000)) < 1 # 1000)%Q
  ∧ (Qabs (Scenario.lon - (748496 # 10000)) < 1 # 1000)%Q.
Proof.
  apply (same_cache_key_means_nearby_point Scenario.lat Scenario.lon
           (129004 # 10000) (748496 # 10000)).
  reflexivity.
Defined.

Lemma expired_entry_is_fetched_again_witness :
  let served :=
    @WeatherService.getWeather WeatherScenario.goodApi WeatherExtraScenario.cachedOnce
      WeatherExtraScenario.clockAtExpiry Scenario.lat Scenario.lon in
  let failed :=
    @WeatherService.getWeather WeatherScenario.failingApi WeatherExtraScenario.cachedOnce
      WeatherExtraScenario.clockAtExpiry Scenario.lat Scenario.lon in
  (WeatherService.result served
   = Some {| WeatherService.current :=
               WeatherService.toCurrent
                 (WeatherService.api_current WeatherScenario.sampleForecast);
             WeatherService.forecast :=
               WeatherService.toForecast
                 (WeatherService.api_daily WeatherScenario.sampleForecast);
             WeatherService.fetchedAt := "2026-01-10T06:30:00.200Z" |}
   ∧ WeatherService.expiry
       <$> WeatherService.cache (WeatherService.after served)
             !! WeatherService.cacheKey Scenario.lat Scenario.lon
     = Some 4600450%Z)
  ∧ WeatherService.result failed = None
  ∧ WeatherService.after failed = WeatherExtraScenario.cachedOnce.
Proof.
  split.
  - destruct (@expired_entry_is_fetched_again WeatherScenario.goodApi
                WeatherExtraScenario.cachedOnce WeatherExtraScenario.clockAtExpiry
                Scenario.lat Scenario.lon WeatherExtraScenario.storedEntry)
      as (_ & Hserved & _).
    + reflexivity.
    + vm_compute. reflexivity.
    + vm_compute. discriminate.
    + destruct (Hserved WeatherScenario.sampleForecast eq_refl) as (Hres & Hcache & _).
      split; [exact Hres|]. rewrite Hcache. reflexivity.
  - destruct (@expired_entry_is_fetched_again WeatherScenario.failingApi
                WeatherExtraScenario.cachedOnce WeatherExtraScenario.clockAtExpiry
                Scenario.lat Scenario.lon WeatherExtraScenario.storedEntry)
      as (_ & _ & Hfailed).
    + reflexivity.
    + vm_compute. reflexivity.
    + vm_compute. discriminate.
    + apply Hfailed. intros json. discriminate.
Defined.

Lemma weather_cache_is_never_evicted_witness :
  let run :=
    @WeatherService.getWeather WeatherScenario.goodApi WeatherExtraScenario.cachedOnce
      WeatherExtraScenario.clockAtExpiry 13 75 in
  WeatherService.cache (WeatherService.after run)
    !! WeatherService.cacheKey Scenario.lat Scenario.lon
  = WeatherService.cache WeatherExtraScenario.cachedOnce
      !! WeatherService.cacheKey Scenario.lat Scenario.lon.
Proof.
  apply (proj1 (@weather_cache_is_never_evicted WeatherScenario.goodApi
                  WeatherExtraScenario.cachedOnce WeatherExtraScenario.clockAtExpiry
                  13 75 (WeatherService.cacheKey Scenario.lat Scenario.lon))).
  vm_compute. discriminate.
Defined.

(** ** The CoreStack client *)

Section CoreStackExtras.
Import CoreStackService.

Lemma request_unavailable {T} st (answer : FetchResult T) :
  isAvailable st = false →
  request st answer
  = Rejected (if isOnline st then "Error: API key not configured"
              else "Error: Offline - cannot access CoreStack API").
Proof.
  unfold isAvailable, hasApiKey, request. destruct (isOnline st); simpl; [|done].
  by intros ->.
Qed.

(** X8.  A client that is offline, or has no key, rejects every call
    before the network is asked: whatever the API would answer, the
    rejection is the same, the offline message taking precedence. *)
Theorem unavailable_client_never_asks_the_network (api api' : Api) st lat lon mwsId :
  isAvailable st = false →
  ∃ reason,
    reason = (if isOnline st then "Error: API key not configured"
              else "Error: Offline - cannot access CoreStack API")
    ∧ @getAdminDetailsByLatLon api st lat lon = Rejected reason
    ∧ @getAdminDetailsByLatLon api' st lat lon = Rejected reason
    ∧ @getMWSIdByLatLon api st lat lon = Rejected reason
    ∧ @getMWSIdByLatLon api' st lat lon = Rejected reason
    ∧ @getMWSKYLIndicators api st mwsId = Rejected reason
    ∧ @getMWSKYLIndicators api' st mwsId = Rejected reason.
Proof.
  intros Hun. eexists. split; [reflexivity|].
  unfold getAdminDetailsByLatLon, getMWSIdByLatLon, getMWSKYLIndicators.
  by rewrite !request_unavailable.
Qed.

End CoreStackExtras.

Lemma unavailable_client_never_asks_the_network_witness :
  ∃ reason,
    reason = "Error: API key not configured"
    ∧ @CoreStackService.getAdminDetailsByLatLon CoreStackExtraScenario.answeringApi
        CoreStackExtraScenario.keyCleared Scenario.lat Scenario.lon = Rejected reason
    ∧ @CoreStackService.getAdminDetailsByLatLon EnrichScenario.serverErrorApi
        CoreStackExtraScenario.keyCleared Scenario.lat Scenario.lon = Rejected reason
    ∧ @CoreStackService.getMWSIdByLatLon CoreStackExtraScenario.answeringApi
        CoreStackExtraScenario.keyCleared Scenario.lat Scenario.lon = Rejected reason
    ∧ @CoreStackService.getMWSIdByLatLon EnrichScenario.serverErrorApi
        CoreStackExtraScenario.keyCleared Scenario.lat Scenario.lon = Rejected reason
    ∧ @CoreStackService.getMWSKYLIndicators CoreStackExtraScenario.answeringApi
        CoreStackExtraScenario.keyCleared "12_345" = Rejected reason
    ∧ @CoreStackService.getMWSKYLIndicators EnrichScenario.serverErrorApi
        CoreStackExtraScenario.keyCleared "12_345" = Rejected reason.
Proof.
  apply (unavailable_client_never_asks_the_network CoreStackExtraScenario.answeringApi
           EnrichScenario.serverErrorApi CoreStackExtraScenario.keyCleared
           Scenario.lat Scenario.lon "12_345").
  reflexivity.
Defined.

(** ** The Dynamic World client *)

Section DynamicWorldExtras.
Import DynamicWorldService.

Lemma loadCachedData_idempotent (files : Files) st :
  @loadCachedData files (@loadCachedData files st) = @loadCachedData files st.
Proof.
  unfold loadCachedData. destruct (dataLoaded st) eqn:Hl; [by rewrite Hl|].
  destruct (@regional_csv files) as [| |[rows|]] eqn:Hf; simpl; rewrite ?Hl, ?Hf; done.
Qed.

(** X9.  The regional file is loaded once.  A loaded client never fetches
    again, whatever the file has become; a failed fetch leaves the client
    as it was, so that the next call tries again; loading twice is loading
    once. *)
Theorem regional_data_is_loaded_once (files files' : Files) st :
  (dataLoaded st = true → @loadCachedData files st = st)
  ∧ (dataLoaded st = false → fetchFails (@regional_csv files) →
     @loadCachedData files st = st)
  ∧ (∀ rows, dataLoaded st = false → @regional_csv files = HttpOk (Fulfilled rows) →
     @loadCachedData files' (@loadCachedData files st)
     = {| cachedData := rows; dataLoaded := true |})
  ∧ @loadCachedData files (@loadCachedData files st) = @loadCachedData files st.
Proof.
  unfold loadCachedData. split; [|split; [|split]].
  - by intros ->.
  - intros -> Hfail. destruct (@regional_csv files) as [| |[rows|]]; try done.
    by destruct (Hfail rows).
  - by intros rows -> ->.
  - apply loadCachedData_idempotent.
Qed.

(** X10.  [getRegionalStats] answers [null] as long as nothing is loaded.
    Without a year, and also for the year 0 (which [if (year)] takes for
    absent), it gives the last line of the file; for another year it gives
    the first line of that year, or [null] when there is none. *)
Theorem regional_stats_edges st :
  (dataLoaded st = false ∨ cachedData st = [] → ∀ wanted, getRegionalStats st wanted = None)
  ∧ (dataLoaded st = true →
     getRegionalStats st None = last (cachedData st)
     ∧ getRegionalStats st (Some 0%Z) = last (cachedData st))
  ∧ (∀ y, dataLoaded st = true → y ≠ 0%Z →
     getRegionalStats st (Some y)
     = List.find (fun d => (year d =? y)%Z) (cachedData st))
  ∧ (∀ y d, y ≠ 0%Z → getRegionalStats st (Some y) = Some d →
     year d = y ∧ d ∈ cachedData st).
Proof.
  unfold getRegionalStats. split; [|split; [|split]].
  - intros [-> | ->] wanted; [done|]. simpl. by rewrite orb_true_r.
  - intros ->. simpl. by destruct (cachedData st).
  - intros y -> Hy. simpl. apply Z.eqb_neq in Hy. rewrite Hy.
    by destruct (cachedData st).
  - intros y d Hy. destruct (_ || _); [done|]. apply Z.eqb_neq in Hy. rewrite Hy.
    intros Hfind. apply find_some in Hfind as [Hin Hyear].
    split; [by apply Z.eqb_eq in Hyear|by apply list_elem_of_In].
Qed.

End DynamicWorldExtras.

Lemma regional_data_is_loaded_once_witness :
  @DynamicWorldService.loadCachedData DynamicWorldExtraScenario.missingFile
    DynamicWorldExtraScenario.loadedState = DynamicWorldExtraScenario.loadedState
  ∧ @DynamicWorldService.loadCachedData DynamicWorldExtraScenario.missingFile
      DynamicWorldExtraScenario.notLoaded = DynamicWorldExtraScenario.notLoaded
  ∧ @DynamicWorldService.loadCachedData DynamicWorldExtraScenario.missingFile
      (@DynamicWorldService.loadCachedData EnrichScenario.regionalFile
         DynamicWorldExtraScenario.notLoaded)
    = {| DynamicWorldService.cachedData := [EnrichScenario.regionalRow];
         DynamicWorldService.dataLoaded := true |}.
Proof.
  split; [|split].
  - apply (proj1 (regional_data_is_loaded_once DynamicWorldExtraScenario.missingFile
                    DynamicWorldExtraScenario.missingFile
                    DynamicWorldExtraScenario.loadedState)).
    reflexivity.
  - apply (proj1 (proj2 (regional_data_is_loaded_once DynamicWorldExtraScenario.missingFile
                    DynamicWorldExtraScenario.missingFile
                    DynamicWorldExtraScenario.notLoaded))).
    + reflexivity.
    + intros rows. discriminate.
  - apply (proj1 (proj2 (proj2 (regional_data_is_loaded_once EnrichScenario.regionalFile
                    DynamicWorldExtraScenario.missingFile
                    DynamicWorldExtraScenario.notLoaded)))).
    + reflexivity.
    + reflexivity.
Defined.

Lemma regional_stats_edges_witness :
  DynamicWorldService.getRegionalStats DynamicWorldExtraScenario.loadedState None
  = Some (DynamicWorldExtraScenario.row 2024 60000 4000)
  ∧ DynamicWorldService.getRegionalStats DynamicWorldExtraScenario.loadedState (Some 0%Z)
    = Some (DynamicWorldExtraScenario.row 2024 60000 4000)
  ∧ (∀ wanted,
       DynamicWorldService.getRegionalStats DynamicWorldExtraScenario.notLoaded wanted = None).
Proof.
  pose proof (regional_stats_edges DynamicWorldExtraScenario.loadedState)
    as (_ & Hlast & _).
  pose proof (regional_stats_edges DynamicWorldExtraScenario.notLoaded)
    as (Hnone & _).
  destruct (Hlast eq_refl) as [H1 H2].
  split; [exact H1|]. split; [exact H2|]. apply Hnone. by left.
Defined.

(** ** The location data service *)

Section LocationExtras.
Import LocationDataService.
Context {turf : Turf} {coreStackApi : CoreStackService.Api}
        {weatherApi : WeatherService.Api} {files : DynamicWorldService.Files}.

Lemma request_fulfilled {T} cs (answer : FetchResult T) v :
  CoreStackService.request cs answer = Fulfilled v →
  CoreStackService.isOnline cs = true ∧ CoreStackService.hasApiKey cs = true.
Proof.
  unfold CoreStackService.request, CoreStackService.hasApiKey.
  destruct (CoreStackService.isOnline cs); [|done]. simpl.
  by destruct (CoreStackService.nonEmpty (CoreStackService.apiKey cs)).
Qed.

(** X11.  The watershed block does not depend on the indicators: when the
    watershed id is found and the indicator call fails, the block is
    returned with an empty indicator map. *)
Theorem watershed_survives_indicator_failure st lat lon m reason :
  CoreStackService.getMWSIdByLatLon (coreStackService st) lat lon = Fulfilled (Some m) →
  CoreStackService.mws_id m ≠ "" →
  CoreStackService.getMWSKYLIndicators (coreStackService st) (CoreStackService.mws_id m)
  = Rejected reason →
  getWatershedData st lat lon true
  = Fulfilled (Some {| mwsId := CoreStackService.mws_id m;
                       indicators := ∅;
                       watershedSource := ws_corestack_api |}).
Proof.
  intros Hm Hid Hind. unfold getWatershedData.
  destruct (request_fulfilled _ _ _ Hm) as [_ Hkey]. rewrite Hkey, Hm, Hind. simpl.
  apply String.eqb_neq in Hid. by rewrite Hid.
Qed.

(** X12.  [getWatershedData] never rejects.  Offline or without a key it is
    [null]; a block that it returns carries a non-empty watershed id, the
    tag of the API, and was obtained online from an available client. *)
Theorem watershed_block_needs_the_api st lat lon online :
  (∃ r, getWatershedData st lat lon online = Fulfilled r)
  ∧ (online = false ∨ CoreStackService.hasApiKey (coreStackService st) = false →
     getWatershedData st lat lon online = Fulfilled None)
  ∧ (∀ w, getWatershedData st lat lon online = Fulfilled (Some w) →
     online = true
     ∧ CoreStackService.isAvailable (coreStackService st) = true
     ∧ mwsId w ≠ ""
     ∧ watershedSource w = ws_corestack_api).
Proof.
  unfold getWatershedData. split; [|split].
  - destruct (_ || _); [eauto|].
    destruct (CoreStackService.getMWSIdByLatLon _ _ _) as [[m|]|]; eauto.
    destruct (negb _); eauto.
  - intros [-> | ->]; [done|]. by rewrite orb_true_r.
  - intros w. destruct online; simpl; [|done].
    destruct (CoreStackService.hasApiKey (coreStackService st)) eqn:Hkey; simpl; [|done].
    destruct (CoreStackService.getMWSIdByLatLon _ _ _) as [[m|]|] eqn:Hm; try done.
    destruct (CoreStackService.mws_id m =? "")%string eqn:Hid; simpl; [done|].
    intros [= <-]. simpl. destruct (request_fulfilled _ _ _ Hm) as [Hon _].
    split; [done|]. split; [by apply isAvailable_iff|]. split; [|done].
    by apply String.eqb_neq.
Qed.

Lemma indicatorMap_snoc l ind :
  indicatorMap (l ++ [ind])
  = setMember (CoreStackService.indicator_name ind) (CoreStackService.value ind)
      (indicatorMap l).
Proof. unfold indicatorMap. by rewrite foldl_app. Qed.

(** X13.  In the indicator map a name stands for the value of the last
    indicator of that name in the answer; a name that the answer lacks has
    no entry, and neither has ["__proto__"], whatever the answer. *)
Theorem indicator_map_keeps_the_last_value l k :
  indicatorMap l !! k
  = if decide (k = "__proto__") then None
    else CoreStackService.value <$> last (List.filter (namedLike k) l).
Proof.
  induction l as [|ind l IH] using rev_ind.
  { unfold indicatorMap. simpl. rewrite lookup_empty. by case_decide. }
  assert (Hlast : List.filter (namedLike k) [ind]
                  = if (CoreStackService.indicator_name ind =? k)%string then [ind] else [])
    by reflexivity.
  rewrite indicatorMap_snoc, lookup_setMember, IH, List.filter_app, Hlast.
  destruct (decide (k = "__proto__")) as [->|Hk].
  { rewrite decide_False; [done|]. by intros [<- ?]. }
  destruct (CoreStackService.indicator_name ind =? k)%string eqn:E.
  - apply String.eqb_eq in E as <-. rewrite decide_True by done. by rewrite last_snoc.
  - apply String.eqb_neq in E. rewrite decide_False by (by intros [-> _]).
    by rewrite app_nil_r.
Qed.

Lemma dominant_fold l acc :
  (snd acc <= snd (foldl better acc l))%Q
  ∧ (∀ c, c ∈ l → (snd c <= snd (foldl better acc l))%Q)
  ∧ (foldl better acc l = acc
     ∨ (foldl better acc l ∈ l ∧ (snd acc < snd (foldl better acc l))%Q)).
Proof.
  revert acc. induction l as [|c l IH]; intros acc; simpl.
  - split; [apply Qle_refl|]. split; [|by left]. intros c Hc. by apply elem_of_nil in Hc.
  - destruct (IH (better acc c)) as (Hacc & Hall & Hbest).
    assert (Hstep : (snd acc <= snd (better acc c))%Q ∧ (snd c <= snd (better acc c))%Q).
    { unfold better. destruct (Qltb (snd acc) (snd c)) eqn:E.
      - apply Qltb_true in E. split; [by apply Qlt_le_weak|apply Qle_refl].
      - apply Qltb_false in E. split; [apply Qle_refl|done]. }
    destruct Hstep as [Ha Hc]. split; [by eapply Qle_trans|]. split.
    + intros c' Hc'.
      apply elem_of_cons in Hc' as [->|Hc']; [by eapply Qle_trans|by apply Hall].
    + destruct Hbest as [Hb | [Hin Hlt]].
      * rewrite Hb. unfold better. destruct (Qltb (snd acc) (snd c)) eqn:E; [|by left].
        apply Qltb_true in E. right. split; [by left|done].
      * right. split; [by right|]. by eapply Qle_lt_trans.
Qed.

(** X14.  The dominant class has the largest percentage of the list, and
    that percentage is positive; when no class has a positive percentage
    the answer is the initial ["Trees"]. *)
Theorem dominant_class_has_the_largest_share classes :
  (∀ c, c ∈ classes → (snd c <= 0)%Q) ∧ dominantOf classes = "Trees"
  ∨ ∃ share,
      (dominantOf classes, share) ∈ classes
      ∧ (0 < share)%Q
      ∧ ∀ c, c ∈ classes → (snd c <= share)%Q.
Proof.
  unfold dominantOf. change (fun acc c => if Qltb (snd acc) (snd c) then c else acc)
    with better.
  destruct (dominant_fold classes ("Trees", 0%Q)) as (_ & Hall & [Heq | [Hin Hlt]]).
  - left. rewrite Heq in *. by split.
  - right. exists (snd (foldl better ("Trees", 0%Q) classes)).
    split; [by destruct (foldl better _ classes)|]. by split.
Qed.

(** X15.  In [isPointInBoundary] a test that throws is caught and the loop
    goes on: a later polygon that contains the point still decides, and the
    answer carries its properties ([{}] when it has none). *)
Theorem boundary_test_skips_what_throws pt before f after :
  Forall (fun g => isPolygonal (geometry g) = true →
                   booleanPointInPolygon pt (geometry g) ≠ Fulfilled true) before →
  isPolygonal (geometry f) = true →
  booleanPointInPolygon pt (geometry f) = Fulfilled true →
  firstBoundaryFeature pt (before ++ f :: after) = Some (default ∅ (properties f)).
Proof.
  intros Hb Hp Hin. induction Hb as [|g before Hg _ IH]; simpl.
  - by rewrite Hp, Hin.
  - destruct (isPolygonal (geometry g)); [|done].
    destruct (booleanPointInPolygon pt (geometry g)) as [[|]|]; try done.
    by destruct (Hg eq_refl).
Qed.

(** X16.  A boundary that is unknown, not loaded or without GeoJSON never
    contains a point; with every boundary in that state and offline there
    is no administrative block, whatever the coordinates. *)
Theorem unloaded_boundaries_give_no_admin st lat lon :
  (∀ boundaryId boundary,
     boundaries st !! boundaryId = Some boundary →
     loaded boundary = false ∨ geojson boundary = None) →
  (∀ boundaryId, isPointInBoundary st lat lon boundaryId = None)
  ∧ getAdminData st lat lon false = Fulfilled None.
Proof.
  intros Hun.
  assert (Hnone : ∀ boundaryId, isPointInBoundary st lat lon boundaryId = None).
  { intros boundaryId. unfold isPointInBoundary.
    destruct (boundaries st !! boundaryId) as [b|] eqn:Hb; [|done].
    destruct (Hun boundaryId b Hb) as [-> | ->]; [by destruct (geojson b)|done]. }
  split; [done|]. unfold getAdminData, boundaryAdmin. simpl. by rewrite !Hnone.
Qed.

End LocationExtras.

Section LegacyExtras.
Context {coreStackApi : CoreStackService.Api}.

Lemma between_true lo x hi :
  LegacyLocationDataService.between lo x hi = true ↔ (lo <= x)%Q ∧ (x <= hi)%Q.
Proof.
  unfold LegacyLocationDataService.between. rewrite andb_true_iff, !Qle_bool_iff. tauto.
Qed.

(** X17.  Offline, the earlier [getAdminData] answers by the coordinates
    alone: [null] exactly outside the box 8..21 N, 73..78 E, the estimated
    district exactly inside the box 12.5..13.5 N, 74.5..75.8 E. *)
Theorem legacy_admin_is_decided_by_boxes cs lat lon :
  (LegacyLocationDataService.getAdminData cs lat lon false = Fulfilled None
   ↔ ¬ ((8 <= lat)%Q ∧ (lat <= 21)%Q ∧ (73 <= lon)%Q ∧ (lon <= 78)%Q))
  ∧ ((∃ a, LegacyLocationDataService.getAdminData cs lat lon false = Fulfilled (Some a)
           ∧ LegacyLocationDataService.district a = Some "Dakshina Kannada (estimated)")
     ↔ ((125 # 10) <= lat)%Q ∧ (lat <= (135 # 10))%Q
       ∧ ((745 # 10) <= lon)%Q ∧ (lon <= (758 # 10))%Q).
Proof.
  unfold LegacyLocationDataService.getAdminData. cbn [andb].
  destruct (LegacyLocationDataService.between 8 lat 21
            && LegacyLocationDataService.between 73 lon 78) eqn:Hwg.
  - apply andb_true_iff in Hwg as [Hlat Hlon].
    apply between_true in Hlat as [? ?], Hlon as [? ?].
    destruct (LegacyLocationDataService.between (125 # 10) lat (135 # 10)
              && LegacyLocationDataService.between (745 # 10) lon (758 # 10)) eqn:Hdk.
    + apply andb_true_iff in Hdk as [Hlat' Hlon'].
      apply between_true in Hlat' as [? ?], Hlon' as [? ?].
      split; split; try done.
      * intros Hn. by destruct Hn.
      * intros _. eexists. split; [reflexivity|done].
    + split; split; try done.
      * intros Hn. by destruct Hn.
      * by intros (a & [= <-] & Hd).
      * intros (? & ? & ? & ?). apply andb_false_iff in Hdk as [Hf | Hf];
          (assert (Ht : LegacyLocationDataService.between (125 # 10) lat (135 # 10) = true
                        ∧ LegacyLocationDataService.between (745 # 10) lon (758 # 10) = true)
             by (split; by apply between_true));
          destruct Ht; congruence.
  - split; split; try done.
    + intros _ (? & ? & ? & ?).
      assert (Ht : LegacyLocationDataService.between 8 lat 21 = true
                   ∧ LegacyLocationDataService.between 73 lon 78 = true)
        by (split; by apply between_true).
      destruct Ht as [Ha Hb]. by rewrite Ha, Hb in Hwg.
    + by intros (a & [=] & _).
    + intros (? & ? & ? & ?).
      assert (Ht : LegacyLocationDataService.between 8 lat 21 = true
                   ∧ LegacyLocationDataService.between 73 lon 78 = true)
        by (split; apply between_true; split; lra).
      destruct Ht as [Ha Hb]. by rewrite Ha, Hb in Hwg.
Qed.

End LegacyExtras.

Section BoundaryLoaderExtras.
Import LocationDataService BoundaryLoader.
Context {boundaryFiles : BoundaryFiles}.

(** X18.  The two boundary files are loaded independently: after
    [loadBoundaries] a boundary is loaded with its GeoJSON exactly when its
    own file was fetched and read, whatever happened to the other file, and
    is otherwise still not loaded; no other boundary appears. *)
Theorem boundaries_load_independently boundaryId :
  loadBoundaries initialBoundaries !! boundaryId
  = if decide (boundaryId = "dakshina_kannada") then
      Some (boundaryAfter "dakshina_kannada"
              (boundary_file "/data/boundaries/dakshina_kannada_boundary.geojson"))
    else if decide (boundaryId = "western_ghats") then
      Some (boundaryAfter "western_ghats"
              (boundary_file "/data/boundaries/western_ghats_boundary.geojson"))
    else None.
Proof.
  unfold loadBoundaries, boundaryPaths, loadBoundary, initialBoundaries, boundaryAfter.
  cbn [foldl fst snd].
  destruct (boundary_file "/data/boundaries/dakshina_kannada_boundary.geojson")
    as [| |[fc1|]];
    destruct (boundary_file "/data/boundaries/western_ghats_boundary.geojson")
      as [| |[fc2|]];
    repeat case_decide; subst; simplify_map_eq; done.
Qed.

End BoundaryLoaderExtras.

Lemma watershed_survives_indicator_failure_witness :
  @LocationDataService.getWatershedData CoreStackExtraScenario.noIndicatorsApi
    (EnrichScenario.service Scenario.districtFeature true) Scenario.lat Scenario.lon true
  = Fulfilled (Some {| LocationDataService.mwsId := "12_345";
                       LocationDataService.indicators := ∅;
                       LocationDataService.watershedSource :=
                         LocationDataService.ws_corestack_api |}).
Proof.
  apply (@watershed_survives_indicator_failure CoreStackExtraScenario.noIndicatorsApi
           (EnrichScenario.service Scenario.districtFeature true) Scenario.lat Scenario.lon
           {| CoreStackService.mws_id := "12_345" |} "Error: API error: 503").
  - reflexivity.
  - discriminate.
  - reflexivity.
Defined.

Lemma watershed_block_needs_the_api_witness :
  @LocationDataService.getWatershedData CoreStackExtraScenario.answeringApi
    (EnrichScenario.service Scenario.districtFeature true) Scenario.lat Scenario.lon false
  = Fulfilled None.
Proof.
  apply (proj1 (proj2 (@watershed_block_needs_the_api CoreStackExtraScenario.answeringApi
                         (EnrichScenario.service Scenario.districtFeature true)
                         Scenario.lat Scenario.lon false))).
  by left.
Defined.

Lemma boundary_test_skips_what_throws_witness :
  @LocationDataService.firstBoundaryFeature closedRingTurf
    (turfPoint Scenario.lon Scenario.lat)
    ([ExtraScenario.brokenFeature; ExtraScenario.pointFeature]
     ++ Scenario.districtFeature :: [])
  = Some (default ∅ (properties Scenario.districtFeature)).
Proof.
  apply (@boundary_test_skips_what_throws closedRingTurf).
  - repeat constructor; intros _; discriminate.
  - reflexivity.
  - reflexivity.
Defined.

Lemma unloaded_boundaries_give_no_admin_witness :
  (∀ boundaryId,
     @LocationDataService.isPointInBoundary rayCastTurf EnrichExtraScenario.withoutBoundaries
       Scenario.lat Scenario.lon boundaryId = None)
  ∧ @LocationDataService.getAdminData rayCastTurf CoreStackExtraScenario.answeringApi
      EnrichExtraScenario.withoutBoundaries Scenario.lat Scenario.lon false
    = Fulfilled None.
Proof.
  apply (@unloaded_boundaries_give_no_admin rayCastTurf CoreStackExtraScenario.answeringApi).
  intros boundaryId boundary. unfold EnrichExtraScenario.withoutBoundaries.
  cbn [LocationDataService.boundaries].
  replace (@LocationDataService.loadBoundaries BoundaryLoader.noFiles
             LocationDataService.initialBoundaries)
    with LocationDataService.initialBoundaries by (vm_compute; reflexivity).
  unfold LocationDataService.initialBoundaries. intros Hb.
  apply lookup_insert_Some in Hb as [[_ <-]|[_ Hb]]; [by left|].
  apply lookup_insert_Some in Hb as [[_ <-]|[_ Hb]]; [by left|done].
Defined.

(** X19.  After a call that returned a report the service is initialised,
    and a second call returns a report whatever the network and the files
    have become; it changes neither the datasets, nor the boundaries, the
    block table or the CoreStack client.  When the regional data is loaded
    after the first call, the second report has the same land-cover block
    and the Dynamic World client stays as it is; when it is not, the
    second call tries the file again. *)
Theorem repeated_enrichment_keeps_the_land_cover
    (turf turf' : Turf) (api api' : CoreStackService.Api)
    (weatherApi weatherApi' : WeatherService.Api)
    (files files' : DynamicWorldService.Files)
    (sources sources' : DatasetManager.Sources)
    (boundaryFiles boundaryFiles' : LocationDataService.BoundaryFiles)
    (blockFile blockFile' : LocationDataService.BlockFile)
    st now clock lat lon online now' clock' lat' lon' online' report after :
  @LocationDataService.enrichLocation turf api weatherApi files sources boundaryFiles
    blockFile st now clock lat lon online = Fulfilled (report, after) →
  ∃ report' after',
    @LocationDataService.enrichLocation turf' api' weatherApi' files' sources'
      boundaryFiles' blockFile' after now' clock' lat' lon' online'
    = Fulfilled (report', after')
    ∧ LocationDataService.initialized after = true
    ∧ LocationDataService.datasetManager after' = LocationDataService.datasetManager after
    ∧ LocationDataService.boundaries after' = LocationDataService.boundaries after
    ∧ LocationDataService.localCoreStackData after'
      = LocationDataService.localCoreStackData after
    ∧ LocationDataService.coreStackService after'
      = LocationDataService.coreStackService after
    ∧ LocationDataService.dynamicWorldService after'
      = @DynamicWorldService.loadCachedData files'
          (LocationDataService.dynamicWorldService after)
    ∧ (DynamicWorldService.dataLoaded (LocationDataService.dynamicWorldService after) = true →
       LocationDataService.landCover report' = LocationDataService.landCover report
       ∧ LocationDataService.dynamicWorldService after'
         = LocationDataService.dynamicWorldService after).
Proof.
  rewrite (@enrichLocation_cases turf api weatherApi files sources boundaryFiles blockFile).
  destruct (@LocationDataService.initialize sources boundaryFiles blockFile files st)
    as [ready|reason] eqn:Hinit; [|done].
  destruct (@initialize_marks files sources boundaryFiles blockFile st ready Hinit)
    as (Hready & _ & _).
  intros Hg.
  pose proof (f_equal (fun o => match o with Fulfilled p => fst p | Rejected _ => report end)
                Hg) as Hr.
  pose proof (f_equal (fun o => match o with Fulfilled p => snd p | Rejected _ => after end)
                Hg) as Ha.
  cbn beta iota in Hr, Ha. cbn [fst snd] in Hr, Ha. clear Hg.
  assert (Hafter : LocationDataService.initialized after = true)
    by (rewrite <- Ha; exact Hready).
  rewrite (@enrichLocation_cases turf' api' weatherApi' files' sources' boundaryFiles'
             blockFile').
  rewrite (@initialize_done files' sources' boundaryFiles' blockFile' after Hafter).
  eexists _, _. split; [reflexivity|]. split; [exact Hafter|].
  cbn [fst snd LocationDataService.gather LocationDataService.datasetManager
       LocationDataService.boundaries LocationDataService.localCoreStackData
       LocationDataService.coreStackService LocationDataService.dynamicWorldService
       LocationDataService.getLandCoverData].
  repeat (split; [reflexivity|]).
  intros Hloaded.
  assert (Hsame : @DynamicWorldService.loadCachedData files'
                    (LocationDataService.dynamicWorldService after)
                  = LocationDataService.dynamicWorldService after)
    by (unfold DynamicWorldService.loadCachedData; by rewrite Hloaded).
  split; [|exact Hsame].
  unfold LocationDataService.assemble. cbn [LocationDataService.landCover].
  rewrite Hsame, <- Hr, <- Ha.
  reflexivity.
Qed.

Lemma repeated_enrichment_keeps_the_land_cover_witness :
  ∃ report after report' after',
    @LocationDataService.enrichLocation rayCastTurf EnrichScenario.serverErrorApi
      WeatherScenario.goodApi EnrichScenario.regionalFile EnrichScenario.noSources
      EnrichScenario.noBoundaryFiles EnrichScenario.noBlockFile
      (EnrichScenario.created true) EnrichScenario.now WeatherScenario.firstClock
      Scenario.lat Scenario.lon true = Fulfilled (report, after)
    ∧ @LocationDataService.enrichLocation closedRingTurf CoreStackExtraScenario.answeringApi
        WeatherScenario.failingApi DynamicWorldExtraScenario.missingFile
        EnrichScenario.manifestWithoutLayers BoundaryLoader.regionalOnly
        EnrichScenario.noBlockFile after EnrichScenario.now WeatherScenario.secondClock
        Scenario.northLat Scenario.northLon false = Fulfilled (report', after')
    ∧ LocationDataService.landCover report' = LocationDataService.landCover report
    ∧ is_Some (LocationDataService.landCover report).
Proof.
  exists (fst (@LocationDataService.gather rayCastTurf EnrichScenario.serverErrorApi
                 WeatherScenario.goodApi EnrichScenario.regionalFile
                 (default (EnrichScenario.created true)
                    (match @LocationDataService.initialize EnrichScenario.noSources
                             EnrichScenario.noBoundaryFiles EnrichScenario.noBlockFile
                             EnrichScenario.regionalFile (EnrichScenario.created true) with
                     | Fulfilled ready => Some ready
                     | Rejected _ => None
                     end))
                 EnrichScenario.now WeatherScenario.firstClock Scenario.lat Scenario.lon true)).
  exists (snd (@LocationDataService.gather rayCastTurf EnrichScenario.serverErrorApi
                 WeatherScenario.goodApi EnrichScenario.regionalFile
                 (default (EnrichScenario.created true)
                    (match @LocationDataService.initialize EnrichScenario.noSources
                             EnrichScenario.noBoundaryFiles EnrichScenario.noBlockFile
                             EnrichScenario.regionalFile (EnrichScenario.created true) with
                     | Fulfilled ready => Some ready
                     | Rejected _ => None
                     end))
                 EnrichScenario.now WeatherScenario.firstClock Scenario.lat Scenario.lon true)).
  match goal with |- ∃ r' a', ?first = Fulfilled (?r, ?a) ∧ _ =>
    assert (Hfirst : first = Fulfilled (r, a)) by (vm_compute; reflexivity)
  end.
  destruct (@repeated_enrichment_keeps_the_land_cover
              rayCastTurf closedRingTurf EnrichScenario.serverErrorApi
              CoreStackExtraScenario.answeringApi WeatherScenario.goodApi
              WeatherScenario.failingApi EnrichScenario.regionalFile
              DynamicWorldExtraScenario.missingFile EnrichScenario.noSources
              EnrichScenario.manifestWithoutLayers EnrichScenario.noBoundaryFiles
              BoundaryLoader.regionalOnly EnrichScenario.noBlockFile
              EnrichScenario.noBlockFile _ _ _ _ _ _ EnrichScenario.now
              WeatherScenario.secondClock Scenario.northLat Scenario.northLon false
              _ _ Hfirst)
    as (report' & after' & Hsecond & _ & _ & _ & _ & _ & _ & Hsame).
  exists report', after'. split; [exact Hfirst|]. split; [exact Hsecond|].
  split; [apply Hsame; vm_compute; reflexivity|]. vm_compute. by eexists.
Defined.

(** ** [getSummaryAtPoint] *)

Section SummaryExtras.
Import DatasetManager DatasetSummary.
Context {turf : Turf}.

(** X20.  The summary of a point keeps every layer of the values: each
    entry of [getValuesAtPoint] appears under the same id, with the title
    that the catalog gives the layer, and there is no other entry; when
    the values reject, so does the summary. *)
Theorem summary_has_a_titled_entry_per_value st manifestRegion now lat lon ids :
  match getValuesAtPoint st lat lon ids with
  | Rejected reason =>
      getSummaryAtPoint st manifestRegion now lat lon ids = Rejected reason
  | Fulfilled values =>
      ∃ s, getSummaryAtPoint st manifestRegion now lat lon ids = Fulfilled s
           ∧ region s = manifestRegion ∧ queriedAt s = now
           ∧ ∀ i, layers s !! i
                  = match values !! i, getLayerById st i with
                    | Some v, Some layer =>
                        Some {| layerTitle := title layer; layerValues := v |}
                    | _, _ => None
                    end
                  ∧ (is_Some (layers s !! i) ↔ is_Some (values !! i))
  end.
Proof.
  unfold getSummaryAtPoint.
  destruct (getValuesAtPoint st lat lon ids) as [values|reason] eqn:Hv; simpl; [|done].
  eexists. split; [reflexivity|]. split; [done|]. split; [done|]. intros i. simpl.
  rewrite map_lookup_imap.
  assert (Hkey : is_Some (values !! i) → is_Some (getLayerById st i)).
  { unfold getValuesAtPoint in Hv. rewrite (queryLayers_entry _ _ _ _ i Hv).
    destruct (decide (i ∈ ids ∧ i ≠ "__proto__")) as [[Hi _]|Hi]; [|by intros []].
    destruct (queryLayers_each_settles _ _ _ _ _ i Hv Hi) as [r Hr]. rewrite Hr.
    rewrite (queryLayer_writes_iff _ _ _ _ Hr). tauto. }
  destruct (values !! i) as [v|] eqn:Hi; simpl.
  - destruct (Hkey (ex_intro _ v eq_refl)) as [layer ->]. split; [done|]. split; eauto.
  - split; [done|]. split; intros []; done.
Qed.

End SummaryExtras.

(** ** The series of the Dynamic World client *)

Section SeriesExtras.
Import DynamicWorldService DynamicWorldSeries.

Lemma find_year_none (l : list DynamicWorldData) y :
  List.find (fun d => (year d =? y)%Z) l = None ↔ y ∉ List.map year l.
Proof.
  induction l as [|d l IH]; simpl.
  - split; [intros _; apply not_elem_of_nil|done].
  - destruct (year d =? y)%Z eqn:E.
    + apply Z.eqb_eq in E. split; [done|]. intros Hn. exfalso. apply Hn. rewrite E. by left.
    + apply Z.eqb_neq in E. rewrite IH, not_elem_of_cons. split; [by split|by intros []].
Qed.

(** X21.  [getChangeStats] is [null] exactly when one of the two years is
    not among [getAvailableYears]; otherwise it has one entry per class, in
    the order of the class list. *)
Theorem change_stats_need_both_years st startYear endYear :
  (getChangeStats st startYear endYear = None
   ↔ startYear ∉ getAvailableYears st ∨ endYear ∉ getAvailableYears st)
  ∧ match getChangeStats st startYear endYear with
    | Some stats => List.map fst stats = classes
    | None => True
    end.
Proof.
  unfold getChangeStats, getAvailableYears. split.
  - rewrite <- !find_year_none.
    destruct (List.find _ (cachedData st)) as [s|];
      destruct (List.find (fun d => (year d =? endYear)%Z) (cachedData st)) as [e|];
      split; try done; try (by intros [?|?]); try (by left); by right.
  - destruct (List.find _ (cachedData st)) as [s|]; [|done].
    by destruct (List.find (fun d => (year d =? endYear)%Z) (cachedData st)) as [e|].
Qed.



End SeriesExtras.

(** ** [CoreStackService.enrichLocation] *)

Section CoreStackEnrichmentExtras.
Import CoreStackService CoreStackEnrichment.
Context {api : Api} {areaApi : AreaApi}.

Lemma request_available {T} st (answer : FetchResult T) :
  isAvailable st = true →
  request st answer
  = match answer with
    | FetchFailed r => Rejected r
    | HttpError status body => Rejected (errorText status body)
    | HttpOk body => body
    end.
Proof.
  unfold isAvailable, hasApiKey, request. intros [-> ->]%andb_true_iff. done.
Qed.

(** X23.  An enrichment carries either an error and nothing else, or the
    admin details and no error; the error of a client that is offline or
    has no key is ["CoreStack API not available"]. *)
Theorem enrichment_is_an_error_or_has_admin st lat lon :
  match error (enrichLocation st lat lon) with
  | Some message =>
      enrichLocation st lat lon = onlyError message
      ∧ (isAvailable st = true ∨ message = "CoreStack API not available")
  | None =>
      isAvailable st = true
      ∧ ∃ a, getAdminDetailsByLatLon st lat lon = Fulfilled (Some a)
             ∧ admin (enrichLocation st lat lon) = Some a
  end.
Proof.
  unfold enrichLocation. destruct (isAvailable st) eqn:Hav; simpl; [|by split; [|right]].
  destruct (getAdminDetailsByLatLon st lat lon) as [[a|]|reason]; simpl.
  - destruct (mwsPart st lat lon) as [m i]. simpl. split; [done|]. by exists a.
  - by split; [|left].
  - by split; [|left].
Qed.

(** X24.  Once the admin details have arrived, no other endpoint can fail
    the enrichment: it has the admin details and no error.  Indicators are
    there only with a watershed id, layers only with state and district
    code, water bodies only with a district code. *)
Theorem optional_endpoints_cannot_fail_the_enrichment st lat lon a :
  isAvailable st = true →
  get_admin_details_by_latlon lat lon = HttpOk (Fulfilled (Some a)) →
  admin (enrichLocation st lat lon) = Some a
  ∧ error (enrichLocation st lat lon) = None
  ∧ (indicators (enrichLocation st lat lon) = None
     ∨ nonEmpty (mwsId (enrichLocation st lat lon)) = true)
  ∧ (layerUrls (enrichLocation st lat lon) = None
     ∨ nonEmpty (state_code a) && nonEmpty (district_code a) = true)
  ∧ (waterbodies (enrichLocation st lat lon) = None ∨ nonEmpty (district_code a) = true).
Proof.
  intros Hav Hadmin. unfold enrichLocation, getAdminDetailsByLatLon.
  rewrite Hav, (request_available _ _ Hav), Hadmin. simpl.
  unfold mwsPart.
  destruct (getMWSIdByLatLon st lat lon) as [[m|]|]; simpl.
  - split; [done|]. split; [done|]. split.
    { destruct (negb (mws_id m =? "")%string) eqn:E; [by right|by left]. }
    split.
    + destruct (nonEmpty (state_code a) && nonEmpty (district_code a)); [by right|by left].
    + destruct (nonEmpty (district_code a)); [by right|by left].
  - split; [done|]. split; [done|]. split; [by left|]. split.
    + destruct (nonEmpty (state_code a) && nonEmpty (district_code a)); [by right|by left].
    + destruct (nonEmpty (district_code a)); [by right|by left].
  - split; [done|]. split; [done|]. split; [by left|]. split.
    + destruct (nonEmpty (state_code a) && nonEmpty (district_code a)); [by right|by left].
    + destruct (nonEmpty (district_code a)); [by right|by left].
Qed.

End CoreStackEnrichmentExtras.

(** ** SyncService *)

Section SyncExtras.
Import CoreStackService CoreStackEnrichment SyncService.
Context {api : Api} {areaApi : AreaApi}.
Variable cs : State.
Variable stamps : string → string.

Lemma get_found table i o : get table i = Some o → id o = i ∧ o ∈ table.
Proof.
  unfold get. intros Hf. apply find_some in Hf as [Hin He].
  apply String.eqb_eq in He. split; [done|]. by apply list_elem_of_In.
Qed.

Lemma get_single o : get [o] (id o) = Some o.
Proof. unfold get. simpl. by rewrite String.eqb_refl. Qed.

(** On a row that is found, [enrichObservation] does what it does on the
    row alone. *)
Lemma enrichObservation_found table o :
  get table (id o) = Some o →
  enrichObservation cs table (stamps (id o)) (id o)
  = (resultFor cs stamps o,
     match data (resultFor cs stamps o) with
     | Some values => update table (id o) values
     | None => table
     end).
Proof.
  intros Hget. unfold resultFor, enrichObservation. rewrite Hget, get_single.
  destruct (negb (isAvailable cs)); [done|].
  destruct (nonEmpty (error (enrichLocation cs (lat o) (lon o)))); done.
Qed.

Lemma resultFor_cases o :
  observationId (resultFor cs stamps o) = id o
  ∧ (success (resultFor cs stamps o) = true
       ∧ data (resultFor cs stamps o)
         = Some (<["corestack" :=
                     CoreStackEntry (admin (enrichLocation cs (lat o) (lon o)))
                       (mwsId (enrichLocation cs (lat o) (lon o)))
                       (indicators (enrichLocation cs (lat o) (lon o)))
                       (stamps (id o))]> (datasetValues o))
       ∧ resultError (resultFor cs stamps o) = None
       ∧ isAvailable cs = true
     ∨ success (resultFor cs stamps o) = false
       ∧ data (resultFor cs stamps o) = None
       ∧ is_Some (resultError (resultFor cs stamps o))).
Proof.
  unfold resultFor, enrichObservation. rewrite get_single.
  destruct (isAvailable cs); simpl; [|split; [done|right; eauto]].
  destruct (nonEmpty (error (enrichLocation cs (lat o) (lon o)))); simpl.
  - split; [done|right; eauto].
  - split; [done|left; eauto].
Qed.

Lemma get_middle prefix o suffix :
  NoDup (List.map id (prefix ++ o :: suffix)) →
  get (prefix ++ o :: suffix) (id o) = Some o.
Proof.
  unfold get. induction prefix as [|p prefix IH]; simpl.
  - intros _. by rewrite String.eqb_refl.
  - intros [Hp Hnd]%NoDup_cons. destruct (id p =? id o)%string eqn:E; [|by apply IH].
    apply String.eqb_eq in E. exfalso. apply Hp. rewrite E.
    apply list_elem_of_In, in_map, in_elt.
Qed.

Lemma update_other table i values :
  i ∉ List.map id table → update table i values = table.
Proof.
  unfold update. induction table as [|p table IH]; simpl; [done|].
  intros [Hp Hrest]%not_elem_of_cons. rewrite IH by done.
  destruct (id p =? i)%string eqn:E; [|done]. apply String.eqb_eq in E. congruence.
Qed.

Lemma update_middle prefix o suffix values :
  NoDup (List.map id (prefix ++ o :: suffix)) →
  update (prefix ++ o :: suffix) (id o) values
  = prefix ++ {| id := id o; lat := lat o; lon := lon o; datasetValues := values;
                 synced := Some true; others := others o |} :: suffix.
Proof.
  rewrite List.map_app. simpl. intros Hnd.
  apply NoDup_app in Hnd as (_ & Hdisj & [Ho _]%NoDup_cons).
  change (update (prefix ++ o :: suffix) (id o) values)
    with (List.map (fun p => if (id p =? id o)%string
                             then {| id := id p; lat := lat p; lon := lon p;
                                     datasetValues := values; synced := Some true;
                                     others := others p |}
                             else p) (prefix ++ o :: suffix)).
  rewrite List.map_app. simpl. rewrite String.eqb_refl. f_equal; [|f_equal].
  - apply update_other. intros Hin. apply (Hdisj _ Hin). by left.
  - by apply update_other.
Qed.

(** The loop, on a table without repeated ids: each pending row is
    enriched as if alone, in the order of the table. *)
Lemma enrichEach_spec suffix : ∀ prefix results errors_,
  NoDup (List.map id (prefix ++ suffix)) →
  enrichEach cs stamps (pending suffix) (prefix ++ suffix) results errors_
  = (results ++ List.map (resultFor cs stamps) (pending suffix),
     errors_ ++ List.flat_map (lineFor cs stamps) (pending suffix),
     prefix ++ List.map (rowAfter cs stamps) suffix).
Proof.
  induction suffix as [|o suffix IH]; intros prefix results errors_ Hnd.
  - simpl. by rewrite !app_nil_r.
  - unfold pending. simpl. unfold rowAfter at 1. destruct (notSynced o) eqn:Hns.
    + simpl. rewrite (enrichObservation_found _ _ (get_middle _ _ _ Hnd)).
      fold (pending suffix).
      destruct (data (resultFor cs stamps o)) as [values|] eqn:Hdata.
      * rewrite (update_middle _ _ _ _ Hnd).
        rewrite (cons_middle _ prefix suffix), app_assoc.
        rewrite IH.
        -- rewrite <- !app_assoc. simpl. unfold lineFor.
           destruct (negb (success (resultFor cs stamps o))
                     && nonEmpty (resultError (resultFor cs stamps o)));
             by rewrite <- ?app_assoc.
        -- rewrite <- app_assoc. simpl. revert Hnd. by rewrite !List.map_app.
      * rewrite (cons_middle _ prefix suffix), app_assoc.
        rewrite IH.
        -- rewrite <- !app_assoc. simpl. unfold lineFor.
           destruct (negb (success (resultFor cs stamps o))
                     && nonEmpty (resultError (resultFor cs stamps o)));
             by rewrite <- ?app_assoc.
        -- by rewrite <- app_assoc.
    + fold (pending suffix).
      rewrite (cons_middle _ prefix suffix), app_assoc.
      rewrite IH; [by rewrite <- !app_assoc|by rewrite <- app_assoc].
Qed.

Lemma pass_spec finishedAt imageCount st table :
  isSyncing st = false →
  NoDup (List.map id table) →
  enrichPendingObservations cs stamps finishedAt imageCount st table
  = (List.map (resultFor cs stamps) (pending table),
     {| pendingObservations := length (pending (List.map (rowAfter cs stamps) table));
        pendingImages := imageCount;
        lastSync := Some finishedAt;
        isSyncing := false;
        errors := List.flat_map (lineFor cs stamps) (pending table) |},
     List.map (rowAfter cs stamps) table).
Proof.
  intros Hidle Hnd. unfold enrichPendingObservations. rewrite Hidle.
  change (enrichEach cs stamps (pending table) table [] [])
    with (enrichEach cs stamps (pending table) ([] ++ table) [] []).
  by rewrite (enrichEach_spec table [] [] [] Hnd).
Qed.

Lemma rowAfter_cases o :
  rowAfter cs stamps o = o
    ∧ (notSynced o = false ∨ success (resultFor cs stamps o) = false)
  ∨ notSynced o = true
    ∧ success (resultFor cs stamps o) = true
    ∧ isAvailable cs = true
    ∧ rowAfter cs stamps o
      = {| id := id o; lat := lat o; lon := lon o;
           datasetValues :=
             <["corestack" :=
                 CoreStackEntry (admin (enrichLocation cs (lat o) (lon o)))
                   (mwsId (enrichLocation cs (lat o) (lon o)))
                   (indicators (enrichLocation cs (lat o) (lon o)))
                   (stamps (id o))]> (datasetValues o);
           synced := Some true; others := others o |}.
Proof.
  unfold rowAfter. destruct (notSynced o) eqn:Hns; [|left; eauto].
  destruct (resultFor_cases o) as [_ [(Hs & -> & _ & Hav)|(Hs & -> & _)]].
  - right. eauto.
  - left. eauto.
Qed.

Lemma pending_after table :
  pending (List.map (rowAfter cs stamps) table)
  = List.filter (fun o => negb (success (resultFor cs stamps o))) (pending table).
Proof.
  unfold pending. induction table as [|o table IH]; simpl; [done|].
  destruct (rowAfter_cases o) as [[-> [Hns|Hs]]|(Hns & Hs & _ & ->)].
  - by rewrite Hns.
  - destruct (notSynced o); [|done]. simpl. rewrite Hs. simpl. by rewrite IH.
  - rewrite Hns. simpl. rewrite Hs. simpl. done.
Qed.

Lemma filter_map_length {A B} (f : B → bool) (g : A → B) l :
  length (List.filter f (List.map g l)) = length (List.filter (fun a => f (g a)) l).
Proof.
  induction l as [|a l IH]; simpl; [done|]. destruct (f (g a)); simpl; by rewrite IH.
Qed.

(** X25.  A pass of a service that is not syncing, over a table without
    repeated ids, gives one result per pending observation, in the order of
    the table, each being what [enrichObservation] gives for that
    observation alone; afterwards the service is not syncing, the time of
    the pass is stored, and the errors are the lines of the failed results
    of this pass only. *)
Theorem pass_gives_one_result_per_pending_row finishedAt imageCount st table :
  isSyncing st = false →
  NoDup (List.map id table) →
  List.map observationId
    (passResults (enrichPendingObservations cs stamps finishedAt imageCount st table))
  = List.map id (pending table)
  ∧ passResults (enrichPendingObservations cs stamps finishedAt imageCount st table)
    = List.map (fun o => fst (enrichObservation cs [o] (stamps (id o)) (id o)))
        (pending table)
  ∧ isSyncing (passStatus (enrichPendingObservations cs stamps finishedAt imageCount st table))
    = false
  ∧ lastSync (passStatus (enrichPendingObservations cs stamps finishedAt imageCount st table))
    = Some finishedAt
  ∧ errors (passStatus (enrichPendingObservations cs stamps finishedAt imageCount st table))
    = List.flat_map (lineFor cs stamps) (pending table).
Proof.
  intros Hidle Hnd. rewrite (pass_spec _ _ _ _ Hidle Hnd).
  unfold passResults, passStatus. simpl. split; [|done].
  rewrite List.map_map. apply List.map_ext. intros o. apply resultFor_cases.
Qed.

(** X26.  After such a pass the pending observations are exactly those
    whose enrichment failed, unchanged and in their order, and the pending
    count of the status is the number of failed results. *)
Theorem what_failed_stays_pending finishedAt imageCount st table :
  isSyncing st = false →
  NoDup (List.map id table) →
  pending (passTable (enrichPendingObservations cs stamps finishedAt imageCount st table))
  = List.filter (fun o => negb (success (fst (enrichObservation cs [o] (stamps (id o)) (id o)))))
      (pending table)
  ∧ pendingObservations
      (passStatus (enrichPendingObservations cs stamps finishedAt imageCount st table))
    = length (List.filter (fun r => negb (success r))
                (passResults
                   (enrichPendingObservations cs stamps finishedAt imageCount st table))).
Proof.
  intros Hidle Hnd. rewrite (pass_spec _ _ _ _ Hidle Hnd).
  unfold passResults, passStatus, passTable. simpl.
  rewrite pending_after. split; [done|]. by rewrite filter_map_length.
Qed.

(** X27.  A pass keeps the rows of the table and their order.  A row that
    was synced before, or whose enrichment failed, is left as it was.  An
    enriched row is marked as synced and gets the stamped ["corestack"]
    entry; its id, location, other fields and the values of every other
    layer are kept. *)
Theorem pass_keeps_rows_and_other_values finishedAt imageCount st table :
  isSyncing st = false →
  NoDup (List.map id table) →
  passTable (enrichPendingObservations cs stamps finishedAt imageCount st table)
  = List.map (rowAfter cs stamps) table
  ∧ ∀ o,
      id (rowAfter cs stamps o) = id o
      ∧ lat (rowAfter cs stamps o) = lat o
      ∧ lon (rowAfter cs stamps o) = lon o
      ∧ others (rowAfter cs stamps o) = others o
      ∧ (∀ k, k = "corestack"
              ∨ datasetValues (rowAfter cs stamps o) !! k = datasetValues o !! k)
      ∧ (rowAfter cs stamps o = o
           ∧ (notSynced o = false
              ∨ success (fst (enrichObservation cs [o] (stamps (id o)) (id o))) = false)
         ∨ notSynced o = true
           ∧ success (fst (enrichObservation cs [o] (stamps (id o)) (id o))) = true
           ∧ synced (rowAfter cs stamps o) = Some true
           ∧ ∃ a m i,
               datasetValues (rowAfter cs stamps o) !! "corestack"
               = Some (CoreStackEntry a m i (stamps (id o)))).
Proof.
  intros Hidle Hnd. rewrite (pass_spec _ _ _ _ Hidle Hnd). unfold passTable. simpl.
  split; [done|]. intros o.
  destruct (rowAfter_cases o) as [[E H]|(Hns & Hs & _ & E)].
  - rewrite E. repeat (split; [done|]). split; [by right|]. left. done.
  - rewrite E. simpl. repeat (split; [done|]). split.
    + intros k. destruct (decide (k = "corestack")) as [->|Hk]; [by left|right].
      by rewrite lookup_insert_ne.
    + right. split; [done|]. split; [done|]. split; [done|].
      eexists _, _, _. by rewrite lookup_insert_eq.
Qed.

(** X28.  While CoreStack is not available a pass changes no row: every
    pending observation gets the failed result ["CoreStack API not
    available"] and a line in the errors, and the pending count stays. *)
Theorem unavailable_pass_changes_nothing finishedAt imageCount st table :
  isAvailable cs = false →
  isSyncing st = false →
  NoDup (List.map id table) →
  passTable (enrichPendingObservations cs stamps finishedAt imageCount st table) = table
  ∧ passResults (enrichPendingObservations cs stamps finishedAt imageCount st table)
    = List.map (fun o => failed (id o) "CoreStack API not available") (pending table)
  ∧ errors (passStatus (enrichPendingObservations cs stamps finishedAt imageCount st table))
    = List.map (fun o => "Observation " +:+ id o +:+ ": CoreStack API not available")
        (pending table)
  ∧ pendingObservations
      (passStatus (enrichPendingObservations cs stamps finishedAt imageCount st table))
    = length (pending table).
Proof.
  intros Hav Hidle Hnd. rewrite (pass_spec _ _ _ _ Hidle Hnd).
  unfold passResults, passStatus, passTable. simpl.
  assert (Hr : ∀ o, resultFor cs stamps o = failed (id o) "CoreStack API not available").
  { intros o. unfold resultFor, enrichObservation. by rewrite get_single, Hav. }
  assert (Hrow : List.map (rowAfter cs stamps) table = table).
  { rewrite <- (List.map_id table) at 2. apply List.map_ext. intros o.
    unfold rowAfter. rewrite Hr. simpl. by destruct (notSynced o). }
  rewrite Hrow. split; [done|]. split; [by apply List.map_ext|]. split; [|done].
  induction (pending table) as [|o l IH]; simpl; [done|].
  unfold lineFor at 1. rewrite Hr. simpl. by rewrite IH.
Qed.

End SyncExtras.


Lemma optional_endpoints_cannot_fail_the_enrichment_witness :
  CoreStackEnrichment.error
    (@CoreStackEnrichment.enrichLocation CoreStackExtraScenario.noIndicatorsApi
       SyncScenario.noAreaData SyncScenario.client Scenario.lat Scenario.lon) = None
  ∧ CoreStackEnrichment.indicators
      (@CoreStackEnrichment.enrichLocation CoreStackExtraScenario.noIndicatorsApi
         SyncScenario.noAreaData SyncScenario.client Scenario.lat Scenario.lon) = None
  ∧ CoreStackEnrichment.mwsId
      (@CoreStackEnrichment.enrichLocation CoreStackExtraScenario.noIndicatorsApi
         SyncScenario.noAreaData SyncScenario.client Scenario.lat Scenario.lon)
    = Some "12_345".
Proof.
  destruct (@optional_endpoints_cannot_fail_the_enrichment
              CoreStackExtraScenario.noIndicatorsApi SyncScenario.noAreaData
              SyncScenario.client Scenario.lat Scenario.lon _ eq_refl eq_refl)
    as (_ & Herr & _).
  split; [exact Herr|]. split; reflexivity.
Defined.

Lemma sync_scenario_ids : NoDup (List.map SyncService.id SyncScenario.table).
Proof.
  apply NoDup_cons. split; [vm_compute; by intros [|[|[]%elem_of_nil]%elem_of_cons]%elem_of_cons|].
  apply NoDup_cons. split; [vm_compute; by intros [|[]%elem_of_nil]%elem_of_cons|].
  apply NoDup_cons. split; [apply not_elem_of_nil|apply NoDup_nil_2].
Defined.

Lemma pass_gives_one_result_per_pending_row_witness :
  List.map SyncService.observationId
    (passResults (@SyncService.enrichPendingObservations SyncScenario.southOnlyApi
                    SyncScenario.noAreaData SyncScenario.client SyncScenario.stamps
                    "2025-01-15T10:00:05.000Z" 4 SyncScenario.idle SyncScenario.table))
  = ["obs-2"; "obs-3"]
  ∧ SyncService.errors
      (passStatus (@SyncService.enrichPendingObservations SyncScenario.southOnlyApi
                     SyncScenario.noAreaData SyncScenario.client SyncScenario.stamps
                     "2025-01-15T10:00:05.000Z" 4 SyncScenario.idle SyncScenario.table))
    = ["Observation obs-3: API error: 500"].
Proof.
  destruct (@pass_gives_one_result_per_pending_row SyncScenario.southOnlyApi
              SyncScenario.noAreaData SyncScenario.client SyncScenario.stamps
              "2025-01-15T10:00:05.000Z" 4 SyncScenario.idle SyncScenario.table
              eq_refl sync_scenario_ids) as (Hids & _ & _ & _ & Herr).
  split; [exact Hids|]. rewrite Herr. reflexivity.
Defined.

Lemma what_failed_stays_pending_witness :
  List.map SyncService.id
    (SyncService.pending
       (passTable (@SyncService.enrichPendingObservations SyncScenario.southOnlyApi
                     SyncScenario.noAreaData SyncScenario.client SyncScenario.stamps
                     "2025-01-15T10:00:05.000Z" 4 SyncScenario.idle SyncScenario.table)))
  = ["obs-3"]
  ∧ SyncService.pendingObservations
      (passStatus (@SyncService.enrichPendingObservations SyncScenario.southOnlyApi
                     SyncScenario.noAreaData SyncScenario.client SyncScenario.stamps
                     "2025-01-15T10:00:05.000Z" 4 SyncScenario.idle SyncScenario.table))
    = 1%nat.
Proof.
  destruct (@what_failed_stays_pending SyncScenario.southOnlyApi
              SyncScenario.noAreaData SyncScenario.client SyncScenario.stamps
              "2025-01-15T10:00:05.000Z" 4 SyncScenario.idle SyncScenario.table
              eq_refl sync_scenario_ids) as [Hpending Hcount].
  split; [rewrite Hpending|rewrite Hcount]; reflexivity.
Defined.

Lemma pass_keeps_rows_and_other_values_witness :
  List.map SyncService.synced
    (passTable (@SyncService.enrichPendingObservations SyncScenario.southOnlyApi
                  SyncScenario.noAreaData SyncScenario.client SyncScenario.stamps
                  "2025-01-15T10:00:05.000Z" 4 SyncScenario.idle SyncScenario.table))
  = [Some true; Some true; Some false].
Proof.
  destruct (@pass_keeps_rows_and_other_values SyncScenario.southOnlyApi
              SyncScenario.noAreaData SyncScenario.client SyncScenario.stamps
              "2025-01-15T10:00:05.000Z" 4 SyncScenario.idle SyncScenario.table
              eq_refl sync_scenario_ids) as [Htable _].
  rewrite Htable. reflexivity.
Defined.

Lemma unavailable_pass_changes_nothing_witness :
  passTable (@SyncService.enrichPendingObservations SyncScenario.southOnlyApi
               SyncScenario.noAreaData CoreStackExtraScenario.keyCleared SyncScenario.stamps
               "2025-01-15T10:00:05.000Z" 4 SyncScenario.idle SyncScenario.table)
  = SyncScenario.table
  ∧ SyncService.errors
      (passStatus (@SyncService.enrichPendingObservations SyncScenario.southOnlyApi
                     SyncScenario.noAreaData CoreStackExtraScenario.keyCleared
                     SyncScenario.stamps "2025-01-15T10:00:05.000Z" 4 SyncScenario.idle
                     SyncScenario.table))
    = ["Observation obs-2: CoreStack API not available";
       "Observation obs-3: CoreStack API not available"].
Proof.
  destruct (@unavailable_pass_changes_nothing SyncScenario.southOnlyApi
              SyncScenario.noAreaData CoreStackExtraScenario.keyCleared SyncScenario.stamps
              "2025-01-15T10:00:05.000Z" 4 SyncScenario.idle SyncScenario.table
              eq_refl eq_refl sync_scenario_ids) as (Htable & _ & Herr & _).
  split; [exact Htable|]. rewrite Herr. reflexivity.
Defined.

(** ** The normal form of a district name *)

Section NameExtras.

Lemma isSpace_space : isSpace " " = true.
Proof. reflexivity. Qed.

Lemma lowerChar_idem c : lowerChar (lowerChar c) = lowerChar c.
Proof. destruct c as [[] [] [] [] [] [] [] []]; reflexivity. Qed.

Lemma lowerChar_space : lowerChar " " = " "%char.
Proof. reflexivity. Qed.

Lemma collapseSpaces_length b l : (length (collapseSpaces b l) <= length l)%nat.
Proof.
  revert b. induction l as [|c l IH]; intros b; simpl; [lia|].
  destruct (isSpace c); [destruct b|]; simpl.
  - specialize (IH true). lia.
  - specialize (IH true). lia.
  - specialize (IH false). lia.
Qed.

Lemma collapseSpaces_idem l : ∀ b, collapseSpaces b (collapseSpaces b l) = collapseSpaces b l.
Proof.
  induction l as [|c l IH]; intros b; simpl; [done|].
  destruct (isSpace c) eqn:E; [destruct b|]; simpl.
  - apply IH.
  - by rewrite IH.
  - by rewrite E, IH.
Qed.

(** The fixed points of [collapseSpaces]: a leading white space is a single
    blank, and is possible only outside a run. *)
Lemma collapsed_cons b c l :
  collapseSpaces b (c :: l) = c :: l →
  (isSpace c = true ∧ b = false ∧ c = " "%char ∧ collapseSpaces true l = l)
  ∨ (isSpace c = false ∧ collapseSpaces false l = l).
Proof.
  simpl. destruct (isSpace c) eqn:E; [destruct b|].
  - intros H. pose proof (collapseSpaces_length true l) as Hlen.
    rewrite H in Hlen. simpl in Hlen. lia.
  - intros [= <- H]. left. done.
  - intros [= H]. right. done.
Qed.

Lemma dropSpaces_collapsed l : ∀ b,
  collapseSpaces b l = l → collapseSpaces false (dropSpaces l) = dropSpaces l.
Proof.
  induction l as [|c l IH]; intros b H; [done|].
  destruct (collapsed_cons _ _ _ H) as [(E & _ & _ & Hl)|[E Hl]]; simpl; rewrite E.
  - by apply (IH true).
  - simpl. by rewrite E, Hl.
Qed.

(** [trimEnd], as the model writes it. *)
Lemma dropSpaces_app a b :
  dropSpaces (a ++ b) = match dropSpaces a with [] => dropSpaces b | x => x ++ b end.
Proof.
  induction a as [|c a IH]; simpl; [by destruct (dropSpaces b)|].
  destruct (isSpace c); [apply IH|done].
Qed.

Lemma dropEnd_cons c l :
  rev (dropSpaces (rev (c :: l)))
  = match rev (dropSpaces (rev l)) with
    | [] => if isSpace c then [] else [c]
    | x => c :: x
    end.
Proof.
  simpl. rewrite dropSpaces_app. destruct (dropSpaces (rev l)) as [|d r] eqn:E; simpl.
  - by destruct (isSpace c).
  - rewrite rev_app_distr. simpl. by destruct (rev r ++ [d]) eqn:E'; [destruct (rev r)|].
Qed.

Lemma dropEnd_collapsed l : ∀ b,
  collapseSpaces b l = l →
  collapseSpaces b (rev (dropSpaces (rev l))) = rev (dropSpaces (rev l)).
Proof.
  induction l as [|c l IH]; intros b H; [done|].
  rewrite dropEnd_cons.
  destruct (collapsed_cons _ _ _ H) as [(E & -> & -> & Hl)|[E Hl]].
  - specialize (IH true Hl). destruct (rev (dropSpaces (rev l))) as [|d r]; [done|].
    simpl in *. by rewrite IH.
  - specialize (IH false Hl). destruct (rev (dropSpaces (rev l))) as [|d r].
    + rewrite E. simpl. by rewrite E.
    + simpl in *. by rewrite E, IH.
Qed.

Lemma dropSpaces_head l : headNonSpace (dropSpaces l).
Proof.
  induction l as [|c l IH]; simpl; [done|]. destruct (isSpace c) eqn:E; [done|]. exact E.
Qed.

Lemma dropSpaces_fixed l : headNonSpace l → dropSpaces l = l.
Proof. destruct l as [|c l]; simpl; [done|]. by intros ->. Qed.

Lemma dropEnd_head l : headNonSpace l → headNonSpace (rev (dropSpaces (rev l))).
Proof.
  destruct l as [|c l]; [done|]. intros H. rewrite dropEnd_cons.
  destruct (rev (dropSpaces (rev l))); simpl in *; [by rewrite H|done].
Qed.

Lemma trimChars_idem l : trimChars (trimChars l) = trimChars l.
Proof.
  unfold trimChars.
  rewrite (dropSpaces_fixed (rev (dropSpaces (rev (dropSpaces l)))))
    by apply dropEnd_head, dropSpaces_head.
  rewrite rev_involutive. by rewrite (dropSpaces_fixed _ (dropSpaces_head _)).
Qed.

Lemma dropSpaces_Forall (P : ascii → Prop) l : Forall P l → Forall P (dropSpaces l).
Proof.
  induction 1 as [|c l Hc Hl IH]; simpl; [done|]. destruct (isSpace c); [done|by constructor].
Qed.

Lemma trimChars_Forall (P : ascii → Prop) l : Forall P l → Forall P (trimChars l).
Proof.
  intros H. unfold trimChars.
  apply Forall_forall. intros c Hc. apply list_elem_of_In, in_rev, list_elem_of_In in Hc.
  revert c Hc. apply Forall_forall, dropSpaces_Forall.
  apply Forall_forall. intros c Hc. apply list_elem_of_In, in_rev, list_elem_of_In in Hc.
  revert c Hc. by apply Forall_forall, dropSpaces_Forall.
Qed.

Lemma collapseSpaces_lower l : ∀ b,
  Forall (fun c => lowerChar c = c) (collapseSpaces b (List.map lowerChar l)).
Proof.
  induction l as [|c l IH]; intros b; simpl; [done|].
  destruct (isSpace (lowerChar c)); [destruct b|].
  - apply IH.
  - constructor; [reflexivity|apply IH].
  - constructor; [apply lowerChar_idem|apply IH].
Qed.

Lemma map_fixed {A} (f : A → A) l : Forall (fun c => f c = c) l → List.map f l = l.
Proof. induction 1 as [|c l Hc Hl IH]; simpl; [done|]. by rewrite Hc, IH. Qed.

Lemma normalizeName_idem s : normalizeName (normalizeName s) = normalizeName s.
Proof.
  unfold normalizeName. rewrite list_ascii_of_string_of_list_ascii. f_equal.
  set (m := collapseSpaces false (List.map lowerChar (list_ascii_of_string s))).
  rewrite (map_fixed lowerChar (trimChars m))
    by apply trimChars_Forall, collapseSpaces_lower.
  assert (Hm : collapseSpaces false (trimChars m) = trimChars m).
  { unfold trimChars. apply dropEnd_collapsed, (dropSpaces_collapsed _ false).
    apply collapseSpaces_idem. }
  rewrite Hm. apply trimChars_idem.
Qed.

(** X29.  The normal form of a district name (lower case, runs of white
    space as one blank, no white space at either end; on ASCII) is stable:
    normalising it again changes nothing.  So the block table answers the
    same for a name and for its normal form. *)
Theorem block_lookup_uses_a_stable_normal_form st d :
  normalizeName (normalizeName d) = normalizeName d
  ∧ LocationDataService.getLocalBlockData st (JStr (normalizeName d))
    = LocationDataService.getLocalBlockData st (JStr d).
Proof.
  split; [apply normalizeName_idem|].
  unfold LocationDataService.getLocalBlockData. by rewrite normalizeName_idem.
Qed.

End NameExtras.
